(** * The plugin output manager of OWTF ([owtf/managers/poutput.py])

    A shallow embedding of the plugin result store: the rows of the
    [plugin_outputs] table, the query that [poutput_gen_query] composes from a
    filter dictionary, the save / update / delete operations, the progress
    counters and the severity histogram, followed by the properties of these
    operations. Python's [int] and the collaborators that encode, decode and
    render an output are taken as they come: the operations are embedded
    over them, and the properties hold whatever they are. *)

From Stdlib Require Import ZArith Ascii String List Lia Bool Sorted.
From stdpp Require Import gmap strings list fin_maps.

Local Open Scope string_scope.

(** ** Python values and built-ins used by the manager *)

(** The values of a filter or patch dictionary: the source tests them with
    [isinstance(v, str)] and [isinstance(v, list)]. *)
Inductive pyval :=
  | PStr (s : string)
  | PList (l : list string).

(** A filter or patch dictionary. *)
Abbreviation filter_dict := (gmap string pyval).

(** Truth value of [d.get(k, None)]: [None], the empty string and the empty
    list are false. *)
Definition truthy (v : option pyval) : bool :=
  match v with
  | None => false
  | Some (PStr s) => negb (String.eqb s "")
  | Some (PList l) => match l with [] => false | _ :: _ => true end
  end.

(** Truth value of a nullable string attribute ([if plugin.output_path:]). *)
Definition truthy_str (v : option string) : bool :=
  match v with
  | None => false
  | Some s => negb (String.eqb s "")
  end.

(** Python's [int] on a string: the integer it reads, [None] for its
    [ValueError]. What it reads is a matter of the interpreter (the digits
    and blanks of its Unicode tables, its limit on the number of digits), so
    the manager is embedded over any such function; of the function itself
    only this is used: the empty string is no integer. *)
Class IntOfStr := {
  py_int : string -> option Z;
  py_int_empty : py_int "" = None
}.

(** [os.path.join(a, b)] of [posixpath]. *)
Definition ends_with_sep (a : string) : bool :=
  match rev (list_ascii_of_string a) with
  | c :: _ => Ascii.eqb c "/"%char
  | [] => false
  end.

Definition path_join (a b : string) : string :=
  if String.prefix "/" b then b
  else if String.eqb a "" || ends_with_sep a then a ++ b
  else a ++ "/" ++ b.

(** The exceptions the manager raises or lets through. [RenderingError]
    stands for whatever [json.loads], [getattr] or a method of the reporter
    raises while an output is rendered: the manager catches none of them and
    their classes are not told apart. *)
Inductive exn :=
  | InvalidParameterType (msg : string)
  | IndexError
  | SQLAlchemyError
  | InvalidRequestError
  | RenderingError.

Inductive result (A : Type) :=
  | Ok (a : A)
  | Raise (e : exn).
Arguments Ok {A} a.
Arguments Raise {A} e.

(** ** The tables *)

(** A row of [models.PluginOutput]. The nullable columns the manager leaves
    unset are options; [date_time] and the derived [run_time] play no role in
    the manager's decisions and are left out. *)
Record PluginOutput := mkPluginOutput {
  target_id : Z;
  plugin_key : string;
  plugin_code : string;
  plugin_group : string;
  plugin_type : string;
  output : option string;
  error : option string;
  status : string;
  user_notes : option string;
  user_rank : Z;
  owtf_rank : Z;
  output_path : option string;
  start_time : Z;
  end_time : Z
}.

(** The plugin dictionary a worker hands to the save operations. *)
Record Plugin := mkPlugin {
  p_key : string;
  p_code : string;
  p_group : string;
  p_type : string;
  p_start : Z;
  p_end : Z;
  p_status : string;
  p_owtf_rank : Z;
  p_output_path : option string
}.

(** A row of [models.Work], the queue of pending work. *)
Record Work := mkWork {
  work_target : Z;
  work_plugin_key : string
}.

(** A row of [models.Target] with the ids of the sessions it belongs to. *)
Record Target := mkTarget {
  id : Z;
  sessions : list Z
}.

(** Modelled from the spec: the identity of a [models.PluginOutput] row
    ([owtf/db/models.py] is not part of the sources at hand). The record table
    is keyed by [(target_id, plugin_group, plugin_type, plugin_code)]; this is
    the identity [db.session.merge] compares. *)
Definition natural_key (r : PluginOutput) : Z * string * string * string :=
  (target_id r, plugin_group r, plugin_type r, plugin_code r).

Definition key_eqb (k1 k2 : Z * string * string * string) : bool :=
  match k1, k2 with
  | (t1, g1, ty1, c1), (t2, g2, ty2, c2) =>
      Z.eqb t1 t2 && String.eqb g1 g2 && String.eqb ty1 ty2 && String.eqb c1 c2
  end.

(** Column defaults of a fresh row: both ranks default to [-1], the nullable
    columns to NULL. The other attributes are always given by the caller. *)
Definition default_row : PluginOutput :=
  {| target_id := 0; plugin_key := ""; plugin_code := ""; plugin_group := "";
     plugin_type := ""; output := None; error := None; status := "";
     user_notes := None; user_rank := -1; owtf_rank := -1;
     output_path := None; start_time := 0; end_time := 0 |}.

(** ** Queries *)

Inductive str_column := c_plugin_key | c_plugin_type | c_plugin_group | c_plugin_code | c_status.
Inductive int_column := c_target_id | c_user_rank | c_owtf_rank.

Definition str_attr (c : str_column) (r : PluginOutput) : string :=
  match c with
  | c_plugin_key => plugin_key r
  | c_plugin_type => plugin_type r
  | c_plugin_group => plugin_group r
  | c_plugin_code => plugin_code r
  | c_status => status r
  end.

Definition int_attr (c : int_column) (r : PluginOutput) : Z :=
  match c with
  | c_target_id => target_id r
  | c_user_rank => user_rank r
  | c_owtf_rank => owtf_rank r
  end.

(** One criterion of a WHERE clause: [filter_by(col=v)] or
    [filter(col.in_(vs))]. *)
Inductive criterion :=
  | StrEq (c : str_column) (v : string)
  | StrIn (c : str_column) (vs : list string)
  | IntEq (c : int_column) (v : Z)
  | IntIn (c : int_column) (vs : list Z).

Definition holds (r : PluginOutput) (c : criterion) : bool :=
  match c with
  | StrEq col v => String.eqb (str_attr col r) v
  | StrIn col vs => existsb (String.eqb (str_attr col r)) vs
  | IntEq col v => Z.eqb (int_attr col r) v
  | IntIn col vs => existsb (Z.eqb (int_attr col r)) vs
  end.

(** A query object: the criteria added so far (all of them must hold), whether
    [order_by(plugin_key.asc())] was called, and the bounds given to
    [offset()] and [limit()]. *)
Record Query := mkQuery {
  q_where : list criterion;
  q_ordered : bool;
  q_offset : option Z;
  q_limit : option Z
}.

Definition query_target (t : Z) : Query :=
  {| q_where := [IntEq c_target_id t]; q_ordered := false;
     q_offset := None; q_limit := None |}.

Definition add_criterion (q : Query) (c : criterion) : Query :=
  {| q_where := q_where q ++ [c]; q_ordered := q_ordered q;
     q_offset := q_offset q; q_limit := q_limit q |}.

Definition order_by_key (q : Query) : Query :=
  {| q_where := q_where q; q_ordered := true;
     q_offset := q_offset q; q_limit := q_limit q |}.

Definition set_offset (q : Query) (n : Z) : Query :=
  {| q_where := q_where q; q_ordered := q_ordered q;
     q_offset := Some n; q_limit := q_limit q |}.

Definition set_limit (q : Query) (n : Z) : Query :=
  {| q_where := q_where q; q_ordered := q_ordered q;
     q_offset := q_offset q; q_limit := Some n |}.

(** The rows a query selects: every criterion holds. *)
Definition matches (q : Query) (r : PluginOutput) : bool :=
  forallb (holds r) (q_where q).

(** [ORDER BY plugin_key ASC]: a stable insertion sort on the key's bytes. *)
Fixpoint insert_row (r : PluginOutput) (l : list PluginOutput) : list PluginOutput :=
  match l with
  | [] => [r]
  | x :: l' =>
      if String.leb (plugin_key r) (plugin_key x) then r :: l
      else x :: insert_row r l'
  end.

Fixpoint sort_rows (l : list PluginOutput) : list PluginOutput :=
  match l with
  | [] => []
  | r :: l' => insert_row r (sort_rows l')
  end.

Definition selected (q : Query) (tbl : list PluginOutput) : list PluginOutput :=
  let rows := filter (fun r => matches q r = true) tbl in
  if q_ordered q then sort_rows rows else rows.

Definition bound_ok (b : option Z) : bool :=
  match b with
  | Some n => (0 <=? n)%Z
  | None => true
  end.

Definition apply_offset (b : option Z) (rows : list PluginOutput) : list PluginOutput :=
  match b with
  | Some n => drop (Z.to_nat n) rows
  | None => rows
  end.

Definition apply_limit (b : option Z) (rows : list PluginOutput) : list PluginOutput :=
  match b with
  | Some n => take (Z.to_nat n) rows
  | None => rows
  end.

(** [query.all()]: WHERE, then ORDER BY, then OFFSET, then LIMIT. The engine
    rejects a negative OFFSET or LIMIT. What the session is worth after such
    a refusal (the manager does not roll back) is not modelled: no property
    below speaks of a state reached through one. *)
Definition query_all (q : Query) (tbl : list PluginOutput) : result (list PluginOutput) :=
  if bound_ok (q_offset q) && bound_ok (q_limit q)
  then Ok (apply_limit (q_limit q) (apply_offset (q_offset q) (selected q tbl)))
  else Raise SQLAlchemyError.

(** [query.first()]: the query with [LIMIT 1], its row if there is one. *)
Definition query_first (q : Query) (tbl : list PluginOutput) : result (option PluginOutput) :=
  match query_all (set_limit q 1) tbl with
  | Ok rows => Ok (head rows)
  | Raise e => Raise e
  end.

(** [query.delete()]: the table without the selected rows. SQLAlchemy refuses
    a bulk delete on a query that was ordered or paginated. *)
Definition query_delete (q : Query) (tbl : list PluginOutput) : result (list PluginOutput) :=
  match q_ordered q, q_offset q, q_limit q with
  | false, None, None => Ok (filter (fun r => matches q r = false) tbl)
  | _, _, _ => Raise InvalidRequestError
  end.

(** ** The state the manager works on *)

(** What [config_handler] supplies. *)
Record Config := mkConfig {
  get_output_dir_target : string;
  get_plugin_output_dir : Plugin -> string
}.

(** The effects whose order matters, in the order they happen. *)
Inductive Event :=
  | EvRmTree (path : string)
  | EvDelete
  | EvCommit
  | EvRollback.

(** [plugin_outputs] is the table as the session sees it, [committed_outputs]
    the table as of the last commit; [fs] lists the paths that exist on disk;
    [busy_workers] is what [worker_manager.get_busy_workers()] reports;
    [active_target] is the target set with [target_manager.set_target];
    [storage_ok] tells whether the storage engine accepts a commit. *)
Record State := mkState {
  plugin_outputs : list PluginOutput;
  committed_outputs : list PluginOutput;
  works : list Work;
  targets : list Target;
  fs : list string;
  busy_workers : Z;
  active_target : option Z;
  storage_ok : bool;
  config : Config;
  trail : list Event
}.

Definition set_outputs (s : State) (rows : list PluginOutput) : State :=
  mkState rows (committed_outputs s) (works s) (targets s) (fs s) (busy_workers s)
          (active_target s) (storage_ok s) (config s) (trail s).

Definition set_committed (s : State) (rows : list PluginOutput) : State :=
  mkState (plugin_outputs s) rows (works s) (targets s) (fs s) (busy_workers s)
          (active_target s) (storage_ok s) (config s) (trail s).

Definition set_fs (s : State) (paths : list string) : State :=
  mkState (plugin_outputs s) (committed_outputs s) (works s) (targets s) paths
          (busy_workers s) (active_target s) (storage_ok s) (config s) (trail s).

Definition set_active (s : State) (t : Z) : State :=
  mkState (plugin_outputs s) (committed_outputs s) (works s) (targets s) (fs s)
          (busy_workers s) (Some t) (storage_ok s) (config s) (trail s).

Definition add_event (s : State) (e : Event) : State :=
  mkState (plugin_outputs s) (committed_outputs s) (works s) (targets s) (fs s)
          (busy_workers s) (active_target s) (storage_ok s) (config s) (trail s ++ [e]).

(** A computation reads and changes the state and returns or raises; what it
    changed before raising stays changed. *)
Definition M (A : Type) : Type := State -> result A * State.

Definition ret {A} (a : A) : M A := fun s => (Ok a, s).

Definition raise {A} (e : exn) : M A := fun s => (Raise e, s).

Definition bind {A B} (m : M A) (k : A -> M B) : M B :=
  fun s => match m s with
           | (Ok a, s') => k a s'
           | (Raise e, s') => (Raise e, s')
           end.

Definition lift {A} (r : result A) : M A := fun s => (r, s).

Definition gets {A} (f : State -> A) : M A := fun s => (Ok (f s), s).

Declare Scope manager_scope.
Delimit Scope manager_scope with M.
Notation "x <- m ;; k" := (bind m (fun x => k))
  (at level 100, m at next level, right associativity) : manager_scope.
Notation "m ;;; k" := (bind m (fun _ => k))
  (at level 100, right associativity) : manager_scope.

Fixpoint for_each {A} (l : list A) (body : A -> M unit) : M unit :=
  match l with
  | [] => ret tt
  | x :: l' => bind (body x) (fun _ => for_each l' body)
  end.

(** [SQLAlchemyError] and its subclasses. *)
Definition is_sqlalchemy_error (e : exn) : bool :=
  match e with
  | SQLAlchemyError | InvalidRequestError => true
  | _ => false
  end.

(** [try: m except SQLAlchemyError as e: handler e]. *)
Definition except_sqlalchemy {A} (m : M A) (handler : exn -> M A) : M A :=
  fun s => match m s with
           | (Raise e, s') =>
               if is_sqlalchemy_error e then handler e s' else (Raise e, s')
           | r => r
           end.

(** [os.path.exists]. *)
Definition path_exists (p : string) : M bool :=
  gets (fun s => existsb (String.eqb p) (fs s)).

Definition inside (dir p : string) : bool :=
  String.eqb p dir
  || String.prefix (if ends_with_sep dir then dir else dir ++ "/") p.

(** Modelled from the spec: [FileOperations.rm_tree] ([owtf/utils/file.py] is
    not part of the sources at hand) deletes the directory tree in full: the
    directory and every path below it. *)
Definition rm_tree (dir : string) : M unit :=
  fun s => (Ok tt, add_event (set_fs s (filter (fun p => inside dir p = false) (fs s)))
                             (EvRmTree dir)).

(** [target_manager.set_target]. *)
Definition set_target (t : Z) : M unit := fun s => (Ok tt, set_active s t).

(** [db.session.merge(models.PluginOutput(...))]: [set_attrs] writes the
    attributes the constructor was given. A row with the same identity takes
    them and keeps its other attributes; without such a row a fresh one is
    added, its other attributes at their defaults. *)
Definition merged_rows (set_attrs : PluginOutput -> PluginOutput)
    (rows : list PluginOutput) : list PluginOutput :=
  let k := natural_key (set_attrs default_row) in
  if existsb (fun r => key_eqb (natural_key r) k) rows
  then map (fun r => if key_eqb (natural_key r) k then set_attrs r else r) rows
  else rows ++ [set_attrs default_row].

Definition merge (set_attrs : PluginOutput -> PluginOutput) : M unit :=
  fun s => (Ok tt, set_outputs s (merged_rows set_attrs (plugin_outputs s))).

(** [db.session.commit()] *)
Definition commit : M unit :=
  fun s => if storage_ok s
           then (Ok tt, add_event (set_committed s (plugin_outputs s)) EvCommit)
           else (Raise SQLAlchemyError, s).

(** [db.session.rollback()] *)
Definition rollback : M unit :=
  fun s => (Ok tt, add_event (set_outputs s (committed_outputs s)) EvRollback).

(** Modelled from the spec: [get_count] ([owtf/db/database.py] is not part of
    the sources at hand) is the number of rows its query selects; the two
    queries of [plugin_count_output] select a whole table. *)
Definition get_count {A} (rows : list A) : Z := Z.of_nat (length rows).

(** ** [poutput_gen_query] *)

(** From here on the definitions are over a reader of integers, [py_int]. *)
Section Interpreter.
Context {reader : IntOfStr}.

(** [[int(x) for x in l]]: the first element that does not parse raises. *)
Fixpoint py_ints (l : list string) : option (list Z) :=
  match l with
  | [] => Some []
  | x :: l' =>
      match py_int x with
      | None => None
      | Some n => match py_ints l' with
                  | None => None
                  | Some ns => Some (n :: ns)
                  end
      end
  end.

(** One of the five string fields (lines 134-158): equality for a string,
    membership for a list, nothing when the value is missing or false. *)
Definition str_field (name : string) (col : str_column) (filter_data : filter_dict)
    (query : Query) : Query :=
  if truthy (filter_data !! name) then
    match filter_data !! name with
    | Some (PStr s) => add_criterion query (StrEq col s)
    | Some (PList l) => add_criterion query (StrIn col l)
    | None => query
    end
  else query.

(** One of the two integer fields (lines 160-171); [None] is the [ValueError]
    of [int]. *)
Definition int_field (name : string) (col : int_column) (filter_data : filter_dict)
    (query : Query) : option Query :=
  if truthy (filter_data !! name) then
    match filter_data !! name with
    | Some (PStr s) =>
        match py_int s with
        | Some n => Some (add_criterion query (IntEq col n))
        | None => None
        end
    | Some (PList l) =>
        match py_ints l with
        | Some numbers_list => Some (add_criterion query (IntIn col numbers_list))
        | None => None
        end
    | None => Some query
    end
  else Some query.

(** [offset] and [limit] (lines 177-182): only a list value is looked at, and
    only its first element. *)
Definition page_field (name : string) (set : Query -> Z -> Query)
    (filter_data : filter_dict) (query : Query) : option Query :=
  if truthy (filter_data !! name) then
    match filter_data !! name with
    | Some (PList (x :: _)) =>
        match py_int x with
        | Some n => Some (set query n)
        | None => None
        end
    | _ => Some query
    end
  else Some query.

Definition integer_error : exn :=
  InvalidParameterType "Integer has to be provided for integer fields".

(** Lines 132-133 call [query.filter_by(target_id=...)] without keeping the
    query it returns, so a [target_id] entry of the dictionary adds nothing. *)
Definition poutput_gen_query (filter_data : filter_dict) (target : Z) (for_delete : bool)
    : result Query :=
  let query := query_target target in
  let query := str_field "plugin_key" c_plugin_key filter_data query in
  let query := str_field "plugin_type" c_plugin_type filter_data query in
  let query := str_field "plugin_group" c_plugin_group filter_data query in
  let query := str_field "plugin_code" c_plugin_code filter_data query in
  let query := str_field "status" c_status filter_data query in
  match
    match int_field "user_rank" c_user_rank filter_data query with
    | Some query => int_field "owtf_rank" c_owtf_rank filter_data query
    | None => None
    end
  with
  | None => Raise integer_error
  | Some query =>
      let query := if for_delete then query else order_by_key query in
      match
        match page_field "offset" set_offset filter_data query with
        | Some query => page_field "limit" set_limit filter_data query
        | None => None
        end
      with
      | None => Raise integer_error
      | Some query => Ok query
      end
  end.

(** ** The operations of the manager *)

Record Counts := mkCounts {
  complete_count : Z;
  left_count : Z
}.

(** [plugin_count_output] *)
Definition plugin_count_output (s : State) : Counts :=
  let complete_count := get_count (plugin_outputs s) in
  let left_count := get_count (works s) in
  let left_count := (left_count + busy_workers s)%Z in
  {| complete_count := complete_count; left_count := left_count |}.

(** The dictionary [get_plugin_output_dict] makes of a row: the columns that
    stay as they are, the [output] entry when it is kept, and the three
    formatted times. *)
Record OutputDict := mkOutputDict {
  d_row : PluginOutput;
  d_output : option (option string);
  d_start_time : string;
  d_end_time : string;
  d_run_time : string
}.

(** An item of a decoded plugin output: the name of the reporter method and
    the keyword arguments for it. *)
Record Item (Args : Type) := mkItem {
  item_type : string;
  item_output : Args
}.
#[global] Arguments mkItem {Args} _ _.
#[global] Arguments item_type {Args} _.
#[global] Arguments item_output {Args} _.

Section Reporter.

(** The method of [owtf.api.reporter] that [getattr] finds under the item's
    type, called with the item's keyword arguments: the HTML of one item,
    [None] when the lookup or the call raises. *)
Context {Args : Type}.
Variable reporter : string -> Args -> option string.

(** The loop of [get_html_output] (lines 62-65), [content] growing from the
    left. *)
Fixpoint html_loop (content : string) (plugin_output : list (Item Args)) : option string :=
  match plugin_output with
  | [] => Some content
  | item :: rest =>
      match reporter (item_type item) (item_output item) with
      | Some piece => html_loop (content ++ piece) rest
      | None => None
      end
  end.

(** [get_html_output] *)
Definition get_html_output (plugin_output : list (Item Args)) : option string :=
  html_loop "" plugin_output.

End Reporter.

Section Manager.

(** Collaborators from outside the manager: [json.dumps] on a plugin's
    output; [json.loads] on a stored output, read as the list of items
    [get_html_output] walks, [None] when it raises or when what it returns is
    no such list (walking it raises); the methods of the reporter;
    [strftime] with [DATE_TIME_FORMAT]; and [timer.get_time_as_str]. *)
Context {Output Args : Type}.
Variable json_dumps : Output -> string.
Variable json_loads : string -> option (list (Item Args)).
Variable reporter : string -> Args -> option string.
Variable strftime : Z -> string.
Variable get_time_as_str : Z -> string.

(** Line 90: [get_html_output(json.loads(raw))], [None] when either raises. *)
Definition html_of_json (raw : string) : option string :=
  match json_loads raw with
  | Some plugin_output => get_html_output reporter plugin_output
  | None => None
  end.

(** The dictionary of one row (lines 84-95): [output] is dropped unless
    [inc_output], and rendered when it is kept and not empty; rendering may
    raise, and then no dictionary is made. *)
Definition dict_of (inc_output : bool) (obj : PluginOutput) : result OutputDict :=
  match
    if inc_output then
      if truthy_str (output obj) then
        match output obj ≫= html_of_json with
        | Some html => Ok (Some (Some html))
        | None => Raise RenderingError
        end
      else Ok (Some (output obj))
    else Ok None
  with
  | Ok pdict_output =>
      Ok {| d_row := obj;
            d_output := pdict_output;
            d_start_time := strftime (start_time obj);
            d_end_time := strftime (end_time obj);
            d_run_time := get_time_as_str (end_time obj - start_time obj) |}
  | Raise e => Raise e
  end.

(** [get_plugin_output_dict] for a row; a target id of zero is false. *)
Definition get_plugin_output_dict (obj : PluginOutput) (target : Z) (inc_output : bool)
    : M OutputDict :=
  ((if (target =? 0)%Z then ret tt else set_target target) ;;;
   lift (dict_of inc_output obj))%M.

(** [get_plugin_output_dicts] *)
Fixpoint dicts_loop (obj_list : list PluginOutput) (target : Z) (inc_output : bool)
    : M (list OutputDict) :=
  match obj_list with
  | [] => ret []
  | obj :: rest =>
      (d <- get_plugin_output_dict obj target inc_output ;;
       ds <- dicts_loop rest target inc_output ;;
       ret (d :: ds))%M
  end.

Definition get_plugin_output_dicts (obj_list : list PluginOutput) (target : Z)
    (inc_output : bool) : M (list OutputDict) :=
  ((if (target =? 0)%Z then ret tt else set_target target) ;;;
   dicts_loop obj_list target inc_output)%M.

(** [get_all_poutputs]; a missing or empty [filter_data] is the empty
    dictionary. *)
Definition get_all_poutputs (filter_data : option filter_dict) (target : Z)
    (inc_output : bool) : M (list OutputDict) :=
  let filter_data := default ∅ filter_data in
  (set_target target ;;;
   query <- lift (poutput_gen_query filter_data target false) ;;
   results <- (fun s => (query_all query (plugin_outputs s), s)) ;;
   get_plugin_output_dicts results target inc_output)%M.

(** The loop body of [delete_all_poutput] (lines 252-255). *)
Definition remove_artifacts (plugin : PluginOutput) : M unit :=
  match output_path plugin with
  | Some p =>
      if truthy_str (output_path plugin) then
        (root <- gets (fun s => get_output_dir_target (config s)) ;;
         let output_path := path_join root p in
         there <- path_exists output_path ;;
         if there then rm_tree output_path else ret tt)%M
      else ret tt
  | None => ret tt
  end.

(** [delete_all_poutput] *)
Definition delete_all_poutput (filter_data : filter_dict) (target : Z) : M unit :=
  (query <- lift (poutput_gen_query filter_data target true) ;;
   rows <- (fun s => (query_all query (plugin_outputs s), s)) ;;
   for_each rows remove_artifacts ;;;
   (fun s => match query_delete query (plugin_outputs s) with
             | Ok rest => (Ok tt, add_event (set_outputs s rest) EvDelete)
             | Raise e => (Raise e, s)
             end) ;;;
   commit)%M.

(** The value [update_poutput] reads from a patch entry: the first element
    of a list, the string itself otherwise. *)
Definition patch_value (v : pyval) : string :=
  match v with
  | PList (x :: _) => x
  | PList [] => ""
  | PStr x => x
  end.

(** Lines 283-291: the attributes the patch sets on the row; [None] is the
    [ValueError] of [int]. Nothing is assigned before [int] has returned. *)
Definition apply_patch (patch_data : filter_dict) (obj : PluginOutput)
    : option PluginOutput :=
  match
    if truthy (patch_data !! "user_rank") then
      match patch_value <$> patch_data !! "user_rank" with
      | Some x =>
          match py_int x with
          | Some n =>
              Some (mkPluginOutput (target_id obj) (plugin_key obj) (plugin_code obj)
                      (plugin_group obj) (plugin_type obj) (output obj) (error obj)
                      (status obj) (user_notes obj) n (-1) (output_path obj)
                      (start_time obj) (end_time obj))
          | None => None
          end
      | None => Some obj
      end
    else Some obj
  with
  | None => None
  | Some obj =>
      if truthy (patch_data !! "user_notes") then
        match patch_value <$> patch_data !! "user_notes" with
        | Some x =>
            Some (mkPluginOutput (target_id obj) (plugin_key obj) (plugin_code obj)
                    (plugin_group obj) (plugin_type obj) (output obj) (error obj)
                    (status obj) (Some x) (user_rank obj) (owtf_rank obj)
                    (output_path obj) (start_time obj) (end_time obj))
        | None => Some obj
        end
      else Some obj
  end.

(** The dictionary of line 278. *)
Definition plugin_dict (plugin_group plugin_type plugin_code : string) : filter_dict :=
  <["plugin_group" := PStr plugin_group]>
    (<["plugin_type" := PStr plugin_type]>
       (<["plugin_code" := PStr plugin_code]> ∅)).

(** Assigning to the attributes of [obj], a row the session holds, changes
    that row. *)
Definition store_row (obj obj' : PluginOutput) : M unit :=
  fun s =>
    (Ok tt,
     set_outputs s
       (map (fun r => if key_eqb (natural_key r) (natural_key obj) then obj' else r)
            (plugin_outputs s))).

(** [update_poutput]. The row found is already in the session, so the
    [db.session.merge(obj)] of line 292 adds nothing to the assignments. *)
Definition update_poutput (plugin_group plugin_type plugin_code : string)
    (patch_data : filter_dict) (target : Z) : M unit :=
  let plugin_dict := plugin_dict plugin_group plugin_type plugin_code in
  (query <- lift (poutput_gen_query plugin_dict target false) ;;
   found <- (fun s => (query_first query (plugin_outputs s), s)) ;;
   match found with
   | Some obj =>
       match apply_patch patch_data obj with
       | Some obj' => store_row obj obj' ;;; commit
       | None => raise integer_error
       end
   | None => ret tt
   end)%M.

(** The attributes [save_plugin_output] gives to the constructor
    (lines 329-341). *)
Definition full_attrs (plugin : Plugin) (output : Output) (target : Z)
    (dir_exists : bool) (r : PluginOutput) : PluginOutput :=
  {| plugin_key := p_key plugin;
     plugin_code := p_code plugin;
     plugin_group := p_group plugin;
     plugin_type := p_type plugin;
     output := Some (json_dumps output);
     start_time := p_start plugin;
     end_time := p_end plugin;
     status := p_status plugin;
     target_id := target;
     output_path := if dir_exists then p_output_path plugin else None;
     owtf_rank := p_owtf_rank plugin;
     error := error r;
     user_notes := user_notes r;
     user_rank := user_rank r |}.

(** The attributes [save_partial_output] gives to the constructor
    (lines 365-378): the same and [error]. *)
Definition partial_attrs (plugin : Plugin) (output : Output) (message : string)
    (target : Z) (dir_exists : bool) (r : PluginOutput) : PluginOutput :=
  {| plugin_key := p_key plugin;
     plugin_code := p_code plugin;
     plugin_group := p_group plugin;
     plugin_type := p_type plugin;
     output := Some (json_dumps output);
     error := Some message;
     start_time := p_start plugin;
     end_time := p_end plugin;
     status := p_status plugin;
     target_id := target;
     output_path := if dir_exists then p_output_path plugin else None;
     owtf_rank := p_owtf_rank plugin;
     user_notes := user_notes r;
     user_rank := user_rank r |}.

(** [save_plugin_output] *)
Definition save_plugin_output (plugin : Plugin) (output : Output) (target : Z) : M unit :=
  (dir <- gets (fun s => get_plugin_output_dir (config s) plugin) ;;
   dir_exists <- path_exists dir ;;
   merge (full_attrs plugin output target dir_exists) ;;;
   except_sqlalchemy commit (fun e => rollback ;;; raise e))%M.

(** [save_partial_output] *)
Definition save_partial_output (plugin : Plugin) (output : Output) (message : string)
    (target : Z) : M unit :=
  (dir <- gets (fun s => get_plugin_output_dir (config s) plugin) ;;
   dir_exists <- path_exists dir ;;
   merge (partial_attrs plugin output message target dir_exists) ;;;
   except_sqlalchemy commit (fun e => rollback ;;; raise e))%M.

End Manager.

(** ** The severity histogram *)

Record Bucket := mkBucket {
  b_id : Z;
  label : string;
  value : Z
}.

Record Envelope := mkEnvelope {
  data : list Bucket
}.

Definition severity_frequency : list Bucket :=
  [ mkBucket 0 "Passing" 0; mkBucket 1 "Info" 0; mkBucket 2 "Low" 0;
    mkBucket 3 "Medium" 0; mkBucket 4 "High" 0; mkBucket 5 "Critical" 0 ].

(** The position [l[i]] names in a Python list of length [len]: a negative
    index counts from the end; [None] is [IndexError]. *)
Definition py_index (len : nat) (i : Z) : option nat :=
  if (0 <=? i)%Z && (i <? Z.of_nat len)%Z then Some (Z.to_nat i)
  else if (- Z.of_nat len <=? i)%Z && (i <? 0)%Z then Some (Z.to_nat (i + Z.of_nat len))
  else None.

Definition bump (b : Bucket) : Bucket :=
  mkBucket (b_id b) (label b) (value b + 1).

(** [freq[i]["value"] += 1] *)
Definition increment (freq : list Bucket) (i : Z) : result (list Bucket) :=
  match py_index (length freq) i with
  | Some n => Ok (alter bump n freq)
  | None => Raise IndexError
  end.

(** The body of the loop over [plugin_objs] (lines 413-419). *)
Definition count_row (targets : list Z) (freq : list Bucket) (plugin_obj : PluginOutput)
    : result (list Bucket) :=
  if existsb (Z.eqb (target_id plugin_obj)) targets then
    if negb (user_rank plugin_obj =? -1)%Z then increment freq (user_rank plugin_obj)
    else if negb (owtf_rank plugin_obj =? -1)%Z then increment freq (owtf_rank plugin_obj)
    else Ok freq
  else Ok freq.

Fixpoint count_rows (targets : list Z) (freq : list Bucket) (plugin_objs : list PluginOutput)
    : result (list Bucket) :=
  match plugin_objs with
  | [] => Ok freq
  | plugin_obj :: rest =>
      match count_row targets freq plugin_obj with
      | Ok freq' => count_rows targets freq' rest
      | Raise e => Raise e
      end
  end.

(** The ids of the targets that belong to the session (lines 405-408). *)
Definition session_targets (session_id : Z) (s : State) : list Z :=
  id <$> filter (fun t => existsb (Z.eqb session_id) (sessions t) = true) (targets s).

(** [get_severity_freq] *)
Definition get_severity_freq (session_id : Z) (s : State) : result Envelope :=
  let targets := session_targets session_id s in
  match count_rows targets severity_frequency (plugin_outputs s) with
  | Ok freq => Ok {| data := rev freq |}
  | Raise e => Raise e
  end.

(** ** The other operations of the manager *)

(** [plugin_output_exists]: rows of the target with that display key. *)
Definition plugin_output_exists (plugin_key : string) (target : Z) (s : State) : bool :=
  let query := add_criterion (query_target target) (StrEq c_plugin_key plugin_key) in
  let count := get_count (selected query (plugin_outputs s)) in
  (0 <? count)%Z.

(** [plugin_already_run]: rows of the target with the plugin's code, type and
    group; [query.count()] is the number of rows the query selects. *)
Definition plugin_already_run (plugin_info : Plugin) (target : Z) (s : State) : bool :=
  let query :=
    add_criterion
      (add_criterion
         (add_criterion (query_target target) (StrEq c_plugin_code (p_code plugin_info)))
         (StrEq c_plugin_type (p_type plugin_info)))
      (StrEq c_plugin_group (p_group plugin_info)) in
  let plugin_output_count := Z.of_nat (length (selected query (plugin_outputs s))) in
  (0 <? plugin_output_count)%Z.

(** The dictionary [get_unique_dicts] returns. *)
Record UniqueData := mkUniqueData {
  u_plugin_type : list string;
  u_plugin_group : list string;
  u_status : list string;
  u_user_rank : list Z;
  u_owtf_rank : list Z
}.

(** [query(column).filter_by(target_id=target).distinct().all()]: the values
    of the column among the rows of the target, each once. *)
Definition distinct_values {A} `{EqDecision A} (column : PluginOutput -> A) (target : Z)
    (rows : list PluginOutput) : list A :=
  remove_dups (column <$> selected (query_target target) rows).

(** [get_unique_dicts] *)
Definition get_unique_dicts (target : Z) (s : State) : UniqueData :=
  {| u_plugin_type := distinct_values plugin_type target (plugin_outputs s);
     u_plugin_group := distinct_values plugin_group target (plugin_outputs s);
     u_status := distinct_values status target (plugin_outputs s);
     u_user_rank := distinct_values user_rank target (plugin_outputs s);
     u_owtf_rank := distinct_values owtf_rank target (plugin_outputs s) |}.

(** ** The URL helper of the UI handlers ([owtf/api/base.py]) *)

(** [url.replace('?', '')]: the URL without its question marks. *)
Fixpoint drop_question_marks (url : string) : string :=
  match url with
  | EmptyString => EmptyString
  | String c rest =>
      if Ascii.eqb c "?"%char then drop_question_marks rest
      else String c (drop_question_marks rest)
  end.

(** [s.startswith(p)] *)
Fixpoint starts_with (p s : string) : bool :=
  match p, s with
  | EmptyString, _ => true
  | String a p', String b s' => Ascii.eqb a b && starts_with p' s'
  | String _ _, EmptyString => false
  end.

(** [url.split('None')[0]]: what comes before the first [None]; the whole
    URL when [None] does not occur in it. *)
Fixpoint before_none (url : string) : string :=
  match url with
  | EmptyString => EmptyString
  | String c rest =>
      if starts_with "None" url then EmptyString else String c (before_none rest)
  end.

(** [UIRequestHandler.reverse_url] (lines 85-88), applied to the URL the
    handler of the framework built for the route. *)
Definition reverse_url (url : string) : string :=
  let url := drop_question_marks url in
  before_none url.

(** ** The vocabulary of the properties *)

(** The integrity of the table: no two rows share their identity. *)
Definition table_ok (rows : list PluginOutput) : Prop :=
  NoDup (natural_key <$> rows).

Definition rows_of_key (k : Z * string * string * string) (rows : list PluginOutput)
    : list PluginOutput :=
  filter (fun r => natural_key r = k) rows.

Definition find_row (k : Z * string * string * string) (rows : list PluginOutput)
    : option PluginOutput :=
  List.find (fun r => key_eqb (natural_key r) k) rows.

(** The predicate a string field of the filter stands for, read literally:
    equality for a string, membership for a list, nothing for a missing
    field. *)
Definition stated_str_predicate (v : option pyval) (a : string) : bool :=
  match v with
  | None => true
  | Some (PStr s) => String.eqb a s
  | Some (PList l) => existsb (String.eqb a) l
  end.

(** The same with the values that count as missing: the empty string and the
    empty list constrain nothing. *)
Definition str_predicate (v : option pyval) (a : string) : bool :=
  if truthy v then stated_str_predicate v a else true.

(** The predicate of an integer field, its values read with [int]. *)
Definition stated_int_predicate (v : option pyval) (a : Z) : bool :=
  match v with
  | None => true
  | Some (PStr s) =>
      match py_int s with
      | Some n => Z.eqb a n
      | None => false
      end
  | Some (PList l) =>
      match py_ints l with
      | Some ns => existsb (Z.eqb a) ns
      | None => false
      end
  end.

Definition int_predicate (v : option pyval) (a : Z) : bool :=
  if truthy v then stated_int_predicate v a else true.

(** The conjunction of the per-field predicates of a filter. *)
Definition satisfies (filter_data : filter_dict) (r : PluginOutput) : bool :=
  str_predicate (filter_data !! "plugin_key") (plugin_key r)
  && str_predicate (filter_data !! "plugin_type") (plugin_type r)
  && str_predicate (filter_data !! "plugin_group") (plugin_group r)
  && str_predicate (filter_data !! "plugin_code") (plugin_code r)
  && str_predicate (filter_data !! "status") (status r)
  && int_predicate (filter_data !! "user_rank") (user_rank r)
  && int_predicate (filter_data !! "owtf_rank") (owtf_rank r).

Definition stated_satisfies (filter_data : filter_dict) (r : PluginOutput) : bool :=
  stated_str_predicate (filter_data !! "plugin_key") (plugin_key r)
  && stated_str_predicate (filter_data !! "plugin_type") (plugin_type r)
  && stated_str_predicate (filter_data !! "plugin_group") (plugin_group r)
  && stated_str_predicate (filter_data !! "plugin_code") (plugin_code r)
  && stated_str_predicate (filter_data !! "status") (status r)
  && stated_int_predicate (filter_data !! "user_rank") (user_rank r)
  && stated_int_predicate (filter_data !! "owtf_rank") (owtf_rank r).

(** The selection a filter asks for within a target. *)
Definition wanted (filter_data : filter_dict) (target : Z) (r : PluginOutput) : Prop :=
  target_id r = target /\ satisfies filter_data r = true.

(** An integer field whose value [int] reads: a string that parses, a list
    whose elements all parse, or a value that counts as missing. *)
Definition int_field_ok (v : option pyval) : bool :=
  if truthy v then
    match v with
    | Some (PStr s) => bool_decide (is_Some (py_int s))
    | Some (PList l) => bool_decide (is_Some (py_ints l))
    | None => true
    end
  else true.

(** A value that is not integer-parseable: a string [int] rejects, or a list
    with such a string. *)
Definition not_parseable (v : pyval) : Prop :=
  match v with
  | PStr s => py_int s = None
  | PList l => exists x, x ∈ l /\ py_int x = None
  end.

(** The bound a pagination field gives: the integer of the first element of a
    list, no bound for anything else; the outer [None] is a first element that
    is no integer. *)
Definition page_bound (v : option pyval) : option (option Z) :=
  match v with
  | Some (PList (x :: _)) =>
      match py_int x with
      | Some n => Some (Some n)
      | None => None
      end
  | _ => Some None
  end.

(** The bound a pagination field given as a list, or left out, stands for:
    the integer of the first element, no bound for a missing value or an
    empty list. A single value is left out. *)
Definition list_bound (v : option pyval) (b : option Z) : Prop :=
  match v with
  | None | Some (PList []) => b = None
  | Some (PList (x :: _)) => exists n, py_int x = Some n /\ b = Some n
  | Some (PStr _) => False
  end.

(** The bound as the text of the specification has it: a single value is used
    as it is. *)
Definition stated_page_bound (v : option pyval) : option (option Z) :=
  match v with
  | Some (PList (x :: _)) | Some (PStr x) =>
      match py_int x with
      | Some n => Some (Some n)
      | None => None
      end
  | _ => Some None
  end.

(** The rank a row is counted under, if any: the user's when it is not [-1],
    else the computed one when that is not [-1]. *)
Definition effective_rank (r : PluginOutput) : option Z :=
  if negb (user_rank r =? -1)%Z then Some (user_rank r)
  else if negb (owtf_rank r =? -1)%Z then Some (owtf_rank r)
  else None.

Definition rank_in_range (z : Z) : Prop := (-1 <= z <= 5)%Z.

Definition ranks_in_range (rows : list PluginOutput) : Prop :=
  forall r, r ∈ rows -> rank_in_range (user_rank r) /\ rank_in_range (owtf_rank r).

(** How many rows of the session's targets count under rank [i]. *)
Definition counted (targets : list Z) (i : Z) (rows : list PluginOutput) : Z :=
  Z.of_nat (length (filter (fun r => existsb (Z.eqb (target_id r)) targets = true
                                     /\ effective_rank r = Some i) rows)).

(** What a query carries besides its criteria. *)
Definition shape (q : Query) : bool * option Z * option Z :=
  (q_ordered q, q_offset q, q_limit q).

(** The database state an operation leaves alone. *)
Definition same_store (s s' : State) : Prop :=
  plugin_outputs s' = plugin_outputs s
  /\ committed_outputs s' = committed_outputs s
  /\ works s' = works s
  /\ fs s' = fs s
  /\ trail s' = trail s.

(** The six buckets with the given values, Passing first. *)
Definition buckets (v0 v1 v2 v3 v4 v5 : Z) : list Bucket :=
  [ mkBucket 0 "Passing" v0; mkBucket 1 "Info" v1; mkBucket 2 "Low" v2;
    mkBucket 3 "Medium" v3; mkBucket 4 "High" v4; mkBucket 5 "Critical" v5 ].

(** The rank a row is counted under when its target is one of [targets]. *)
Definition counted_at (targets : list Z) (r : PluginOutput) : option Z :=
  if existsb (Z.eqb (target_id r)) targets then effective_rank r else None.

(** How many rows land in the bucket at position [n] of the list. *)
Definition tally (targets : list Z) (n : nat) (rows : list PluginOutput) : Z :=
  Z.of_nat (length (filter (fun r => counted_at targets r ≫= py_index 6 = Some n) rows)).

Definition hit (n j : nat) : Z := if Nat.eqb n j then 1 else 0.

(** The state after the session's rows became [rows] and were committed. *)
Definition stored (s : State) (rows : list PluginOutput) : State :=
  add_event (set_committed (set_outputs s rows) rows) EvCommit.

(** In-place update of the rows whose identity is [k]. *)
Definition overwrite (f : PluginOutput -> PluginOutput) (k : Z * string * string * string)
    (rows : list PluginOutput) : list PluginOutput :=
  map (fun r => if key_eqb (natural_key r) k then f r else r) rows.

(** Whether the plugin's artifact directory is on disk. *)
Definition plugin_dir_exists (plugin : Plugin) (s : State) : bool :=
  existsb (String.eqb (get_plugin_output_dir (config s) plugin)) (fs s).

(** The state after some directories were removed: [paths] are left on disk,
    [dirs] were given to [rm_tree], in that order. *)
Definition after_removals (s : State) (paths dirs : list string) : State :=
  mkState (plugin_outputs s) (committed_outputs s) (works s) (targets s) paths
          (busy_workers s) (active_target s) (storage_ok s) (config s)
          (trail s ++ (EvRmTree <$> dirs)).

(** The directory [delete_all_poutput] looks for (line 253). *)
Definition artifact_dir (s : State) (p : string) : string :=
  path_join (get_output_dir_target (config s)) p.

(** The row [update_poutput] works on (lines 278-280). *)
Definition found_by_update (plugin_group plugin_type plugin_code : string) (target : Z)
    (rows : list PluginOutput) : result (option PluginOutput) :=
  match poutput_gen_query (plugin_dict plugin_group plugin_type plugin_code) target false with
  | Ok query => query_first query rows
  | Raise e => Raise e
  end.

(** The order of [ORDER BY plugin_key ASC]. *)
Definition key_le (a b : PluginOutput) : Prop :=
  String.leb (plugin_key a) (plugin_key b) = true.

(** The fields [poutput_gen_query] looks at. *)
Definition recognized_fields : list string :=
  ["plugin_key"; "plugin_type"; "plugin_group"; "plugin_code"; "status";
   "user_rank"; "owtf_rank"; "offset"; "limit"].

(** The number of rows a page holds when [total] rows are selected. *)
Definition page_length (o l : option Z) (total : nat) : nat :=
  let rest := match o with Some n => total - Z.to_nat n | None => total end in
  match l with
  | Some n => Nat.min (Z.to_nat n) rest
  | None => rest
  end.

(** The state [delete_all_poutput] reaches before its commit: [dirs] removed,
    [paths] left on disk, [rest] left in the session's table. *)
Definition before_commit (s : State) (paths dirs : list string) (rest : list PluginOutput)
    : State :=
  add_event (set_outputs (after_removals s paths dirs) rest) EvDelete.

(** A row without what a review changes: the two ranks and the notes. *)
Definition fixed_part (r : PluginOutput) : PluginOutput :=
  mkPluginOutput (target_id r) (plugin_key r) (plugin_code r) (plugin_group r)
                 (plugin_type r) (output r) (error r) (status r) None 0 0
                 (output_path r) (start_time r) (end_time r).

(** The row with other notes. *)
Definition with_notes (r : PluginOutput) (notes : string) : PluginOutput :=
  mkPluginOutput (target_id r) (plugin_key r) (plugin_code r) (plugin_group r)
                 (plugin_type r) (output r) (error r) (status r) (Some notes)
                 (user_rank r) (owtf_rank r) (output_path r) (start_time r) (end_time r).

(** The identity a plugin is saved under for a target. *)
Definition plugin_natural_key (plugin : Plugin) (target : Z) : Z * string * string * string :=
  (target, p_group plugin, p_type plugin, p_code plugin).

(** The sum of the values of a list of buckets. *)
Definition total_value (bs : list Bucket) : Z :=
  foldr (fun b acc => (value b + acc)%Z) 0%Z bs.

(** Whether the row's target is one of [targets]. *)
Definition in_targets (targets : list Z) (r : PluginOutput) : bool :=
  existsb (Z.eqb (target_id r)) targets.

(** A query outcome with at least one row, all rows having [P]. *)
Definition returns_some (P : PluginOutput -> Prop)
    (outcome : result (list OutputDict) * State) : Prop :=
  exists ds s', outcome = (Ok ds, s') /\ ds <> [] /\ forall d, d ∈ ds -> P (d_row d).

(** [sub] occurs in [s]. *)
Definition occurs (sub s : string) : Prop :=
  exists a b, s = a ++ sub ++ b.

(** The target belongs to the session: the target table has it, with the
    session among its sessions. *)
Definition in_session (session_id : Z) (s : State) (target : Z) : Prop :=
  Exists (fun tg => id tg = target /\ session_id ∈ sessions tg) (targets s).

#[global] Instance in_session_dec session_id s target :
  Decision (in_session session_id s target).
Proof. unfold in_session. apply _. Defined.

(** How many rows of the targets of the session count under rank [i]. *)
Definition session_count (session_id : Z) (s : State) (i : Z) : Z :=
  Z.of_nat (length (filter (fun r => in_session session_id s (target_id r)
                                     /\ effective_rank r = Some i)
                           (plugin_outputs s))).

Section Rendering.
Context {Args : Type}.
Variable json_loads : string -> option (list (Item Args)).
Variable reporter : string -> Args -> option string.
Variable strftime : Z -> string.
Variable get_time_as_str : Z -> string.

(** The output of the row can be included: when [inc_output] is set and the
    stored output is not empty, it decodes to a list of items and the
    reporter has HTML for each of them. *)
Definition renders (inc_output : bool) (r : PluginOutput) : Prop :=
  inc_output = true ->
  forall raw, output r = Some raw -> raw <> "" ->
  exists plugin_output html,
    json_loads raw = Some plugin_output
    /\ get_html_output reporter plugin_output = Some html.

(** The dictionaries of a list of rows, in order; the first row whose output
    does not render raises. *)
Fixpoint dicts_of (inc_output : bool) (rows : list PluginOutput)
    : result (list OutputDict) :=
  match rows with
  | [] => Ok []
  | r :: rest =>
      match dict_of json_loads reporter strftime get_time_as_str inc_output r with
      | Ok d =>
          match dicts_of inc_output rest with
          | Ok ds => Ok (d :: ds)
          | Raise e => Raise e
          end
      | Raise e => Raise e
      end
  end.

End Rendering.

End Interpreter.

(** ** Sample data *)

(** A reader for the sample data: [int] as it reads short ASCII text.
    Surrounding blanks (bytes 9 to 13 and 32) are dropped, one sign is
    allowed, the rest is a decimal literal with single underscores between
    digits. The properties below are proved for every reader; this one
    serves where a concrete input is evaluated. *)
Definition is_space (a : ascii) : bool :=
  let n := nat_of_ascii a in
  (Nat.leb 9 n && Nat.leb n 13) || Nat.eqb n 32.

Definition is_digit (a : ascii) : bool :=
  let n := nat_of_ascii a in Nat.leb 48 n && Nat.leb n 57.

Definition digit_val (a : ascii) : Z := (Z.of_nat (nat_of_ascii a) - 48)%Z.

Fixpoint lstrip (l : list ascii) : list ascii :=
  match l with
  | c :: l' => if is_space c then lstrip l' else l
  | [] => []
  end.

Definition strip (l : list ascii) : list ascii := rev (lstrip (rev (lstrip l))).

Fixpoint parse_digits (acc : Z) (after_digit : bool) (l : list ascii) : option Z :=
  match l with
  | [] => if after_digit then Some acc else None
  | c :: l' =>
      if is_digit c then parse_digits (10 * acc + digit_val c)%Z true l'
      else if Ascii.eqb c "_"%char && after_digit then parse_digits acc false l'
      else None
  end.

Definition decimal_int (s : string) : option Z :=
  match strip (list_ascii_of_string s) with
  | "-"%char :: ds => Z.opp <$> parse_digits 0 false ds
  | "+"%char :: ds => parse_digits 0 false ds
  | ds => parse_digits 0 false ds
  end.

Definition decimal_reader : IntOfStr :=
  {| py_int := decimal_int; py_int_empty := eq_refl |}.

Definition example_row (t : Z) (key group type code st : string) (ur orank : Z)
    (path : option string) : PluginOutput :=
  mkPluginOutput t key code group type None None st None ur orank path 0 0.

Definition example_config : Config :=
  mkConfig "/out" (fun plugin => "/out/" ++ p_key plugin).

Definition example_state (rows : list PluginOutput) (paths : list string) : State :=
  mkState rows rows [] [] paths 0 None true example_config [].

Definition row_a : PluginOutput :=
  example_row 1 "a" "web" "active" "OWTF-001" "done" (-1) 3 None.

Definition row_b : PluginOutput :=
  example_row 1 "b" "web" "passive" "OWTF-002" "done" 2 (-1) (Some "b_out").

Definition example_plugin : Plugin :=
  mkPlugin "c" "OWTF-003" "web" "active" 10 20 "done" 4 (Some "c_out").

(** Stand-ins for the collaborators: an output that is already text, and
    times that print as nothing. *)
Definition plain (x : string) : string := x.

Definition no_time (z : Z) : string := "".

(** An output as the plugins produce it: a list of items, each with the name
    of a reporter method and, as its arguments, one text. *)
Definition sample_output : list (Item string) :=
  [mkItem "text" "scan finished"; mkItem "rule" ""].

Definition quoted (x : string) : string :=
  String (ascii_of_nat 34) (x ++ String (ascii_of_nat 34) "").

(** The JSON text of such a list, for texts that need no escaping. *)
Definition item_json (item : Item string) : string :=
  "{" ++ quoted "type" ++ ": " ++ quoted (item_type item) ++ ", " ++ quoted "output"
  ++ ": {" ++ quoted "text" ++ ": " ++ quoted (item_output item) ++ "}}".

Fixpoint items_json (items : list (Item string)) : string :=
  match items with
  | [] => ""
  | [item] => item_json item
  | item :: rest => item_json item ++ ", " ++ items_json rest
  end.

Definition sample_dumps (items : list (Item string)) : string :=
  "[" ++ items_json items ++ "]".

(** [json.loads] where the sample data needs it: on the text of
    [sample_output]. *)
Definition sample_loads (raw : string) : option (list (Item string)) :=
  if String.eqb raw (sample_dumps sample_output) then Some sample_output else None.

(** A reporter with two methods. *)
Definition sample_reporter (type text : string) : option string :=
  if String.eqb type "text" then Some ("<p>" ++ text ++ "</p>")
  else if String.eqb type "rule" then Some "<hr>"
  else None.

(** A row whose stored output is the text of [sample_output], and one whose
    stored output is JSON for a single string. *)
Definition row_rendered : PluginOutput :=
  mkPluginOutput 1 "r" "OWTF-005" "web" "active" (Some (sample_dumps sample_output)) None
                 "done" None (-1) 1 None 0 0.

Definition row_unrendered : PluginOutput :=
  mkPluginOutput 1 "u" "OWTF-006" "web" "active" (Some (quoted "whole")) None
                 "done" None (-1) 1 None 0 0.

Definition filter_active : filter_dict :=
  {[ "plugin_type" := PStr "active"; "owtf_rank" := PList ["3"; "4"] ]}.

Definition filter_empty_status : filter_dict := {[ "status" := PStr "" ]}.

Definition filter_limit_string : filter_dict := {[ "limit" := PStr "1" ]}.

Definition filter_limit_list : filter_dict := {[ "limit" := PList ["1"; "7"]; "offset" := PList ["1"] ]}.

Definition filter_rank_empty : filter_dict := {[ "user_rank" := PStr "" ]}.

Definition filter_rank_word : filter_dict := {[ "user_rank" := PStr "high" ]}.

Definition patch_rank : filter_dict := {[ "user_rank" := PList ["4"] ]}.

Definition two_rows : State := example_state [row_b; row_a] ["/out/b_out"; "/out/b_out/log"; "/out/other"].

Definition row_low : PluginOutput :=
  example_row 1 "z" "web" "active" "OWTF-009" "done" (-7) 0 None.

Definition row_wrap : PluginOutput :=
  example_row 1 "w" "web" "active" "OWTF-008" "done" (-2) 0 None.

Definition session_state (rows : list PluginOutput) : State :=
  mkState rows rows [] [mkTarget 1 [1%Z]; mkTarget 2 [1%Z]; mkTarget 3 [2%Z]] [] 0 None true
          example_config [].

Definition busy_state : State :=
  mkState [row_a; row_b; row_wrap] [row_a; row_b; row_wrap]
          [mkWork 1 "k1"; mkWork 2 "k2"] [] [] 1 None true example_config [].

Definition filter_bad_limit : filter_dict := {[ "limit" := PList ["ten"; "2"] ]}.

Definition filter_unknown : filter_dict := {[ "status" := PStr "done" ]}.

Definition patch_notes : filter_dict := {[ "user_notes" := PList ["checked"; "twice"] ]}.

Definition patch_bad_rank : filter_dict := {[ "user_rank" := PList ["high"] ]}.

(** A store that refuses the next commit; one row is not committed yet. *)
Definition refusing_state : State :=
  mkState [row_b; row_a] [row_b] [] [] ["/out/b_out"; "/out/b_out/log"; "/out/other"] 0 None
          false example_config [].

(** The plugin of [row_b], run again. *)
Definition plugin_b : Plugin :=
  mkPlugin "b" "OWTF-002" "web" "passive" 30 40 "done" 5 (Some "b_out").

(** A row of a target outside session 1, with a rank out of range. *)
Definition row_elsewhere : PluginOutput :=
  example_row 3 "e" "web" "active" "OWTF-001" "done" 99 0 None.

(** A record saved without a group, and a table that holds it. *)
Definition row_nogroup : PluginOutput :=
  example_row 1 "n" "" "active" "OWTF-001" "done" (-1) 3 None.

Definition nogroup_state : State := example_state [row_nogroup; row_a] [].

(** * Properties *)

Section Properties.
Context {reader : IntOfStr}.

(** ** Keys and queries *)

Lemma key_eqb_eq k1 k2 : key_eqb k1 k2 = true <-> k1 = k2.
Proof.
  destruct k1 as [[[t1 g1] ty1] c1], k2 as [[[t2 g2] ty2] c2]; cbn.
  rewrite !andb_true_iff, Z.eqb_eq, !String.eqb_eq.
  split; [intros [[[-> ->] ->] ->]; reflexivity | intros [= -> -> -> ->]; auto].
Qed.

Lemma key_eqb_neq k1 k2 : key_eqb k1 k2 = false <-> k1 <> k2.
Proof.
  rewrite <- key_eqb_eq. destruct (key_eqb k1 k2); split; congruence.
Qed.

Lemma matches_add_criterion q c r :
  matches (add_criterion q c) r = matches q r && holds r c.
Proof.
  unfold matches; cbn. rewrite forallb_app; cbn. now rewrite andb_true_r.
Qed.

Lemma matches_str_field name col F q r :
  matches (str_field name col F q) r
  = matches q r && str_predicate (F !! name) (str_attr col r).
Proof.
  unfold str_field, str_predicate.
  destruct (F !! name) as [[s | l] |]; cbn;
    repeat match goal with |- context [if ?b then _ else _] => destruct b end;
    rewrite ?matches_add_criterion, ?andb_true_r; reflexivity.
Qed.

Lemma shape_str_field name col F q : shape (str_field name col F q) = shape q.
Proof.
  unfold str_field. destruct (truthy _); [destruct (F !! name) as [[? | ?] |] |]; auto.
Qed.

Lemma int_field_some name col F q :
  int_field_ok (F !! name) = true ->
  exists q', int_field name col F q = Some q'
    /\ q_ordered q' = q_ordered q /\ q_offset q' = q_offset q /\ q_limit q' = q_limit q
    /\ forall r, matches q' r = matches q r && int_predicate (F !! name) (int_attr col r).
Proof.
  unfold int_field, int_field_ok, int_predicate.
  destruct (truthy (F !! name)) eqn:Ht.
  - destruct (F !! name) as [[s | l] |]; cbn.
    + intros H%bool_decide_eq_true. destruct H as [n Hn]. rewrite Hn.
      eexists; repeat split; intros; rewrite matches_add_criterion; reflexivity.
    + intros H%bool_decide_eq_true. destruct H as [n Hn]. rewrite Hn.
      eexists; repeat split; intros; rewrite matches_add_criterion; reflexivity.
    + discriminate.
  - intros _. exists q. repeat split. intros; now rewrite andb_true_r.
Qed.

Lemma page_field_some name set F q o :
  page_bound (F !! name) = Some o ->
  exists q', page_field name set F q = Some q'
    /\ q' = match o with Some n => set q n | None => q end.
Proof.
  unfold page_field, page_bound. intros H.
  destruct (F !! name) as [[s | [| x l]] |]; cbn.
  - injection H as <-. destruct (negb _); eauto.
  - injection H as <-. eauto.
  - destruct (py_int x); [injection H as <- | discriminate]. eauto.
  - injection H as <-. eauto.
Qed.

(** The query [poutput_gen_query] returns when the integer fields parse: its
    criteria select the rows of the target that satisfy the filter, it is
    ordered unless it is for a delete, and it carries the two bounds. *)
Lemma gen_query_ok F t fd o l :
  int_field_ok (F !! "user_rank") = true ->
  int_field_ok (F !! "owtf_rank") = true ->
  page_bound (F !! "offset") = Some o ->
  page_bound (F !! "limit") = Some l ->
  exists q, poutput_gen_query F t fd = Ok q
    /\ q_ordered q = negb fd /\ q_offset q = o /\ q_limit q = l
    /\ forall r, matches q r = (target_id r =? t)%Z && satisfies F r.
Proof.
  intros Hu Ho Hoff Hlim. unfold poutput_gen_query.
  set (q5 := str_field "status" _ _ _).
  destruct (int_field_some "user_rank" c_user_rank F q5 Hu) as (q6 & -> & Ho6 & Hf6 & Hl6 & Hm6).
  destruct (int_field_some "owtf_rank" c_owtf_rank F q6 Ho) as (q7 & -> & Ho7 & Hf7 & Hl7 & Hm7).
  set (q8 := if fd then q7 else order_by_key q7).
  destruct (page_field_some "offset" set_offset F q8 o Hoff) as (q9 & -> & E9).
  destruct (page_field_some "limit" set_limit F q9 l Hlim) as (q10 & -> & E10).
  exists q10. split; [reflexivity |].
  assert (Hs5 : q_ordered q5 = false /\ q_offset q5 = None /\ q_limit q5 = None).
  { assert (E : shape q5 = (false, None, None))
      by (subst q5; rewrite !shape_str_field; reflexivity).
    unfold shape in E. injection E as -> -> ->. auto. }
  destruct Hs5 as (So5 & Sf5 & Sl5).
  assert (Hm5 : forall r, matches q5 r
      = (target_id r =? t)%Z
        && str_predicate (F !! "plugin_key") (plugin_key r)
        && str_predicate (F !! "plugin_type") (plugin_type r)
        && str_predicate (F !! "plugin_group") (plugin_group r)
        && str_predicate (F !! "plugin_code") (plugin_code r)
        && str_predicate (F !! "status") (status r)).
  { intros r. subst q5. rewrite !matches_str_field. cbn. now rewrite andb_true_r. }
  assert (Hw8 : q_where q8 = q_where q7) by (subst q8; destruct fd; reflexivity).
  assert (Hs8 : q_ordered q8 = negb fd /\ q_offset q8 = None /\ q_limit q8 = None).
  { subst q8; destruct fd; cbn; repeat split; congruence. }
  destruct Hs8 as (So8 & Sf8 & Sl8).
  assert (Hw10 : q_where q10 = q_where q7).
  { subst q10 q9. destruct l, o; cbn; assumption. }
  repeat split.
  - subst q10 q9. destruct l, o; cbn; assumption.
  - subst q10 q9. destruct l, o; cbn; try assumption; reflexivity.
  - subst q10 q9. destruct l, o; cbn; try assumption; reflexivity.
  - intros r. unfold matches at 1. rewrite Hw10. fold (matches q7 r).
    rewrite Hm7, Hm6, Hm5. unfold satisfies. cbn.
    rewrite <- !andb_assoc. reflexivity.
Qed.

Lemma insert_row_perm r l : insert_row r l ≡ₚ r :: l.
Proof.
  induction l as [| x l IH]; cbn; [reflexivity |].
  destruct (String.leb _ _); [reflexivity |].
  rewrite IH. apply Permutation_swap.
Qed.

Lemma sort_rows_perm l : sort_rows l ≡ₚ l.
Proof.
  induction l as [| r l IH]; cbn; [reflexivity |].
  rewrite insert_row_perm. now rewrite IH.
Qed.

Lemma insert_row_sorted r l :
  Sorted key_le l -> Sorted key_le (insert_row r l).
Proof.
  induction l as [| x l IH]; intros Hs; cbn.
  - repeat constructor.
  - destruct (String.leb (plugin_key r) (plugin_key x)) eqn:E.
    + constructor; [assumption | constructor; exact E].
    + apply Sorted_inv in Hs as [Hs Hhd]. constructor; [auto |].
      assert (Hxr : key_le x r).
      { unfold key_le. destruct (String.leb_total (plugin_key x) (plugin_key r)); congruence. }
      destruct l as [| y l]; cbn; [constructor; exact Hxr |].
      destruct (String.leb (plugin_key r) (plugin_key y)); constructor;
        [exact Hxr | now apply HdRel_inv in Hhd].
Qed.

(** [sort_rows] orders by [plugin_key], ascending. *)
Lemma sort_rows_sorted l : Sorted key_le (sort_rows l).
Proof.
  induction l as [| r l IH]; cbn; [constructor | now apply insert_row_sorted].
Qed.

Lemma selected_wanted F t q tbl :
  (forall r, matches q r = (target_id r =? t)%Z && satisfies F r) ->
  selected q tbl
  = (if q_ordered q then sort_rows else fun l => l) (filter (wanted F t) tbl).
Proof.
  intros Hm. unfold selected.
  assert (E : filter (fun r => matches q r = true) tbl = filter (wanted F t) tbl).
  { apply list_filter_iff. intros r. rewrite Hm, andb_true_iff, Z.eqb_eq. reflexivity. }
  rewrite E. destruct (q_ordered q); reflexivity.
Qed.

Lemma set_active_idem s t : active_target s = Some t -> set_active s t = s.
Proof. destruct s; cbn. intros ->. reflexivity. Qed.

Lemma py_ints_none l : (exists x, x ∈ l /\ py_int x = None) -> py_ints l = None.
Proof.
  induction l as [| y l IH]; intros (x & Hin & Hx).
  - inversion Hin.
  - cbn. destruct (py_int y) eqn:Hy; [| reflexivity].
    apply elem_of_cons in Hin as [-> | Hin]; [congruence |].
    rewrite IH; eauto.
Qed.

Lemma int_field_bad name col F q v :
  F !! name = Some v -> not_parseable v -> v <> PStr "" ->
  int_field name col F q = None.
Proof.
  intros Hv Hbad Hne. unfold int_field. rewrite Hv.
  destruct v as [s | l]; cbn in *.
  - destruct (String.eqb_spec s ""); [congruence |]. cbn. now rewrite Hbad.
  - destruct l as [| y l]; [destruct Hbad as (x & Hin & _); inversion Hin |].
    now rewrite (py_ints_none _ Hbad).
Qed.

Lemma gen_query_bad F v t fd :
  F !! "user_rank" = Some v \/ F !! "owtf_rank" = Some v ->
  not_parseable v -> v <> PStr "" ->
  poutput_gen_query F t fd = Raise integer_error.
Proof.
  intros Hv Hbad Hne. unfold poutput_gen_query.
  destruct Hv as [Hv | Hv].
  - now rewrite (int_field_bad "user_rank" _ _ _ v Hv Hbad Hne).
  - destruct (int_field "user_rank" _ _ _); [| reflexivity].
    now rewrite (int_field_bad "owtf_rank" _ _ _ v Hv Hbad Hne).
Qed.

(** ** Reading the store *)

Lemma list_bound_page v b : list_bound v b -> page_bound v = Some b.
Proof.
  destruct v as [[x | [| x l]] |]; cbn; try (now intros ->); [contradiction |].
  now intros (n & -> & ->).
Qed.

Section QueryProps.
Context {Args : Type}.
Variable json_loads : string -> option (list (Item Args)).
Variable reporter : string -> Args -> option string.
Variable strftime : Z -> string.
Variable get_time_as_str : Z -> string.

Local Abbreviation to_dict := (dict_of json_loads reporter strftime get_time_as_str).
Local Abbreviation all_dicts := (dicts_of json_loads reporter strftime get_time_as_str).
Local Abbreviation can_render := (renders json_loads reporter).
Local Abbreviation get_all := (get_all_poutputs json_loads reporter strftime get_time_as_str).

(** A dictionary that was made is that of its row, with an [output] exactly
    when it was asked for. *)
Lemma dict_of_row inc r d :
  to_dict inc r = Ok d -> d_row d = r /\ (d_output d = None <-> inc = false).
Proof.
  unfold dict_of. destruct inc.
  - destruct (truthy_str (output r));
      [destruct (output r ≫= _) |]; intros [= <-]; cbn; split; auto;
      split; discriminate.
  - intros [= <-]. cbn. tauto.
Qed.

(** Without [inc_output] nothing is rendered and the dictionary is made. *)
Lemma dict_of_renders inc r : can_render inc r -> exists d, to_dict inc r = Ok d.
Proof.
  intros Hr. unfold dict_of. destruct inc; [| eauto].
  destruct (output r) as [raw |] eqn:Hout; cbn; [| eauto].
  destruct (String.eqb_spec raw "") as [-> | Hne]; cbn; [eauto |].
  destruct (Hr eq_refl raw Hout Hne) as (items & html & Hl & Hh).
  unfold html_of_json. rewrite Hl, Hh. eauto.
Qed.

Lemma rows_of_dicts inc (rows : list PluginOutput) : forall ds,
  all_dicts inc rows = Ok ds -> d_row <$> ds = rows.
Proof.
  induction rows as [| r rows IH]; intros ds; cbn.
  - now intros [= <-].
  - destruct (to_dict inc r) as [d |] eqn:Hd; [| discriminate].
    destruct (all_dicts inc rows) as [ds' |]; [| discriminate].
    intros [= <-]. cbn. rewrite (IH ds' eq_refl).
    now destruct (dict_of_row _ _ _ Hd) as [-> _].
Qed.

Lemma outputs_of_dicts inc (rows : list PluginOutput) : forall ds,
  all_dicts inc rows = Ok ds -> Forall (fun d => d_output d = None <-> inc = false) ds.
Proof.
  induction rows as [| r rows IH]; intros ds; cbn.
  - intros [= <-]. constructor.
  - destruct (to_dict inc r) as [d |] eqn:Hd; [| discriminate].
    destruct (all_dicts inc rows) as [ds' |]; [| discriminate].
    intros [= <-]. constructor; [now destruct (dict_of_row _ _ _ Hd) | now apply IH].
Qed.

Lemma dicts_of_renders inc (rows : list PluginOutput) :
  (forall r, r ∈ rows -> can_render inc r) -> exists ds, all_dicts inc rows = Ok ds.
Proof.
  induction rows as [| r rows IH]; intros Hr; cbn; [eauto |].
  destruct (dict_of_renders inc r) as [d ->]; [apply Hr; left |].
  destruct IH as [ds ->]; [intros; apply Hr; now right | eauto].
Qed.

Lemma dicts_loop_run rows t inc s :
  active_target s = Some t ->
  dicts_loop json_loads reporter strftime get_time_as_str rows t inc s
  = (all_dicts inc rows, s).
Proof.
  intros Ha. induction rows as [| r rows IH]; [reflexivity |].
  cbn. unfold bind, get_plugin_output_dict, bind, lift.
  destruct (t =? 0)%Z; cbn; unfold set_target; rewrite ?set_active_idem by assumption;
    cbn; (destruct (to_dict inc r); [| reflexivity]); rewrite IH;
    destruct (all_dicts inc rows); reflexivity.
Qed.

(** [get_all_poutputs] sets the target, builds the query, runs it and turns
    each row into its dictionary. *)
Lemma get_all_poutputs_run F t inc s :
  get_all F t inc s
  = match poutput_gen_query (default ∅ F) t false with
    | Ok q =>
        match query_all q (plugin_outputs s) with
        | Ok rows => (all_dicts inc rows, set_active s t)
        | Raise e => (Raise e, set_active s t)
        end
    | Raise e => (Raise e, set_active s t)
    end.
Proof.
  unfold get_all_poutputs, bind, set_target, lift. cbn.
  destruct (poutput_gen_query _ t false) as [q | e]; [| reflexivity].
  destruct (query_all q (plugin_outputs s)) as [rows | e]; [| reflexivity].
  unfold get_plugin_output_dicts, bind.
  destruct (t =? 0)%Z; cbn; unfold set_target;
    rewrite ?(set_active_idem (set_active s t)) by reflexivity;
    apply dicts_loop_run; reflexivity.
Qed.

Lemma get_all_poutputs_paged F t inc s o l :
  int_field_ok (default ∅ F !! "user_rank") = true ->
  int_field_ok (default ∅ F !! "owtf_rank") = true ->
  page_bound (default ∅ F !! "offset") = Some o ->
  page_bound (default ∅ F !! "limit") = Some l ->
  bound_ok o = true -> bound_ok l = true ->
  get_all F t inc s
  = (all_dicts inc
       (apply_limit l (apply_offset o
          (sort_rows (filter (wanted (default ∅ F) t) (plugin_outputs s))))),
     set_active s t).
Proof.
  intros Hu Ho Hoff Hlim Bo Bl. rewrite get_all_poutputs_run.
  destruct (gen_query_ok _ t false o l Hu Ho Hoff Hlim) as (q & -> & Hord & Hqo & Hql & Hm).
  unfold query_all. rewrite Hqo, Hql, Bo, Bl. cbn.
  rewrite (selected_wanted _ t q _ Hm), Hord. reflexivity.
Qed.

(** The rows of a page are rows the filter selects. *)
Lemma page_wanted (F : filter_dict) t (rows : list PluginOutput) o l r :
  r ∈ apply_limit l (apply_offset o (sort_rows (filter (wanted F t) rows))) ->
  r ∈ rows /\ wanted F t r.
Proof.
  intros Hin.
  assert (Hs : r ∈ sort_rows (filter (wanted F t) rows)).
  { destruct l, o; cbn in Hin;
      repeat match goal with
             | H : _ ∈ take _ _ |- _ => apply subseteq_take in H
             | H : _ ∈ drop _ _ |- _ => apply subseteq_drop in H
             end; assumption. }
  rewrite sort_rows_perm in Hs. apply list_elem_of_filter in Hs. tauto.
Qed.

(** With the bounds the query carries, and every output to include
    rendering, [get_all_poutputs] returns the dictionaries of the page. *)
Lemma get_all_poutputs_page F t inc s o l :
  int_field_ok (default ∅ F !! "user_rank") = true ->
  int_field_ok (default ∅ F !! "owtf_rank") = true ->
  page_bound (default ∅ F !! "offset") = Some o ->
  page_bound (default ∅ F !! "limit") = Some l ->
  bound_ok o = true -> bound_ok l = true ->
  (forall r, r ∈ plugin_outputs s -> wanted (default ∅ F) t r -> can_render inc r) ->
  exists ds,
    get_all F t inc s = (Ok ds, set_active s t)
    /\ d_row <$> ds
       = apply_limit l (apply_offset o
           (sort_rows (filter (wanted (default ∅ F) t) (plugin_outputs s)))).
Proof.
  intros Hu Ho Hoff Hlim Bo Bl Hr.
  rewrite (get_all_poutputs_paged F t inc s o l) by assumption.
  destruct (dicts_of_renders inc
              (apply_limit l (apply_offset o
                 (sort_rows (filter (wanted (default ∅ F) t) (plugin_outputs s))))))
    as [ds Hds].
  { intros r Hin. apply page_wanted in Hin as [Hin Hw]. now apply Hr. }
  exists ds. rewrite Hds. split; [reflexivity | now apply rows_of_dicts in Hds].
Qed.

(** C2, as amended: for a filter whose integer fields parse and that asks
    for no pagination, [get_all_poutputs] returns exactly the rows of the
    target that satisfy the conjunction of the per-field predicates, where
    a non-empty string means equality and a non-empty list membership; a
    field that is missing, or mapped to the empty string or the empty list,
    constrains nothing. With the empty filter it returns every row of the
    target. Without [inc_output] nothing is rendered; with it, the rows are
    returned when the output of each of them renders. *)
Theorem query_returns_wanted (F : option filter_dict) t inc s :
  (forall r, r ∈ plugin_outputs s -> wanted (default ∅ F) t r -> can_render inc r) ->
  (int_field_ok (default ∅ F !! "user_rank") = true ->
   int_field_ok (default ∅ F !! "owtf_rank") = true ->
   page_bound (default ∅ F !! "offset") = Some None ->
   page_bound (default ∅ F !! "limit") = Some None ->
   exists ds, get_all F t inc s = (Ok ds, set_active s t)
     /\ d_row <$> ds ≡ₚ filter (wanted (default ∅ F) t) (plugin_outputs s)
     /\ forall r, r ∈ d_row <$> ds <-> r ∈ plugin_outputs s /\ wanted (default ∅ F) t r)
  /\ (default ∅ F = ∅ ->
      exists ds, get_all F t inc s = (Ok ds, set_active s t)
        /\ d_row <$> ds ≡ₚ filter (fun r => target_id r = t) (plugin_outputs s)).
Proof.
  intros Hr. split.
  - intros Hu Ho Hoff Hlim.
    destruct (get_all_poutputs_page F t inc s None None) as (ds & Hrun & Hrows); auto.
    exists ds. split; [exact Hrun |]. rewrite Hrows. cbn.
    split; [apply sort_rows_perm |].
    intros r. rewrite sort_rows_perm, list_elem_of_filter. tauto.
  - intros HF.
    destruct (get_all_poutputs_page F t inc s None None) as (ds & Hrun & Hrows);
      rewrite ?HF; auto.
    { intros r Hin Hw. apply Hr; [assumption |]. now rewrite HF. }
    exists ds. split; [exact Hrun |]. rewrite Hrows. cbn. rewrite sort_rows_perm, HF.
    erewrite list_filter_iff; [reflexivity |].
    intros r. unfold wanted. cbn. tauto.
Qed.

(** X27: pagination comes last. For a filter whose [offset] and [limit] are
    missing or lists, the rows [get_all_poutputs] returns are the selected
    rows, ordered by plugin key, then cut by the offset and then by the
    limit; a non-empty list gives its first element, read as an integer, as
    the bound, and a missing value or an empty list gives none, so that
    without bounds the full ordered result is returned. *)
Theorem pagination_of_list_bounds (F : filter_dict) t inc s o l :
  int_field_ok (F !! "user_rank") = true ->
  int_field_ok (F !! "owtf_rank") = true ->
  list_bound (F !! "offset") o ->
  list_bound (F !! "limit") l ->
  bound_ok o = true -> bound_ok l = true ->
  (forall r, r ∈ plugin_outputs s -> wanted F t r -> can_render inc r) ->
  exists ds, get_all (Some F) t inc s = (Ok ds, set_active s t)
    /\ d_row <$> ds
       = apply_limit l (apply_offset o
           (sort_rows (filter (wanted F t) (plugin_outputs s))))
    /\ Sorted key_le (sort_rows (filter (wanted F t) (plugin_outputs s)))
    /\ (forall rows, apply_limit None (apply_offset None rows) = rows).
Proof.
  intros Hu Ho Hoff Hlim Bo Bl Hr.
  destruct (get_all_poutputs_page (Some F) t inc s o l) as (ds & Hrun & Hrows);
    try assumption; try (now apply list_bound_page).
  exists ds. split; [exact Hrun |]. split; [exact Hrows |].
  split; [apply sort_rows_sorted | reflexivity].
Qed.

(** C7, as amended: when [user_rank] or [owtf_rank] maps to a non-empty
    string that [int] rejects, or to a list with such a string, the query
    is refused with the invalid-parameter error before anything is run:
    [get_all_poutputs] raises and leaves the rows, the files and the log of
    effects as they were, and [delete_all_poutput] raises without touching
    the state. *)
Theorem bad_integer_rejected (F : filter_dict) v t :
  F !! "user_rank" = Some v \/ F !! "owtf_rank" = Some v ->
  not_parseable v -> v <> PStr "" ->
  (forall for_delete, poutput_gen_query F t for_delete = Raise integer_error)
  /\ (forall inc s, exists s',
         get_all (Some F) t inc s = (Raise integer_error, s') /\ same_store s s')
  /\ (forall s, delete_all_poutput F t s = (Raise integer_error, s)).
Proof.
  intros Hv Hbad Hne.
  pose proof (gen_query_bad F v t) as Hq.
  split; [intros fd; now apply Hq |]. split.
  - intros inc s. exists (set_active s t). rewrite get_all_poutputs_run. cbn.
    rewrite Hq by assumption. split; [reflexivity |].
    unfold same_store. cbn. auto.
  - intros s. unfold delete_all_poutput, bind, lift. now rewrite Hq.
Qed.

End QueryProps.

(** ** The severity histogram *)

Lemma count_row_counted_at targets freq r :
  count_row targets freq r
  = match counted_at targets r with
    | Some i => increment freq i
    | None => Ok freq
    end.
Proof.
  unfold count_row, counted_at, effective_rank.
  destruct (existsb _ _); [| reflexivity].
  destruct (negb (user_rank r =? -1)%Z); [reflexivity |].
  destruct (negb (owtf_rank r =? -1)%Z); reflexivity.
Qed.

Lemma py_index_cases len i :
  (py_index len i = Some (Z.to_nat i) /\ 0 <= i < Z.of_nat len)%Z
  \/ (py_index len i = Some (Z.to_nat (i + Z.of_nat len)) /\ - Z.of_nat len <= i < 0)%Z
  \/ (py_index len i = None /\ (i < - Z.of_nat len \/ Z.of_nat len <= i))%Z.
Proof.
  unfold py_index.
  destruct (Z.leb_spec 0 i), (Z.ltb_spec i (Z.of_nat len)),
    (Z.leb_spec (- Z.of_nat len) i), (Z.ltb_spec i 0); cbn; try lia;
    auto with zarith.
Qed.

Lemma py_index_lt len i n : py_index len i = Some n -> n < len.
Proof.
  destruct (py_index_cases len i) as [[-> H] | [[-> H] | [-> H]]];
    intros [= <-]; lia.
Qed.

Lemma increment_buckets v0 v1 v2 v3 v4 v5 i n :
  py_index 6 i = Some n ->
  increment (buckets v0 v1 v2 v3 v4 v5) i
  = Ok (buckets (v0 + hit n 0) (v1 + hit n 1) (v2 + hit n 2)
                (v3 + hit n 3) (v4 + hit n 4) (v5 + hit n 5)).
Proof.
  intros Hi. unfold increment. cbn [length buckets]. rewrite Hi.
  pose proof (py_index_lt _ _ _ Hi) as Hlt.
  do 6 (destruct n as [| n]; [cbn; rewrite ?Z.add_0_r; reflexivity |]). lia.
Qed.

Lemma increment_out_of_range freq i :
  length freq = 6 -> (6 <= i \/ i <= -7)%Z -> increment freq i = Raise IndexError.
Proof.
  intros Hlen Hi. unfold increment. rewrite Hlen.
  destruct (py_index_cases 6 i) as [[-> H] | [[-> H] | [-> H]]]; [lia | lia | reflexivity].
Qed.

Lemma tally_cons targets n r rows :
  tally targets n (r :: rows)
  = ((if decide (counted_at targets r ≫= py_index 6 = Some n) then 1 else 0)
     + tally targets n rows)%Z.
Proof.
  unfold tally. rewrite filter_cons. destruct (decide _); cbn [length]; lia.
Qed.

Lemma hit_decide (n j : nat) :
  (if decide (Some n = Some j) then 1 else 0)%Z = hit n j.
Proof.
  unfold hit. destruct (Nat.eqb_spec n j), (decide _); congruence.
Qed.

Lemma count_rows_buckets targets rows : forall v0 v1 v2 v3 v4 v5,
  (forall r i, r ∈ rows -> counted_at targets r = Some i -> is_Some (py_index 6 i)) ->
  count_rows targets (buckets v0 v1 v2 v3 v4 v5) rows
  = Ok (buckets (v0 + tally targets 0 rows) (v1 + tally targets 1 rows)
                (v2 + tally targets 2 rows) (v3 + tally targets 3 rows)
                (v4 + tally targets 4 rows) (v5 + tally targets 5 rows)).
Proof.
  induction rows as [| r rows IH]; intros v0 v1 v2 v3 v4 v5 Hok.
  - cbn. unfold tally. cbn. now rewrite !Z.add_0_r.
  - cbn [count_rows]. rewrite count_row_counted_at, !tally_cons.
    destruct (counted_at targets r) as [i |] eqn:Hc.
    + destruct (Hok r i) as [n Hn]; [left | assumption |].
      rewrite (increment_buckets _ _ _ _ _ _ i n Hn).
      rewrite IH by (intros; eapply Hok; [right |]; eassumption).
      cbn [mbind option_bind]. rewrite Hn.
      rewrite !hit_decide, !Z.add_assoc. reflexivity.
    + rewrite IH by (intros; eapply Hok; [right |]; eassumption).
      cbn. f_equal.
Qed.

Lemma count_rows_length targets rows : forall freq freq',
  count_rows targets freq rows = Ok freq' -> length freq' = length freq.
Proof.
  induction rows as [| r rows IH]; intros freq freq'; cbn.
  - now intros [= <-].
  - rewrite count_row_counted_at.
    destruct (counted_at targets r) as [i |]; [| apply IH].
    unfold increment. destruct (py_index _ i); [| discriminate].
    intros H%IH. now rewrite length_alter in H.
Qed.

Lemma count_rows_out_of_range targets rows r i : forall freq,
  length freq = 6 ->
  r ∈ rows -> counted_at targets r = Some i -> (6 <= i \/ i <= -7)%Z ->
  count_rows targets freq rows = Raise IndexError.
Proof.
  induction rows as [| x rows IH]; intros freq Hlen Hin Hc Hi; [inversion Hin |].
  cbn. rewrite count_row_counted_at.
  apply elem_of_cons in Hin as [<- | Hin].
  - rewrite Hc, increment_out_of_range by assumption. reflexivity.
  - destruct (counted_at targets x) as [j |]; [| now apply IH].
    unfold increment. destruct (py_index _ j); [| reflexivity].
    apply IH; try assumption. now rewrite length_alter.
Qed.

Lemma filter_ext_in {A} (P Q : A -> Prop) `{!forall x, Decision (P x)}
    `{!forall x, Decision (Q x)} (l : list A) :
  (forall x, x ∈ l -> P x <-> Q x) -> filter P l = filter Q l.
Proof.
  induction l as [| x l IH]; intros Hext; [reflexivity |].
  rewrite !filter_cons.
  rewrite IH by (intros; apply Hext; now right).
  pose proof (Hext x (list_elem_of_here _ _)) as Hx.
  destruct (decide (P x)), (decide (Q x)); tauto || reflexivity.
Qed.

Lemma counted_at_in_range targets r i :
  rank_in_range (user_rank r) -> rank_in_range (owtf_rank r) ->
  counted_at targets r = Some i -> (0 <= i <= 5)%Z.
Proof.
  unfold counted_at, effective_rank, rank_in_range.
  destruct (existsb _ _); [| discriminate].
  destruct (Z.eqb_spec (user_rank r) (-1)); cbn; [| intros; simplify_eq; lia].
  destruct (Z.eqb_spec (owtf_rank r) (-1)); cbn; [discriminate | intros; simplify_eq; lia].
Qed.

Lemma tally_counted targets (n : nat) rows :
  ranks_in_range rows -> n < 6 ->
  tally targets n rows = counted targets (Z.of_nat n) rows.
Proof.
  intros Hr Hn. unfold tally, counted. do 2 f_equal.
  apply filter_ext_in. intros r Hin. destruct (Hr r Hin) as [Hu Ho].
  pose proof (counted_at_in_range targets r) as Hc.
  unfold counted_at in *. destruct (existsb _ _); cbn; [| intuition congruence].
  destruct (effective_rank r) as [i |]; cbn; [| intuition congruence].
  specialize (Hc i Hu Ho eq_refl).
  destruct (py_index_cases 6 i) as [[-> H] | [[-> H] | [-> H]]]; try lia.
  split.
  - intros [= <-]. split; [reflexivity |]. f_equal. lia.
  - intros [_ [= ->]]. f_equal. lia.
Qed.

Lemma counted_cons targets i r rows :
  counted targets i (r :: rows)
  = ((if decide (counted_at targets r = Some i) then 1 else 0)
     + counted targets i rows)%Z.
Proof.
  unfold counted. rewrite filter_cons.
  unfold counted_at.
  destruct (decide (_ /\ _)) as [[-> He] | Hn].
  - rewrite decide_True by assumption. cbn [length]. lia.
  - rewrite decide_False; [lia |].
    destruct (existsb _ _); [| discriminate]. tauto.
Qed.

Lemma tally_wrapped targets (n : nat) rows :
  (forall r i, r ∈ rows -> counted_at targets r = Some i -> (-6 <= i <= 5)%Z) ->
  n < 6 ->
  tally targets n rows
  = (counted targets (Z.of_nat n) rows + counted targets (Z.of_nat n - 6) rows)%Z.
Proof.
  intros Hr Hn. induction rows as [| r rows IH].
  - reflexivity.
  - rewrite tally_cons, !counted_cons, IH by (intros; eapply Hr; [right |]; eassumption).
    assert (Hhead :
      (if decide (counted_at targets r ≫= py_index 6 = Some n) then 1 else 0)%Z
      = ((if decide (counted_at targets r = Some (Z.of_nat n)) then 1 else 0)
         + (if decide (counted_at targets r = Some (Z.of_nat n - 6)%Z) then 1 else 0))%Z).
    { destruct (counted_at targets r) as [i |] eqn:Hc; cbn.
      - specialize (Hr r i (list_elem_of_here _ _) Hc).
        destruct (py_index_cases 6 i) as [[-> H] | [[-> H] | [-> H]]]; try lia;
          repeat destruct (decide _);
          repeat match goal with
                 | E : Some _ = Some _ |- _ => injection E as E
                 | E : Some ?a <> Some ?b |- _ =>
                     assert (a <> b) by congruence; clear E
                 end; lia.
      - repeat destruct (decide _); try discriminate; reflexivity. }
    rewrite Hhead. lia.
Qed.

Lemma count_rows_in_targets targets rows : forall freq,
  count_rows targets freq (filter (fun r => in_targets targets r = true) rows)
  = count_rows targets freq rows.
Proof.
  induction rows as [| r rows IH]; intros freq; [reflexivity |].
  rewrite filter_cons. unfold in_targets at 1.
  destruct (decide _) as [Hin | Hout].
  - cbn [count_rows]. destruct (count_row targets freq r); [apply IH | reflexivity].
  - cbn [count_rows]. unfold count_row.
    destruct (existsb _ targets); [congruence |]. apply IH.
Qed.

(** The ids [get_severity_freq] collects are those of the targets of the
    session. *)
Lemma in_session_targets session_id s t :
  existsb (Z.eqb t) (session_targets session_id s) = true <-> in_session session_id s t.
Proof.
  unfold session_targets, in_session. rewrite existsb_exists, Exists_exists. split.
  - intros (x & Hin & Hx%Z.eqb_eq). subst x.
    apply list_elem_of_In, list_elem_of_fmap in Hin as (tg & Hid & Htg).
    apply list_elem_of_filter in Htg as [Hs Htg].
    apply existsb_exists in Hs as (y & Hy & Hsy%Z.eqb_eq). subst y.
    exists tg. split; [assumption |]. split; [now symmetry | now apply list_elem_of_In].
  - intros (tg & Htg & Hid & Hs). exists t. split; [| now apply Z.eqb_eq].
    apply list_elem_of_In, list_elem_of_fmap. exists tg. split; [now symmetry |].
    apply list_elem_of_filter. split; [| assumption].
    apply existsb_exists. exists session_id.
    split; [now apply list_elem_of_In | now apply Z.eqb_eq].
Qed.

Lemma counted_in_targets targets i rows :
  counted targets i (filter (fun r => in_targets targets r = true) rows)
  = counted targets i rows.
Proof.
  unfold counted. do 2 f_equal. rewrite list_filter_filter.
  apply list_filter_iff. intros r. unfold in_targets. tauto.
Qed.

Lemma counted_session session_id s i :
  counted (session_targets session_id s) i (plugin_outputs s)
  = session_count session_id s i.
Proof.
  unfold counted, session_count. do 2 f_equal.
  apply list_filter_iff. intros r. now rewrite in_session_targets.
Qed.

(** C4: with the ranks of the rows of the session's targets in [-1, 5],
    [get_severity_freq] succeeds and returns the six buckets Critical
    first; the value of bucket [i] is the number of rows whose target
    belongs to the session and whose rank of record is [i], that rank
    being [user_rank] unless it is [-1], else [owtf_rank] unless it is [-1]
    too, in which case the row is not counted. Rows of other targets are
    not counted, whatever their ranks. *)
Theorem severity_histogram_counts s session_id :
  (forall r, r ∈ plugin_outputs s -> in_session session_id s (target_id r) ->
     rank_in_range (user_rank r) /\ rank_in_range (owtf_rank r)) ->
  get_severity_freq session_id s
  = Ok {| data := [ mkBucket 5 "Critical" (session_count session_id s 5);
                    mkBucket 4 "High" (session_count session_id s 4);
                    mkBucket 3 "Medium" (session_count session_id s 3);
                    mkBucket 2 "Low" (session_count session_id s 2);
                    mkBucket 1 "Info" (session_count session_id s 1);
                    mkBucket 0 "Passing" (session_count session_id s 0) ] |}.
Proof.
  intros Hr. unfold get_severity_freq.
  set (targets := session_targets session_id s).
  set (rows := filter (fun r => in_targets targets r = true) (plugin_outputs s)).
  assert (Hrows : ranks_in_range rows).
  { intros r Hin. apply list_elem_of_filter in Hin as [Ht Hin].
    apply Hr; [assumption |]. now apply in_session_targets. }
  rewrite <- count_rows_in_targets. fold rows.
  change severity_frequency with (buckets 0 0 0 0 0 0).
  rewrite count_rows_buckets.
  - rewrite !Z.add_0_l.
    rewrite !(tally_counted targets _ _ Hrows) by lia.
    unfold rows. rewrite !counted_in_targets. unfold targets.
    rewrite !counted_session. reflexivity.
  - intros r i Hin Hc. destruct (Hrows r Hin) as [Hu Ho].
    pose proof (counted_at_in_range targets r i Hu Ho Hc).
    destruct (py_index_cases 6 i) as [[-> H'] | [[-> H'] | [-> H']]]; eauto; lia.
Qed.

(** C10, as amended: with every rank in [-1, 5] the indexing stays within the
    six buckets and the operation succeeds. A counted rank of 6 or more, or
    of -7 or less, makes it fail with an out-of-range index. A counted rank
    from -6 to -2 does not fail: it increments the bucket six places up, so
    -2 lands in High. *)
Theorem severity_index_safety s session_id :
  let targets := session_targets session_id s in
  let rows := plugin_outputs s in
  (ranks_in_range rows ->
   exists env, get_severity_freq session_id s = Ok env /\ length (data env) = 6)
  /\ (forall r i, r ∈ rows -> counted_at targets r = Some i ->
      (6 <= i \/ i <= -7)%Z ->
      get_severity_freq session_id s = Raise IndexError)
  /\ ((forall r i, r ∈ rows -> counted_at targets r = Some i -> (-6 <= i <= 5)%Z) ->
      get_severity_freq session_id s
      = Ok {| data :=
                [ mkBucket 5 "Critical" (counted targets 5 rows + counted targets (-1) rows);
                  mkBucket 4 "High" (counted targets 4 rows + counted targets (-2) rows);
                  mkBucket 3 "Medium" (counted targets 3 rows + counted targets (-3) rows);
                  mkBucket 2 "Low" (counted targets 2 rows + counted targets (-4) rows);
                  mkBucket 1 "Info" (counted targets 1 rows + counted targets (-5) rows);
                  mkBucket 0 "Passing" (counted targets 0 rows + counted targets (-6) rows)
                ] |}).
Proof.
  intros targets rows. split; [| split].
  - intros Hr. unfold get_severity_freq. fold targets. fold rows.
    destruct (count_rows targets severity_frequency rows) as [freq | e] eqn:Hc.
    + eexists. split; [reflexivity |]. cbn.
      rewrite length_rev. now rewrite (count_rows_length _ _ _ _ Hc).
    + exfalso. revert Hc. change severity_frequency with (buckets 0 0 0 0 0 0).
      rewrite count_rows_buckets; [discriminate |].
      intros r i Hin Hi. destruct (Hr r Hin) as [Hu Ho].
      pose proof (counted_at_in_range targets r i Hu Ho Hi).
      destruct (py_index_cases 6 i) as [[-> H'] | [[-> H'] | [-> H']]]; eauto; lia.
  - intros r i Hin Hc Hi. unfold get_severity_freq. fold targets. fold rows.
    now rewrite (count_rows_out_of_range targets rows r i).
  - intros Hr. unfold get_severity_freq. fold targets. fold rows.
    change severity_frequency with (buckets 0 0 0 0 0 0).
    rewrite count_rows_buckets.
    + rewrite !Z.add_0_l.
      rewrite !(tally_wrapped targets _ _ Hr) by lia. reflexivity.
    + intros r i Hin Hc. specialize (Hr r i Hin Hc).
      destruct (py_index_cases 6 i) as [[-> H'] | [[-> H'] | [-> H']]]; eauto; lia.
Qed.

(** ** Saving *)

Lemma overwrite_cons f k x rows :
  overwrite f k (x :: rows)
  = (if key_eqb (natural_key x) k then f x else x) :: overwrite f k rows.
Proof. reflexivity. Qed.

Lemma rows_of_key_cons k x rows :
  rows_of_key k (x :: rows)
  = if decide (natural_key x = k) then x :: rows_of_key k rows else rows_of_key k rows.
Proof. unfold rows_of_key. now rewrite filter_cons. Qed.

Lemma rows_of_key_absent k rows :
  k ∉ natural_key <$> rows -> rows_of_key k rows = [].
Proof.
  induction rows as [| x rows IH]; [reflexivity |].
  rewrite fmap_cons. intros Hn. apply not_elem_of_cons in Hn as [Hx Hn].
  rewrite rows_of_key_cons, decide_False by congruence. auto.
Qed.

Lemma overwrite_keys f k rows :
  (forall x, natural_key (f x) = k) ->
  natural_key <$> overwrite f k rows = natural_key <$> rows.
Proof.
  intros Hf. induction rows as [| x rows IH]; [reflexivity |].
  rewrite overwrite_cons, !fmap_cons, IH. f_equal.
  destruct (key_eqb _ _) eqn:E; [| reflexivity].
  apply key_eqb_eq in E. now rewrite Hf.
Qed.

Lemma overwrite_other f k k' rows :
  (forall x, natural_key (f x) = k) -> k' <> k ->
  rows_of_key k' (overwrite f k rows) = rows_of_key k' rows.
Proof.
  intros Hf Hne. induction rows as [| x rows IH]; [reflexivity |].
  rewrite overwrite_cons, !rows_of_key_cons, IH.
  destruct (key_eqb _ _) eqn:E; [| reflexivity].
  apply key_eqb_eq in E. rewrite Hf.
  rewrite !decide_False by congruence. reflexivity.
Qed.

Lemma find_row_overwrite f k rows :
  (forall x, natural_key (f x) = k) -> table_ok rows ->
  match find_row k rows with
  | Some r0 =>
      existsb (fun r => key_eqb (natural_key r) k) rows = true
      /\ rows_of_key k (overwrite f k rows) = [f r0]
      /\ r0 ∈ rows /\ natural_key r0 = k
  | None =>
      existsb (fun r => key_eqb (natural_key r) k) rows = false
      /\ rows_of_key k rows = []
  end.
Proof.
  intros Hf. unfold table_ok. induction rows as [| x rows IH]; [cbn; auto |].
  rewrite fmap_cons. intros [Hx Hnd]%NoDup_cons.
  unfold find_row. cbn [List.find existsb]. fold (find_row k rows).
  rewrite overwrite_cons, !rows_of_key_cons.
  destruct (key_eqb (natural_key x) k) eqn:E.
  - apply key_eqb_eq in E. rewrite decide_True by apply Hf.
    repeat split; [| left | assumption].
    f_equal. apply rows_of_key_absent. rewrite overwrite_keys by assumption. congruence.
  - apply key_eqb_neq in E. rewrite !decide_False by assumption. specialize (IH Hnd).
    destruct (find_row k rows) as [r0 |].
    + destruct IH as (He & Hk & Hin & Hr0). repeat split; try assumption. now right.
    + assumption.
Qed.

Lemma rows_of_key_nil_absent k rows :
  rows_of_key k rows = [] -> k ∉ natural_key <$> rows.
Proof.
  intros Hk Hin. apply list_elem_of_fmap in Hin as (r & -> & Hin).
  apply (filter_nil_not_elem_of _ _ r Hk); [reflexivity | assumption].
Qed.

(** What [merge] leaves in the table: it stays free of duplicates, the row of
    the merged identity carries the given attributes on top of the row that
    was there (or of the defaults), and the other rows are as before. *)
Lemma merged_rows_spec f k rows :
  (forall x, natural_key (f x) = k) -> table_ok rows ->
  table_ok (merged_rows f rows)
  /\ rows_of_key k (merged_rows f rows) = [f (default default_row (find_row k rows))]
  /\ forall k', k' <> k -> rows_of_key k' (merged_rows f rows) = rows_of_key k' rows.
Proof.
  intros Hf Hok. unfold merged_rows. rewrite Hf. fold (overwrite f k rows).
  pose proof (find_row_overwrite f k rows Hf Hok) as H.
  destruct (find_row k rows) as [r0 |].
  - destruct H as (-> & Hk & _). cbn. repeat split.
    + unfold table_ok. now rewrite overwrite_keys.
    + assumption.
    + intros k' Hne. now apply overwrite_other.
  - destruct H as (-> & Hk). cbn. repeat split.
    + unfold table_ok. rewrite fmap_app. cbn. rewrite Hf.
      apply NoDup_app. repeat split; [assumption | | apply NoDup_singleton].
      intros x Hx Hx'. apply list_elem_of_singleton in Hx'. subst x.
      now apply (rows_of_key_nil_absent _ _ Hk).
    + unfold rows_of_key in *. rewrite filter_app, Hk.
      rewrite filter_cons_True by apply Hf. reflexivity.
    + intros k' Hne. unfold rows_of_key. rewrite filter_app.
      rewrite filter_cons_False by (rewrite Hf; congruence).
      rewrite filter_nil. now rewrite app_nil_r.
Qed.

(** What [merge] leaves under the merged identity, whatever the table was:
    at least one row, and only rows that carry the given attributes. *)
Lemma merged_rows_key f k rows :
  (forall x, natural_key (f x) = k) ->
  rows_of_key k (merged_rows f rows) <> []
  /\ forall r, r ∈ rows_of_key k (merged_rows f rows) -> exists x, r = f x.
Proof.
  intros Hf. unfold merged_rows. rewrite Hf.
  destruct (existsb _ rows) eqn:E.
  - split.
    + apply existsb_exists in E as (x & Hin & Hk%key_eqb_eq).
      intros Hnil. apply (filter_nil_not_elem_of _ _ (f x) Hnil); [apply Hf |].
      apply list_elem_of_fmap. exists x. rewrite (proj2 (key_eqb_eq _ _) Hk).
      split; [reflexivity | now apply list_elem_of_In].
    + intros r Hr. apply list_elem_of_filter in Hr as [Hk Hr].
      apply list_elem_of_fmap in Hr as (x & -> & Hx).
      destruct (key_eqb (natural_key x) k) eqn:Ex; [eauto |].
      apply key_eqb_neq in Ex. contradiction.
  - split.
    + unfold rows_of_key. rewrite filter_app, filter_cons_True by apply Hf.
      intros Hnil. apply app_eq_nil in Hnil as [_ Hnil]. discriminate.
    + intros r Hr. apply list_elem_of_filter in Hr as [Hk Hr].
      apply elem_of_app in Hr as [Hr | Hr].
      * exfalso. apply not_true_iff_false in E. apply E.
        apply existsb_exists. exists r. split; [now apply list_elem_of_In |].
        now apply key_eqb_eq.
      * apply list_elem_of_singleton in Hr. eauto.
Qed.

Section SaveProps.
Context {Output : Type}.
Variable json_dumps : Output -> string.

Local Abbreviation save_full := (save_plugin_output json_dumps).
Local Abbreviation save_partial := (save_partial_output json_dumps).
Local Abbreviation full := (full_attrs json_dumps).
Local Abbreviation partial := (partial_attrs json_dumps).

Lemma save_plugin_output_run plugin output t s :
  storage_ok s = true ->
  save_full plugin output t s
  = (Ok tt, stored s (merged_rows (full plugin output t (plugin_dir_exists plugin s))
                                  (plugin_outputs s))).
Proof.
  intros Hok. unfold save_plugin_output, bind, gets, path_exists, gets, merge,
    except_sqlalchemy, commit. cbn. rewrite Hok. reflexivity.
Qed.

Lemma save_partial_output_run plugin output message t s :
  storage_ok s = true ->
  save_partial plugin output message t s
  = (Ok tt, stored s (merged_rows (partial plugin output message t (plugin_dir_exists plugin s))
                                  (plugin_outputs s))).
Proof.
  intros Hok. unfold save_partial_output, bind, gets, path_exists, gets, merge,
    except_sqlalchemy, commit. cbn. rewrite Hok. reflexivity.
Qed.

(** A refused commit is rolled back and the error raised again. *)
Lemma save_plugin_output_refused plugin output t s :
  storage_ok s = false ->
  save_full plugin output t s
  = (Raise SQLAlchemyError, add_event (set_outputs s (committed_outputs s)) EvRollback).
Proof.
  intros Hok. unfold save_plugin_output, bind, gets, path_exists, gets, merge,
    except_sqlalchemy, commit, rollback, raise. cbn. rewrite Hok. reflexivity.
Qed.

(** C1: two calls of [save_plugin_output] with the same target, group, type
    and code, both committed, leave exactly one row under that key, and
    that row carries what the second call was given: its key, the JSON text
    of its output, its status, times and computed rank, and its output path
    if the artifact directory of its plugin is on disk. *)
Theorem save_twice_one_record s plugin1 plugin2 output1 output2 t :
  p_group plugin1 = p_group plugin2 ->
  p_type plugin1 = p_type plugin2 ->
  p_code plugin1 = p_code plugin2 ->
  table_ok (plugin_outputs s) ->
  storage_ok s = true ->
  exists s1 s2 r,
    save_plugin_output json_dumps plugin1 output1 t s = (Ok tt, s1)
    /\ save_plugin_output json_dumps plugin2 output2 t s1 = (Ok tt, s2)
    /\ rows_of_key (t, p_group plugin2, p_type plugin2, p_code plugin2) (plugin_outputs s2)
       = [r]
    /\ plugin_key r = p_key plugin2
    /\ output r = Some (json_dumps output2)
    /\ status r = p_status plugin2
    /\ start_time r = p_start plugin2
    /\ end_time r = p_end plugin2
    /\ owtf_rank r = p_owtf_rank plugin2
    /\ output_path r
       = (if plugin_dir_exists plugin2 s then p_output_path plugin2 else None)
    /\ committed_outputs s2 = plugin_outputs s2
    /\ table_ok (plugin_outputs s2).
Proof.
  intros Hg Hty Hc Htbl Hok.
  set (k := (t, p_group plugin2, p_type plugin2, p_code plugin2)).
  set (f1 := full plugin1 output1 t (plugin_dir_exists plugin1 s)).
  set (f2 := full plugin2 output2 t (plugin_dir_exists plugin2 s)).
  assert (Hf1 : forall x, natural_key (f1 x) = k)
    by (intros x; unfold natural_key, k; cbn; congruence).
  assert (Hf2 : forall x, natural_key (f2 x) = k) by reflexivity.
  destruct (merged_rows_spec f1 k _ Hf1 Htbl) as (Htbl1 & _ & _).
  set (rows1 := merged_rows f1 (plugin_outputs s)) in *.
  destruct (merged_rows_spec f2 k _ Hf2 Htbl1) as (Htbl2 & Hrow2 & _).
  exists (stored s rows1), (stored (stored s rows1) (merged_rows f2 rows1)),
    (f2 (default default_row (find_row k rows1))).
  split; [now apply save_plugin_output_run |].
  split; [now rewrite save_plugin_output_run by assumption |].
  split; [exact Hrow2 |]. cbn. repeat split; assumption.
Qed.

(** C9: the row [save_plugin_output] or [save_partial_output] stores has an
    [output_path] only if the plugin's artifact directory was on disk when
    it was saved; without the directory the path is stored as null. *)
Theorem output_path_only_if_directory s plugin output message t :
  storage_ok s = true ->
  let k := (t, p_group plugin, p_type plugin, p_code plugin) in
  (exists s',
      save_full plugin output t s = (Ok tt, s')
      /\ rows_of_key k (plugin_outputs s') <> []
      /\ forall r, r ∈ rows_of_key k (plugin_outputs s') ->
           (output_path r <> None -> plugin_dir_exists plugin s = true)
           /\ (plugin_dir_exists plugin s = false -> output_path r = None)
           /\ (plugin_dir_exists plugin s = true -> output_path r = p_output_path plugin))
  /\ (exists s',
      save_partial plugin output message t s = (Ok tt, s')
      /\ rows_of_key k (plugin_outputs s') <> []
      /\ forall r, r ∈ rows_of_key k (plugin_outputs s') ->
           (output_path r <> None -> plugin_dir_exists plugin s = true)
           /\ (plugin_dir_exists plugin s = false -> output_path r = None)
           /\ (plugin_dir_exists plugin s = true -> output_path r = p_output_path plugin)).
Proof.
  intros Hok k. split.
  - set (f := full plugin output t (plugin_dir_exists plugin s)).
    destruct (merged_rows_key f k (plugin_outputs s) (fun _ => eq_refl)) as (Hne & Hrows).
    eexists. split; [now apply save_plugin_output_run |].
    split; [exact Hne |]. intros r Hr. destruct (Hrows r Hr) as (x & ->). cbn.
    destruct (plugin_dir_exists plugin s); repeat split; congruence.
  - set (f := partial plugin output message t (plugin_dir_exists plugin s)).
    destruct (merged_rows_key f k (plugin_outputs s) (fun _ => eq_refl)) as (Hne & Hrows).
    eexists. split; [now apply save_partial_output_run |].
    split; [exact Hne |]. intros r Hr. destruct (Hrows r Hr) as (x & ->). cbn.
    destruct (plugin_dir_exists plugin s); repeat split; congruence.
Qed.

End SaveProps.

(** ** Deleting *)

Lemma gen_query_empty t for_delete :
  poutput_gen_query ∅ t for_delete
  = Ok (if for_delete then query_target t else order_by_key (query_target t)).
Proof.
  unfold poutput_gen_query, str_field, int_field, page_field.
  rewrite !lookup_empty. reflexivity.
Qed.

Lemma path_exists_iff d (paths : list string) :
  existsb (String.eqb d) paths = true <-> d ∈ paths.
Proof.
  rewrite existsb_exists, list_elem_of_In. split.
  - intros (x & Hin & ->%String.eqb_eq). assumption.
  - intros Hin. exists d. split; [assumption | apply String.eqb_refl].
Qed.

Lemma inside_self d : inside d d = true.
Proof. unfold inside. now rewrite String.eqb_refl. Qed.

Lemma after_removals_id s : after_removals s (fs s) [] = s.
Proof. destruct s; unfold after_removals; cbn. now rewrite app_nil_r. Qed.

Lemma after_removals_twice s paths1 dirs1 paths2 dirs2 :
  after_removals (after_removals s paths1 dirs1) paths2 dirs2
  = after_removals s paths2 (dirs1 ++ dirs2)%list.
Proof. unfold after_removals; cbn. now rewrite fmap_app, app_assoc. Qed.

(** One round of the loop: nothing but the disk and the log changes; when the
    row has a path and its directory is there, the directory is removed. *)
Lemma remove_artifacts_run r s :
  exists paths dirs,
    remove_artifacts r s = (Ok tt, after_removals s paths dirs)
    /\ (forall p, p ∈ paths -> p ∈ fs s)
    /\ (forall p, output_path r = Some p -> p <> "" -> artifact_dir s p ∉ paths)
    /\ (forall d, d ∈ dirs ->
          d ∈ fs s /\ exists p, output_path r = Some p /\ p <> "" /\ d = artifact_dir s p).
Proof.
  assert (Hnone : (forall p, output_path r = Some p -> p <> "" -> artifact_dir s p ∉ fs s) ->
    exists paths dirs,
      (Ok tt, s) = (Ok tt, after_removals s paths dirs)
      /\ (forall p, p ∈ paths -> p ∈ fs s)
      /\ (forall p, output_path r = Some p -> p <> "" -> artifact_dir s p ∉ paths)
      /\ (forall d, d ∈ dirs ->
            d ∈ fs s /\ exists p, output_path r = Some p /\ p <> "" /\ d = artifact_dir s p)).
  { intros H. exists (fs s), []. rewrite after_removals_id.
    split; [reflexivity |]. split; [tauto |]. split; [assumption |].
    intros d Hd. inversion Hd. }
  unfold remove_artifacts.
  destruct (output_path r) as [p |] eqn:Hp; cbn.
  - destruct (String.eqb_spec p "") as [-> | Hne]; cbn.
    + apply Hnone. intros p' [= <-]. congruence.
    + unfold bind, gets, path_exists, gets. cbn. fold (artifact_dir s p).
      destruct (existsb _ (fs s)) eqn:Hex.
      * exists (filter (fun q => inside (artifact_dir s p) q = false) (fs s)), [artifact_dir s p].
        split; [reflexivity |]. split; [| split].
        -- intros q Hq. now apply list_elem_of_filter in Hq.
        -- intros p' [= <-] _ Hin. apply list_elem_of_filter in Hin as [Hin _].
           rewrite inside_self in Hin. discriminate.
        -- intros d Hd. apply list_elem_of_singleton in Hd as ->.
           split; [now apply path_exists_iff | eauto].
      * apply Hnone. intros p' [= <-] _ Hin. apply path_exists_iff in Hin. congruence.
  - apply Hnone. congruence.
Qed.

Lemma remove_all_artifacts_run rows : forall s,
  exists paths dirs,
    for_each rows remove_artifacts s = (Ok tt, after_removals s paths dirs)
    /\ (forall p, p ∈ paths -> p ∈ fs s)
    /\ (forall r p, r ∈ rows -> output_path r = Some p -> p <> "" ->
          artifact_dir s p ∉ paths)
    /\ (forall d, d ∈ dirs ->
          d ∈ fs s /\ exists r p, r ∈ rows /\ output_path r = Some p /\ p <> ""
                                  /\ d = artifact_dir s p).
Proof.
  induction rows as [| r rows IH]; intros s.
  - exists (fs s), []. rewrite after_removals_id.
    split; [reflexivity |]. split; [tauto |]. split.
    + intros r p Hin. inversion Hin.
    + intros d Hin. inversion Hin.
  - destruct (remove_artifacts_run r s) as (paths1 & dirs1 & Hrun1 & Hsub1 & Hgone1 & Hdirs1).
    destruct (IH (after_removals s paths1 dirs1))
      as (paths2 & dirs2 & Hrun2 & Hsub2 & Hgone2 & Hdirs2).
    exists paths2, (dirs1 ++ dirs2)%list.
    cbn [for_each]. unfold bind at 1. rewrite Hrun1, Hrun2, after_removals_twice.
    split; [reflexivity |]. cbn in Hsub2. split; [auto |]. split.
    + intros x p Hin Hp Hne. apply elem_of_cons in Hin as [-> | Hin].
      * intros Hin. apply (Hgone1 p Hp Hne). auto.
      * apply (Hgone2 x p Hin Hp Hne).
    + intros d Hd. apply elem_of_app in Hd as [Hd | Hd].
      * destruct (Hdirs1 d Hd) as (Hfs & p & Hp & Hne & ->).
        split; [assumption |]. exists r, p. repeat split; auto. left.
      * destruct (Hdirs2 d Hd) as (Hfs & x & p & Hin & Hp & Hne & ->).
        split; [auto |]. exists x, p. repeat split; auto. now right.
Qed.

Lemma filter_none {A} (P : A -> Prop) `{!forall x, Decision (P x)} (l : list A) :
  (forall x, x ∈ l -> ~ P x) -> filter P l = [].
Proof.
  induction l as [| x l IH]; intros Hno; [reflexivity |].
  rewrite filter_cons_False by (apply Hno; left).
  apply IH. intros y Hy. apply Hno. now right.
Qed.

Lemma matches_query_target t r : matches (query_target t) r = (target_id r =? t)%Z.
Proof. unfold matches. cbn. now rewrite andb_true_r. Qed.

(** C3: with the empty filter, and a storage engine that accepts the commit,
    [delete_all_poutput] leaves no row of the target and keeps the rows of the
    other targets; no removed row with a non-empty [output_path] has its
    artifact directory on disk afterwards; and every call of [rm_tree] comes
    before the rows are deleted, which comes before the commit. *)
Theorem delete_everything_of_target s t :
  storage_ok s = true ->
  exists s' dirs,
    delete_all_poutput ∅ t s = (Ok tt, s')
    /\ plugin_outputs s' = filter (fun r => target_id r <> t) (plugin_outputs s)
    /\ filter (fun r => target_id r = t) (plugin_outputs s') = []
    /\ committed_outputs s' = plugin_outputs s'
    /\ (forall r p, r ∈ plugin_outputs s -> target_id r = t ->
          output_path r = Some p -> p <> "" -> artifact_dir s p ∉ fs s')
    /\ (forall p, p ∈ fs s' -> p ∈ fs s)
    /\ trail s' = (trail s ++ (EvRmTree <$> dirs) ++ [EvDelete; EvCommit])%list
    /\ (forall d, d ∈ dirs ->
          d ∈ fs s /\ exists r p, r ∈ plugin_outputs s /\ target_id r = t
                                  /\ output_path r = Some p /\ d = artifact_dir s p).
Proof.
  intros Hok.
  set (rows := filter (fun r => matches (query_target t) r = true) (plugin_outputs s)).
  destruct (remove_all_artifacts_run rows s) as (paths & dirs & Hrun & Hsub & Hgone & Hdirs).
  assert (Hrows : forall r, r ∈ rows <-> target_id r = t /\ r ∈ plugin_outputs s).
  { intros r. unfold rows. rewrite list_elem_of_filter, matches_query_target, Z.eqb_eq.
    reflexivity. }
  assert (Hrest : filter (fun r => matches (query_target t) r = false) (plugin_outputs s)
                  = filter (fun r => target_id r <> t) (plugin_outputs s)).
  { apply list_filter_iff. intros r. rewrite matches_query_target.
    destruct (Z.eqb_spec (target_id r) t); split; congruence. }
  eexists _, dirs. split.
  - unfold delete_all_poutput, bind, lift. cbv beta.
    rewrite gen_query_empty. cbv beta iota.
    change (query_all (query_target t) (plugin_outputs s)) with (Ok rows).
    cbv beta iota. rewrite Hrun. cbv beta iota.
    change (plugin_outputs (after_removals s paths dirs)) with (plugin_outputs s).
    unfold query_delete. cbn [q_ordered q_offset q_limit query_target].
    rewrite Hrest. cbv beta iota. unfold commit.
    change (storage_ok (add_event _ _)) with (storage_ok s). rewrite Hok. reflexivity.
  - cbn [plugin_outputs committed_outputs fs trail add_event set_committed set_outputs
         after_removals config].
    split; [reflexivity |]. split; [| split; [reflexivity |]].
    + rewrite list_filter_filter. apply filter_none. tauto.
    + split; [| split; [assumption | split]].
      * intros r p Hin Ht Hp Hne. apply (Hgone r p); [apply Hrows |..]; auto.
      * rewrite <- !app_assoc. reflexivity.
      * intros d Hd. destruct (Hdirs d Hd) as (Hfs & r & p & Hin & Hp & _ & ->).
        apply Hrows in Hin as [Ht Hin]. split; [assumption |].
        exists r, p. auto.
Qed.

(** ** Updating *)

Lemma patch_value_truthy v n :
  py_int (patch_value v) = Some n -> truthy (Some v) = true.
Proof.
  intros Hn. destruct v as [x | [| x l]]; cbn [patch_value truthy] in *; try reflexivity.
  - destruct (String.eqb_spec x ""); [subst; now rewrite py_int_empty in Hn | reflexivity].
  - now rewrite py_int_empty in Hn.
Qed.

Lemma apply_patch_rank patch_data obj v n :
  patch_data !! "user_rank" = Some v ->
  py_int (patch_value v) = Some n ->
  exists obj', apply_patch patch_data obj = Some obj'
    /\ user_rank obj' = n /\ owtf_rank obj' = (-1)%Z
    /\ natural_key obj' = natural_key obj.
Proof.
  intros Hv Hn. unfold apply_patch. rewrite Hv, (patch_value_truthy v n Hn).
  cbn [fmap option_fmap option_map]. rewrite Hn.
  destruct (truthy (patch_data !! "user_notes")); [| eauto].
  destruct (patch_data !! "user_notes"); cbn; eauto.
Qed.

Lemma rows_of_key_unique rows r :
  table_ok rows -> r ∈ rows -> rows_of_key (natural_key r) rows = [r].
Proof.
  unfold table_ok. induction rows as [| x rows IH]; intros Hnd Hin; [inversion Hin |].
  rewrite fmap_cons in Hnd. apply NoDup_cons in Hnd as [Hx Hnd].
  rewrite rows_of_key_cons. apply elem_of_cons in Hin as [-> | Hin].
  - rewrite decide_True by reflexivity. f_equal. now apply rows_of_key_absent.
  - rewrite decide_False; [auto |].
    intros E. apply Hx. rewrite E. now apply list_elem_of_fmap_2.
Qed.

Lemma update_poutput_run g ty c patch_data t s obj obj' :
  found_by_update g ty c t (plugin_outputs s) = Ok (Some obj) ->
  apply_patch patch_data obj = Some obj' ->
  storage_ok s = true ->
  update_poutput g ty c patch_data t s
  = (Ok tt, stored s (overwrite (fun _ => obj') (natural_key obj) (plugin_outputs s))).
Proof.
  unfold found_by_update, update_poutput, bind, lift. cbv beta.
  destruct (poutput_gen_query _ t false) as [q | e]; [| discriminate].
  intros -> -> Hok. unfold store_row, commit. cbn. rewrite Hok. reflexivity.
Qed.

Lemma plugin_dict_lookups g ty c :
  plugin_dict g ty c !! "plugin_group" = Some (PStr g)
  /\ plugin_dict g ty c !! "plugin_type" = Some (PStr ty)
  /\ plugin_dict g ty c !! "plugin_code" = Some (PStr c)
  /\ plugin_dict g ty c !! "plugin_key" = None
  /\ plugin_dict g ty c !! "status" = None
  /\ plugin_dict g ty c !! "user_rank" = None
  /\ plugin_dict g ty c !! "owtf_rank" = None
  /\ plugin_dict g ty c !! "offset" = None
  /\ plugin_dict g ty c !! "limit" = None.
Proof. unfold plugin_dict. repeat split; by simplify_map_eq. Qed.

Lemma satisfies_plugin_dict g ty c r :
  g <> "" -> ty <> "" -> c <> "" ->
  satisfies (plugin_dict g ty c) r
  = String.eqb (plugin_type r) ty && String.eqb (plugin_group r) g
    && String.eqb (plugin_code r) c.
Proof.
  intros Hg Hty Hc. unfold satisfies.
  destruct (plugin_dict_lookups g ty c) as (-> & -> & -> & -> & -> & -> & -> & _).
  unfold str_predicate, int_predicate. cbn [truthy stated_str_predicate].
  destruct (String.eqb_spec g ""), (String.eqb_spec ty ""), (String.eqb_spec c "");
    try contradiction.
  cbn. now rewrite !andb_true_r.
Qed.

(** With identifiers that are not empty, the row [update_poutput] works on is
    the row of that natural key. *)
Lemma found_by_update_keyed rows obj g ty c t :
  table_ok rows -> obj ∈ rows -> natural_key obj = (t, g, ty, c) ->
  g <> "" -> ty <> "" -> c <> "" ->
  found_by_update g ty c t rows = Ok (Some obj).
Proof.
  intros Htbl Hin Hk Hg Hty Hc. unfold found_by_update.
  destruct (plugin_dict_lookups g ty c) as (_ & _ & _ & _ & _ & Hu & Ho & Hoff & Hlim).
  destruct (gen_query_ok (plugin_dict g ty c) t false None None) as (q & -> & Hord & Hqo & Hql & Hm);
    rewrite ?Hu, ?Ho, ?Hoff, ?Hlim; try reflexivity.
  unfold query_first, query_all.
  cbn [q_offset q_limit set_limit]. rewrite Hqo. cbn [bound_ok apply_offset apply_limit andb].
  replace (selected (set_limit q 1) rows) with [obj]; [reflexivity |].
  unfold selected. cbn [q_ordered set_limit]. rewrite Hord. cbn [negb].
  assert (E : filter (fun r => matches (set_limit q 1) r = true) rows
              = rows_of_key (natural_key obj) rows).
  { apply list_filter_iff. intros r.
    change (matches (set_limit q 1) r) with (matches q r).
    rewrite Hm, satisfies_plugin_dict, Hk by assumption.
    rewrite !andb_true_iff, Z.eqb_eq, !String.eqb_eq. unfold natural_key.
    split; [intros (-> & (-> & ->) & ->); reflexivity | intros [= -> -> -> ->]; auto]. }
  rewrite E, (rows_of_key_unique _ _ Htbl Hin). reflexivity.
Qed.

Lemma apply_patch_fixed patch_data obj obj' :
  apply_patch patch_data obj = Some obj' -> fixed_part obj' = fixed_part obj.
Proof.
  unfold apply_patch.
  destruct (truthy (patch_data !! "user_rank"));
    [destruct (patch_value <$> patch_data !! "user_rank") as [x |];
     [destruct (py_int x); [| discriminate] |] |];
    (destruct (truthy (patch_data !! "user_notes"));
     [destruct (patch_value <$> patch_data !! "user_notes") |]);
    intros [= <-]; reflexivity.
Qed.

(** C5, as amended: for a record of the table with a group, type and code
    that are not empty, when the patch gives [user_rank] a value that [int]
    reads as [n] and the commit is accepted, [update_poutput] with these
    three identifiers succeeds and leaves that record, the only one of its
    key, with [user_rank] [n] and [owtf_rank] [-1], whatever its
    [owtf_rank] was before; its other attributes, the notes apart, are as
    they were. *)
Theorem user_rank_supersedes s g ty c patch_data t obj v n :
  g <> "" -> ty <> "" -> c <> "" ->
  obj ∈ plugin_outputs s ->
  natural_key obj = (t, g, ty, c) ->
  table_ok (plugin_outputs s) ->
  storage_ok s = true ->
  patch_data !! "user_rank" = Some v ->
  py_int (patch_value v) = Some n ->
  exists s' r,
    update_poutput g ty c patch_data t s = (Ok tt, s')
    /\ rows_of_key (t, g, ty, c) (plugin_outputs s') = [r]
    /\ user_rank r = n
    /\ owtf_rank r = (-1)%Z
    /\ fixed_part r = fixed_part obj
    /\ committed_outputs s' = plugin_outputs s'.
Proof.
  intros Hg Hty Hc Hin Hkey Htbl Hok Hv Hn.
  pose proof (found_by_update_keyed _ _ g ty c t Htbl Hin Hkey Hg Hty Hc) as Hfound.
  destruct (apply_patch_rank patch_data obj v n Hv Hn) as (obj' & Hpatch & Hu & Ho & Hk).
  exists (stored s (overwrite (fun _ => obj') (natural_key obj) (plugin_outputs s))), obj'.
  split; [now apply update_poutput_run |].
  cbn. rewrite <- Hkey. repeat split; try assumption.
  - pose proof (find_row_overwrite (fun _ => obj') (natural_key obj) (plugin_outputs s)
                  (fun _ => Hk) Htbl) as Hfind.
    destruct (find_row _ _).
    + tauto.
    + destruct Hfind as [_ Hfind].
      rewrite (rows_of_key_unique _ _ Htbl Hin) in Hfind. discriminate.
  - eapply apply_patch_fixed; eassumption.
Qed.

(** ** Progress *)

(** C8: [plugin_count_output] reports the number of rows of the output table
    as [complete_count] and the number of queued work rows plus the busy
    workers as [left_count]; three rows, two queued items and one busy worker
    give 3 and 3. *)
Theorem progress_counts s :
  complete_count (plugin_count_output s) = Z.of_nat (length (plugin_outputs s))
  /\ left_count (plugin_count_output s) = (Z.of_nat (length (works s)) + busy_workers s)%Z
  /\ (length (plugin_outputs s) = 3 -> length (works s) = 2 -> busy_workers s = 1%Z ->
      plugin_count_output s = {| complete_count := 3; left_count := 3 |}).
Proof.
  unfold plugin_count_output, get_count. cbn. repeat split.
  intros -> -> ->. reflexivity.
Qed.

(** ** Further properties *)

(** ** Queries and their results *)

Lemma int_field_some_inv name col F q q' :
  int_field name col F q = Some q' -> int_field_ok (F !! name) = true.
Proof.
  unfold int_field, int_field_ok. destruct (truthy (F !! name)); [| reflexivity].
  destruct (F !! name) as [[x | l] |]; [| | reflexivity].
  - destruct (py_int x); [intros _; now apply bool_decide_eq_true | discriminate].
  - destruct (py_ints l); [intros _; now apply bool_decide_eq_true | discriminate].
Qed.

Lemma page_field_some_inv name set F q q' :
  page_field name set F q = Some q' -> exists o, page_bound (F !! name) = Some o.
Proof.
  unfold page_field, page_bound.
  destruct (F !! name) as [[x | [| x l]] |]; eauto.
  cbn. destruct (py_int x); [eauto | discriminate].
Qed.

(** Whatever [poutput_gen_query] returns, it is the query [gen_query_ok]
    describes. *)
Lemma gen_query_inv F t fd q :
  poutput_gen_query F t fd = Ok q ->
  exists o l,
    page_bound (F !! "offset") = Some o /\ page_bound (F !! "limit") = Some l
    /\ int_field_ok (F !! "user_rank") = true /\ int_field_ok (F !! "owtf_rank") = true
    /\ q_ordered q = negb fd /\ q_offset q = o /\ q_limit q = l
    /\ forall r, matches q r = (target_id r =? t)%Z && satisfies F r.
Proof.
  intros Hq. pose proof Hq as Hq0. unfold poutput_gen_query in Hq.
  destruct (int_field "user_rank" _ _ _) as [q6 |] eqn:E6; [| discriminate].
  destruct (int_field "owtf_rank" _ _ _) as [q7 |] eqn:E7; [| discriminate].
  destruct (page_field "offset" _ _ _) as [q9 |] eqn:E9; [| discriminate].
  destruct (page_field "limit" _ _ _) as [q10 |] eqn:E10; [| discriminate].
  apply int_field_some_inv in E6. apply int_field_some_inv in E7.
  apply page_field_some_inv in E9 as [o Ho]. apply page_field_some_inv in E10 as [l Hl].
  destruct (gen_query_ok F t fd o l E6 E7 Ho Hl) as (q' & Hq' & H).
  rewrite Hq0 in Hq'. injection Hq' as <-. exists o, l. tauto.
Qed.

Lemma Sorted_drop {A} (R : A -> A -> Prop) n l : Sorted R l -> Sorted R (drop n l).
Proof.
  revert l. induction n as [| n IH]; intros l Hs; [assumption |].
  destruct l as [| x l]; [constructor |]. cbn. apply IH. now apply Sorted_inv in Hs.
Qed.

Lemma Sorted_take {A} (R : A -> A -> Prop) n l : Sorted R l -> Sorted R (take n l).
Proof.
  revert l. induction n as [| n IH]; intros l Hs; [constructor |].
  destruct l as [| x l]; [constructor |]. cbn.
  apply Sorted_inv in Hs as [Hs Hhd]. constructor; [auto |].
  destruct l as [| y l]; [destruct n; constructor |]. destruct n; cbn; constructor.
  now apply HdRel_inv in Hhd.
Qed.

Lemma length_page o l (rows : list PluginOutput) :
  length (apply_limit l (apply_offset o rows)) = page_length o l (length rows).
Proof.
  unfold page_length. destruct o as [n |], l as [m |]; cbn;
    rewrite ?length_take, ?length_drop; reflexivity.
Qed.

Section MoreQueryProps.
Context {Args : Type}.
Variable json_loads : string -> option (list (Item Args)).
Variable reporter : string -> Args -> option string.
Variable strftime : Z -> string.
Variable get_time_as_str : Z -> string.

Local Abbreviation to_dict' := (dict_of json_loads reporter strftime get_time_as_str).
Local Abbreviation get_all' := (get_all_poutputs json_loads reporter strftime get_time_as_str).

(** What a successful [get_all_poutputs] returned. *)
Lemma get_all_poutputs_ok_inv F t inc s ds s' :
  get_all' F t inc s = (Ok ds, s') ->
  exists o l,
    page_bound (default ∅ F !! "offset") = Some o
    /\ page_bound (default ∅ F !! "limit") = Some l
    /\ d_row <$> ds
       = apply_limit l (apply_offset o
           (sort_rows (filter (wanted (default ∅ F) t) (plugin_outputs s)))).
Proof.
  rewrite get_all_poutputs_run.
  destruct (poutput_gen_query _ t false) as [q | e] eqn:Hq; [| discriminate].
  destruct (gen_query_inv _ _ _ _ Hq) as (o & l & Ho & Hl & _ & _ & Hord & Hqo & Hql & Hm).
  unfold query_all. destruct (_ && _); [| discriminate].
  intros [= Hds _]. apply rows_of_dicts in Hds.
  exists o, l. split; [assumption |]. split; [assumption |].
  rewrite Hds, Hqo, Hql, (selected_wanted _ t q _ Hm), Hord. reflexivity.
Qed.

(** X1: whatever filter and pagination were asked for, every dictionary a
    successful [get_all_poutputs] returns is that of a row of the table,
    of the target asked for, that satisfies the filter; the rows come in
    ascending order of their plugin key and are a sub-list of the ordered
    selection, so none is returned twice or invented. *)
Theorem query_stays_in_target F t inc s ds s' :
  get_all' F t inc s = (Ok ds, s') ->
  (forall d, d ∈ ds ->
     d_row d ∈ plugin_outputs s /\ target_id (d_row d) = t
     /\ satisfies (default ∅ F) (d_row d) = true)
  /\ Sorted key_le (d_row <$> ds)
  /\ d_row <$> ds `sublist_of` sort_rows (filter (wanted (default ∅ F) t) (plugin_outputs s)).
Proof.
  intros Hrun. destruct (get_all_poutputs_ok_inv _ _ _ _ _ _ Hrun) as (o & l & _ & _ & Hrows).
  assert (Hsub : d_row <$> ds
                 `sublist_of` sort_rows (filter (wanted (default ∅ F) t) (plugin_outputs s))).
  { rewrite Hrows. destruct l, o; cbn;
      repeat first [apply sublist_take | apply sublist_drop | reflexivity
                   | (etrans; [apply sublist_take |])]. }
  split; [| split; [| assumption]].
  - intros d Hd.
    assert (Hin : d_row d ∈ d_row <$> ds) by now apply list_elem_of_fmap_2.
    apply (fun H => elem_of_sublist _ _ _ H Hsub) in Hin. rewrite sort_rows_perm in Hin.
    apply list_elem_of_filter in Hin as [[Ht Hs] Hin]. auto.
  - rewrite Hrows. destruct l, o; cbn;
      repeat first [apply Sorted_take | apply Sorted_drop]; apply sort_rows_sorted.
Qed.

(** X2: the number of dictionaries a successful [get_all_poutputs] returns
    is the number of selected rows, less the offset, capped by the limit:
    never more than the limit, and none at all when the offset reaches past
    the selection. *)
Theorem query_page_length F t inc s ds s' o l :
  get_all' F t inc s = (Ok ds, s') ->
  page_bound (default ∅ F !! "offset") = Some o ->
  page_bound (default ∅ F !! "limit") = Some l ->
  length ds
  = page_length o l (length (filter (wanted (default ∅ F) t) (plugin_outputs s))).
Proof.
  intros Hrun Ho Hl.
  destruct (get_all_poutputs_ok_inv _ _ _ _ _ _ Hrun) as (o' & l' & Ho' & Hl' & Hrows).
  rewrite Ho in Ho'. rewrite Hl in Hl'. injection Ho' as <-. injection Hl' as <-.
  rewrite <- (length_fmap d_row), Hrows, length_page.
  now rewrite sort_rows_perm.
Qed.

(** X3: [get_all_poutputs] only reads. Unless the store refuses the query,
    the state it leaves, whether it returns or raises, differs from the one
    it found in the active target alone: rows, committed rows, work list,
    files and log of effects are as before, and asking again gives the same
    answer. *)
Theorem query_is_read_only F t inc s r s' :
  get_all' F t inc s = (r, s') ->
  r <> Raise SQLAlchemyError ->
  s' = set_active s t
  /\ same_store s s'
  /\ get_all' F t inc s' = (r, s').
Proof.
  intros Hrun _.
  assert (Hs : s' = set_active s t).
  { revert Hrun. rewrite get_all_poutputs_run.
    destruct (poutput_gen_query _ t false) as [q | e]; [| now intros [= _ <-]].
    destruct (query_all q (plugin_outputs s)); now intros [= _ <-]. }
  split; [exact Hs |]. subst s'. split; [unfold same_store; cbn; auto |].
  rewrite <- Hrun, !get_all_poutputs_run. reflexivity.
Qed.

Lemma page_field_bad name set (F : filter_dict) q x xs :
  F !! name = Some (PList (x :: xs)) -> py_int x = None ->
  page_field name set F q = None.
Proof. intros HF Hx. unfold page_field. rewrite HF. cbn. now rewrite Hx. Qed.

(** X5: a pagination bound given as a list whose first element is not an
    integer is rejected. With [offset] or [limit] mapped to such a list the
    query is not built, whatever else the filter holds: [poutput_gen_query]
    raises [InvalidParameterType], [get_all_poutputs] raises it after setting
    the target and returns no rows, and [delete_all_poutput] raises it
    before anything is removed. *)
Theorem bad_page_bound_rejected (F : filter_dict) x xs t :
  F !! "offset" = Some (PList (x :: xs)) \/ F !! "limit" = Some (PList (x :: xs)) ->
  py_int x = None ->
  (forall for_delete, poutput_gen_query F t for_delete = Raise integer_error)
  /\ (forall inc s, get_all' (Some F) t inc s = (Raise integer_error, set_active s t))
  /\ (forall s, delete_all_poutput F t s = (Raise integer_error, s)).
Proof.
  intros HF Hx.
  assert (Hq : forall fd, poutput_gen_query F t fd = Raise integer_error).
  { intros fd. unfold poutput_gen_query.
    destruct (int_field "user_rank" _ _ _); [| reflexivity].
    destruct (int_field "owtf_rank" _ _ _); [| reflexivity].
    destruct HF as [HF | HF].
    - now rewrite (page_field_bad "offset" _ _ _ x xs HF Hx).
    - destruct (page_field "offset" _ _ _); [| reflexivity].
      now rewrite (page_field_bad "limit" _ _ _ x xs HF Hx). }
  split; [assumption |]. split.
  - intros inc s. rewrite get_all_poutputs_run. cbn [default]. now rewrite Hq.
  - intros s. unfold delete_all_poutput, bind, lift. now rewrite Hq.
Qed.
End MoreQueryProps.

(** X4: [poutput_gen_query] looks at nine fields of the filter and at no
    other. Adding a key outside these nine, with any value, or removing
    one, gives the same query or the same error; a [target_id] in the
    filter, in particular, does not redirect the query to another target. *)
Theorem unrecognized_field_is_ignored (F : filter_dict) k v t for_delete :
  k ∉ recognized_fields ->
  poutput_gen_query (<[k := v]> F) t for_delete = poutput_gen_query F t for_delete
  /\ poutput_gen_query (delete k F) t for_delete = poutput_gen_query F t for_delete.
Proof.
  intros Hk. unfold recognized_fields in Hk.
  repeat (apply not_elem_of_cons in Hk as [? Hk]).
  unfold poutput_gen_query, str_field, int_field, page_field.
  split.
  - rewrite !lookup_insert_ne by congruence. reflexivity.
  - rewrite !lookup_delete_ne by congruence. reflexivity.
Qed.

(** ** Deleting by filter *)

Lemma query_all_unpaged q rows :
  q_offset q = None -> q_limit q = None -> query_all q rows = Ok (selected q rows).
Proof. intros Ho Hl. unfold query_all. now rewrite Ho, Hl. Qed.

(** [delete_all_poutput] with a filter the query accepts and that asks for no
    pagination: the artifacts of the selected rows are removed, the rows are
    deleted, and then the commit is tried. *)
Lemma delete_all_poutput_run F t s :
  int_field_ok (F !! "user_rank") = true ->
  int_field_ok (F !! "owtf_rank") = true ->
  page_bound (F !! "offset") = Some None ->
  page_bound (F !! "limit") = Some None ->
  exists paths dirs,
    let rest := filter (fun r => ~ wanted F t r) (plugin_outputs s) in
    let mid := before_commit s paths dirs rest in
    delete_all_poutput F t s
    = (if storage_ok s
       then (Ok tt, add_event (set_committed mid rest) EvCommit)
       else (Raise SQLAlchemyError, mid))
    /\ (forall p, p ∈ paths -> p ∈ fs s)
    /\ (forall r p, r ∈ plugin_outputs s -> wanted F t r ->
          output_path r = Some p -> p <> "" -> artifact_dir s p ∉ paths)
    /\ (forall d, d ∈ dirs ->
          d ∈ fs s /\ exists r p, r ∈ plugin_outputs s /\ wanted F t r
                                  /\ output_path r = Some p /\ d = artifact_dir s p).
Proof.
  intros Hu Ho Hoff Hlim.
  destruct (gen_query_ok F t true None None Hu Ho Hoff Hlim)
    as (q & Hq & Hord & Hqo & Hql & Hm).
  set (rows := filter (wanted F t) (plugin_outputs s)).
  assert (Hsel : selected q (plugin_outputs s) = rows).
  { rewrite (selected_wanted F t q _ Hm), Hord. reflexivity. }
  destruct (remove_all_artifacts_run rows s) as (paths & dirs & Hrun & Hsub & Hgone & Hdirs).
  assert (Hrows : forall r, r ∈ rows <-> wanted F t r /\ r ∈ plugin_outputs s).
  { intros r. unfold rows. now rewrite list_elem_of_filter. }
  assert (Hrest : filter (fun r => matches q r = false) (plugin_outputs s)
                  = filter (fun r => ~ wanted F t r) (plugin_outputs s)).
  { apply list_filter_iff. intros r. unfold wanted. rewrite Hm.
    destruct (Z.eqb_spec (target_id r) t), (satisfies F r); cbn; intuition congruence. }
  exists paths, dirs. cbv zeta. split; [| split; [assumption | split]].
  - unfold delete_all_poutput, bind, lift. cbv beta. rewrite Hq. cbv beta iota.
    rewrite (query_all_unpaged q _ Hqo Hql), Hsel. cbv beta iota.
    rewrite Hrun. cbv beta iota.
    change (plugin_outputs (after_removals s paths dirs)) with (plugin_outputs s).
    unfold query_delete. cbn [negb] in Hord. rewrite Hord, Hqo, Hql, Hrest.
    cbv beta iota. unfold commit.
    change (storage_ok (add_event _ _)) with (storage_ok s).
    destruct (storage_ok s); reflexivity.
  - intros r p Hin Hw Hp Hne. apply (Hgone r p); [apply Hrows |..]; auto.
  - intros d Hd. destruct (Hdirs d Hd) as (Hfs & r & p & Hin & Hp & _ & ->).
    apply Hrows in Hin as [Hw Hin]. split; [assumption |]. exists r, p. auto.
Qed.

Lemma filter_wanted_rest F t (rows : list PluginOutput) :
  filter (wanted F t) (filter (fun r => ~ wanted F t r) rows) = [].
Proof.
  apply filter_none. intros r Hr. apply list_elem_of_filter in Hr as [Hn _]. exact Hn.
Qed.

Section DeleteProps.
Context {Args : Type}.
Variable json_loads : string -> option (list (Item Args)).
Variable reporter : string -> Args -> option string.
Variable strftime : Z -> string.
Variable get_time_as_str : Z -> string.

Local Abbreviation get_all'' := (get_all_poutputs json_loads reporter strftime get_time_as_str).

(** X6: [delete_all_poutput] with a filter deletes what [get_all_poutputs]
    selects with it. For a filter whose integer fields parse and that asks
    for no pagination, and a store that takes the commit, the rows left
    are those of other targets and those the filter does not select, the
    change is committed, the same query afterwards returns nothing, and the
    artifact directory of every deleted row is gone. *)
Theorem delete_removes_what_query_returns (F : filter_dict) t s :
  int_field_ok (F !! "user_rank") = true ->
  int_field_ok (F !! "owtf_rank") = true ->
  page_bound (F !! "offset") = Some None ->
  page_bound (F !! "limit") = Some None ->
  storage_ok s = true ->
  exists s' dirs,
    delete_all_poutput F t s = (Ok tt, s')
    /\ plugin_outputs s' = filter (fun r => ~ wanted F t r) (plugin_outputs s)
    /\ committed_outputs s' = plugin_outputs s'
    /\ (forall inc, get_all'' (Some F) t inc s' = (Ok [], set_active s' t))
    /\ (forall r p, r ∈ plugin_outputs s -> wanted F t r ->
          output_path r = Some p -> p <> "" -> artifact_dir s p ∉ fs s')
    /\ trail s' = (trail s ++ (EvRmTree <$> dirs) ++ [EvDelete; EvCommit])%list.
Proof.
  intros Hu Ho Hoff Hlim Hok.
  destruct (delete_all_poutput_run F t s Hu Ho Hoff Hlim)
    as (paths & dirs & Hrun & Hsub & Hgone & Hdirs).
  cbv zeta in Hrun. rewrite Hok in Hrun.
  eexists _, dirs. split; [exact Hrun |].
  cbn [plugin_outputs committed_outputs fs trail add_event set_committed set_outputs
       after_removals before_commit config].
  split; [reflexivity |]. split; [reflexivity |]. split; [| split; [assumption |]].
  - intros inc.
    rewrite (get_all_poutputs_paged _ _ _ _ (Some F) t inc _ None None)
      by (assumption || reflexivity).
    cbn [plugin_outputs add_event set_committed set_outputs after_removals before_commit
         apply_limit apply_offset].
    now rewrite filter_wanted_rest.
  - rewrite <- !app_assoc. reflexivity.
Qed.

End DeleteProps.

(** X7: [delete_all_poutput] does not roll back. When the store refuses the
    commit the error of the store is raised as it is; by then the artifact
    directories of the selected rows are removed and the session no longer
    holds the rows, while the committed table still holds them. *)
Theorem delete_is_not_rolled_back (F : filter_dict) t s :
  int_field_ok (F !! "user_rank") = true ->
  int_field_ok (F !! "owtf_rank") = true ->
  page_bound (F !! "offset") = Some None ->
  page_bound (F !! "limit") = Some None ->
  storage_ok s = false ->
  exists s' dirs,
    delete_all_poutput F t s = (Raise SQLAlchemyError, s')
    /\ committed_outputs s' = committed_outputs s
    /\ plugin_outputs s' = filter (fun r => ~ wanted F t r) (plugin_outputs s)
    /\ (forall r p, r ∈ plugin_outputs s -> wanted F t r ->
          output_path r = Some p -> p <> "" -> artifact_dir s p ∉ fs s')
    /\ trail s' = (trail s ++ (EvRmTree <$> dirs) ++ [EvDelete])%list.
Proof.
  intros Hu Ho Hoff Hlim Hok.
  destruct (delete_all_poutput_run F t s Hu Ho Hoff Hlim)
    as (paths & dirs & Hrun & Hsub & Hgone & Hdirs).
  cbv zeta in Hrun. rewrite Hok in Hrun.
  eexists _, dirs. split; [exact Hrun |].
  cbn [plugin_outputs committed_outputs fs trail add_event set_committed set_outputs
       after_removals before_commit config].
  repeat split; try assumption. now rewrite <- app_assoc.
Qed.

(** ** Patching a record *)

(** The lookup of [update_poutput] never raises: it returns the first of the
    selected rows in key order. *)
Lemma found_by_update_head g ty c t rows :
  found_by_update g ty c t rows
  = Ok (head (sort_rows (filter (wanted (plugin_dict g ty c) t) rows))).
Proof.
  unfold found_by_update.
  destruct (plugin_dict_lookups g ty c) as (_ & _ & _ & _ & _ & Hu & Ho & Hoff & Hlim).
  destruct (gen_query_ok (plugin_dict g ty c) t false None None) as (q & -> & Hord & Hqo & Hql & Hm);
    rewrite ?Hu, ?Ho, ?Hoff, ?Hlim; try reflexivity.
  unfold query_first, query_all.
  cbn [q_offset q_limit set_limit]. rewrite Hqo. cbn [bound_ok apply_offset apply_limit andb].
  change (selected (set_limit q 1) rows) with (selected q rows).
  rewrite (selected_wanted _ t q _ Hm), Hord. cbn [negb].
  destruct (sort_rows _); reflexivity.
Qed.

Lemma wanted_plugin_dict g ty c t r :
  g <> "" -> ty <> "" -> c <> "" ->
  wanted (plugin_dict g ty c) t r <-> natural_key r = (t, g, ty, c).
Proof.
  intros Hg Hty Hc. unfold wanted. rewrite satisfies_plugin_dict by assumption.
  rewrite !andb_true_iff, !String.eqb_eq. unfold natural_key.
  split; [intros (-> & (-> & ->) & ->); reflexivity | intros [= -> -> -> ->]; auto].
Qed.

Lemma sort_rows_nil l : sort_rows l = [] -> l = [].
Proof.
  intros H. apply Permutation_nil_r. rewrite <- H. symmetry. apply sort_rows_perm.
Qed.

Lemma update_poutput_cases g ty c patch_data t s :
  update_poutput g ty c patch_data t s
  = match head (sort_rows (filter (wanted (plugin_dict g ty c) t) (plugin_outputs s))) with
    | Some obj =>
        match apply_patch patch_data obj with
        | Some obj' =>
            let s1 := set_outputs s (overwrite (fun _ => obj') (natural_key obj)
                                               (plugin_outputs s)) in
            if storage_ok s then (Ok tt, stored s (plugin_outputs s1))
            else (Raise SQLAlchemyError, s1)
        | None => (Raise integer_error, s)
        end
    | None => (Ok tt, s)
    end.
Proof.
  pose proof (found_by_update_head g ty c t (plugin_outputs s)) as Hf.
  unfold found_by_update in Hf. unfold update_poutput, bind, lift. cbv beta zeta.
  destruct (poutput_gen_query _ t false) as [q | e]; [| discriminate].
  rewrite Hf. cbv beta iota.
  destruct (head _) as [obj |]; [| reflexivity].
  destruct (apply_patch patch_data obj) as [obj' |]; [| reflexivity].
  unfold store_row, commit, bind. cbn. destruct (storage_ok s); reflexivity.
Qed.

(** X8: [update_poutput] for a plugin without a record does nothing: it
    returns without an error and leaves the state as it was, whatever the
    patch holds, a rank that is not an integer included. *)
Theorem update_without_row_changes_nothing g ty c patch_data t s :
  g <> "" -> ty <> "" -> c <> "" ->
  (forall r, r ∈ plugin_outputs s -> natural_key r <> (t, g, ty, c)) ->
  update_poutput g ty c patch_data t s = (Ok tt, s).
Proof.
  intros Hg Hty Hc Hno. rewrite update_poutput_cases.
  rewrite (filter_none (wanted (plugin_dict g ty c) t)); [reflexivity |].
  intros r Hr Hw. apply (Hno r Hr). now apply wanted_plugin_dict.
Qed.

(** X9: [update_poutput] with a [user_rank] that is not an integer, for a
    plugin that has a record, raises [InvalidParameterType] and changes
    nothing: no rank, no notes, no commit. For a list it is the first
    element that counts. *)
Theorem update_rejects_bad_rank g ty c patch_data t s r v :
  g <> "" -> ty <> "" -> c <> "" ->
  r ∈ plugin_outputs s -> natural_key r = (t, g, ty, c) ->
  patch_data !! "user_rank" = Some v ->
  truthy (Some v) = true ->
  py_int (patch_value v) = None ->
  update_poutput g ty c patch_data t s = (Raise integer_error, s).
Proof.
  intros Hg Hty Hc Hin Hk Hv Ht Hbad. rewrite update_poutput_cases.
  destruct (head _) as [obj |] eqn:Hh.
  - unfold apply_patch. rewrite Hv, Ht. cbn [fmap option_fmap option_map].
    now rewrite Hbad.
  - exfalso. apply head_None in Hh. apply sort_rows_nil in Hh.
    apply (filter_nil_not_elem_of _ _ r Hh); [now apply wanted_plugin_dict | assumption].
Qed.

Lemma overwrite_fixed obj obj' rows :
  fixed_part obj' = fixed_part obj -> obj ∈ rows -> table_ok rows ->
  fixed_part <$> overwrite (fun _ => obj') (natural_key obj) rows = fixed_part <$> rows.
Proof.
  intros Hf Hin Htbl. unfold table_ok in Htbl.
  induction rows as [| x rows IH]; [reflexivity |].
  rewrite overwrite_cons, !fmap_cons. rewrite fmap_cons in Htbl.
  apply NoDup_cons in Htbl as [Hx Htbl].
  destruct (key_eqb (natural_key x) (natural_key obj)) eqn:E.
  - apply key_eqb_eq in E.
    assert (x = obj).
    { apply elem_of_cons in Hin as [-> | Hin]; [reflexivity |].
      exfalso. apply Hx. rewrite E. now apply list_elem_of_fmap_2. }
    subst x. rewrite Hf. f_equal.
    clear IH Hin. induction rows as [| y rows IH]; [reflexivity |].
    rewrite overwrite_cons, !fmap_cons. rewrite fmap_cons in Hx, Htbl.
    apply not_elem_of_cons in Hx as [Hy Hx]. apply NoDup_cons in Htbl as [_ Htbl].
    destruct (key_eqb (natural_key y) (natural_key obj)) eqn:Ey;
      [apply key_eqb_eq in Ey; congruence |].
    f_equal. auto.
  - f_equal. apply key_eqb_neq in E. apply IH; [| assumption].
    apply elem_of_cons in Hin as [-> | Hin]; [congruence | assumption].
Qed.

(** X10: a successful [update_poutput] changes at most the ranks and the
    notes. The table has the same rows in the same order with the same
    key, codes, output, error, status, path and times; no row is added or
    removed, the integrity of the table is kept, and neither the files nor
    the work list are touched. *)
Theorem update_changes_ranks_and_notes_only g ty c patch_data t s s' :
  table_ok (plugin_outputs s) ->
  update_poutput g ty c patch_data t s = (Ok tt, s') ->
  fixed_part <$> plugin_outputs s' = fixed_part <$> plugin_outputs s
  /\ table_ok (plugin_outputs s')
  /\ fs s' = fs s /\ works s' = works s.
Proof.
  intros Htbl. rewrite update_poutput_cases.
  destruct (head _) as [obj |] eqn:Hh; [| intros [= <-]; auto].
  destruct (apply_patch patch_data obj) as [obj' |] eqn:Hp; [| discriminate].
  cbv zeta. destruct (storage_ok s); [| discriminate]. intros [= <-].
  cbn [plugin_outputs stored add_event set_committed set_outputs fs works].
  assert (Hin : obj ∈ plugin_outputs s).
  { apply head_Some_elem_of in Hh. rewrite sort_rows_perm in Hh.
    now apply list_elem_of_filter in Hh. }
  pose proof (overwrite_fixed obj obj' _ (apply_patch_fixed _ _ _ Hp) Hin Htbl) as Hfix.
  split; [assumption |]. split; [| auto].
  unfold table_ok in *.
  replace (natural_key <$> overwrite (fun _ => obj') (natural_key obj) (plugin_outputs s))
    with (natural_key <$> plugin_outputs s); [assumption |].
  symmetry. apply overwrite_keys. intros _.
  apply apply_patch_fixed in Hp. unfold natural_key.
  change (target_id obj', plugin_group obj', plugin_type obj', plugin_code obj')
    with (target_id (fixed_part obj'), plugin_group (fixed_part obj'),
          plugin_type (fixed_part obj'), plugin_code (fixed_part obj')).
  now rewrite Hp.
Qed.

(** X11: a patch with notes and no rank leaves both ranks alone. The record
    found gets the notes, the first element when they come as a list, and
    keeps its [user_rank] and its [owtf_rank]: the computed rank is
    cleared only by a patch that sets a user rank. *)
Theorem update_notes_keeps_ranks g ty c patch_data t s obj v :
  found_by_update g ty c t (plugin_outputs s) = Ok (Some obj) ->
  table_ok (plugin_outputs s) ->
  storage_ok s = true ->
  truthy (patch_data !! "user_rank") = false ->
  patch_data !! "user_notes" = Some v ->
  truthy (Some v) = true ->
  exists s',
    update_poutput g ty c patch_data t s = (Ok tt, s')
    /\ rows_of_key (natural_key obj) (plugin_outputs s') = [with_notes obj (patch_value v)].
Proof.
  intros Hfound Htbl Hok Hrank Hv Ht.
  assert (Hp : apply_patch patch_data obj = Some (with_notes obj (patch_value v))).
  { unfold apply_patch. rewrite Hrank, Hv, Ht. reflexivity. }
  rewrite found_by_update_head in Hfound. injection Hfound as Hh.
  rewrite update_poutput_cases, Hh, Hp. cbv zeta. rewrite Hok.
  eexists. split; [reflexivity |].
  cbn [plugin_outputs stored add_event set_committed set_outputs].
  assert (Hin : obj ∈ plugin_outputs s).
  { apply head_Some_elem_of in Hh. rewrite sort_rows_perm in Hh.
    now apply list_elem_of_filter in Hh. }
  pose proof (find_row_overwrite (fun _ => with_notes obj (patch_value v)) (natural_key obj)
                (plugin_outputs s) (fun _ => eq_refl) Htbl) as H.
  destruct (find_row _ _).
  - tauto.
  - destruct H as [_ H]. rewrite (rows_of_key_unique _ _ Htbl Hin) in H. discriminate.
Qed.

(** ** Saving and the lookups *)

Lemma positive_length_existsb {A} (P : A -> Prop) `{!forall x, Decision (P x)}
    (f : A -> bool) (l : list A) :
  (forall x, f x = true <-> P x) ->
  (0 <? Z.of_nat (length (filter P l)))%Z = existsb f l.
Proof.
  intros Hf. induction l as [| x l IH]; [reflexivity |].
  rewrite filter_cons. cbn [existsb]. destruct (decide (P x)) as [HP | HP].
  - rewrite (proj2 (Hf x) HP). cbn [length]. cbn. destruct (Z.ltb_spec 0 (Z.of_nat (S (length (filter P l))))); [reflexivity | lia].
  - rewrite IH. destruct (f x) eqn:E; [apply Hf in E; contradiction | reflexivity].
Qed.

(** [plugin_already_run] tells whether a row of the plugin's natural key is
    in the table. *)
Lemma plugin_already_run_existsb plugin t s :
  plugin_already_run plugin t s
  = existsb (fun r => key_eqb (natural_key r) (plugin_natural_key plugin t)) (plugin_outputs s).
Proof.
  unfold plugin_already_run, selected. cbn [q_ordered add_criterion query_target].
  apply positive_length_existsb. intros r.
  rewrite key_eqb_eq. unfold matches. cbn.
  rewrite !andb_true_iff, Z.eqb_eq, !String.eqb_eq. unfold natural_key, plugin_natural_key.
  split; [intros [= -> -> -> ->]; auto | intros (-> & -> & -> & -> & _); reflexivity].
Qed.

Lemma plugin_already_run_iff plugin t s :
  plugin_already_run plugin t s = true
  <-> exists r, r ∈ plugin_outputs s /\ natural_key r = plugin_natural_key plugin t.
Proof.
  rewrite plugin_already_run_existsb, existsb_exists. split.
  - intros (r & Hin & Hk). exists r. split; [now apply list_elem_of_In | now apply key_eqb_eq].
  - intros (r & Hin & Hk). exists r. split; [now apply list_elem_of_In | now apply key_eqb_eq].
Qed.

Lemma plugin_output_exists_iff key t s :
  plugin_output_exists key t s = true
  <-> exists r, r ∈ plugin_outputs s /\ target_id r = t /\ plugin_key r = key.
Proof.
  unfold plugin_output_exists, get_count, selected.
  cbn [q_ordered add_criterion query_target].
  rewrite (positive_length_existsb _ (fun r => (target_id r =? t)%Z && String.eqb (plugin_key r) key)).
  - rewrite existsb_exists. split.
    + intros (r & Hin & (Ht%Z.eqb_eq & Hk%String.eqb_eq)%andb_true_iff).
      exists r. split; [now apply list_elem_of_In | auto].
    + intros (r & Hin & Ht & Hk). exists r. split; [now apply list_elem_of_In |].
      apply andb_true_iff. now rewrite Z.eqb_eq, String.eqb_eq.
  - intros r. unfold matches. cbn. now rewrite andb_true_r.
Qed.

Lemma length_merged_rows f rows :
  length (merged_rows f rows)
  = length rows
    + (if existsb (fun r => key_eqb (natural_key r) (natural_key (f default_row))) rows
       then 0 else 1).
Proof.
  unfold merged_rows. destruct (existsb _ rows).
  - rewrite length_map. lia.
  - rewrite length_app. reflexivity.
Qed.

Lemma find_row_of_key rows r :
  table_ok rows -> r ∈ rows -> find_row (natural_key r) rows = Some r.
Proof.
  intros Htbl Hin.
  pose proof (find_row_overwrite (fun _ => r) (natural_key r) rows (fun _ => eq_refl) Htbl) as H.
  pose proof (rows_of_key_unique _ _ Htbl Hin) as Hu.
  destruct (find_row _ _) as [r0 |]; [| destruct H as [_ H]; congruence].
  destruct H as (_ & _ & Hin0 & Hk0).
  pose proof (rows_of_key_unique _ _ Htbl Hin0) as Hu0. rewrite Hk0, Hu in Hu0. congruence.
Qed.

Section MoreSaveProps.
Context {Output : Type}.
Variable json_dumps : Output -> string.

Local Abbreviation full' := (full_attrs json_dumps).
Local Abbreviation partial' := (partial_attrs json_dumps).

Lemma save_partial_output_refused plugin output message t s :
  storage_ok s = false ->
  save_partial_output json_dumps plugin output message t s
  = (Raise SQLAlchemyError, add_event (set_outputs s (committed_outputs s)) EvRollback).
Proof.
  intros Hok. unfold save_partial_output, bind, gets, path_exists, gets, merge,
    except_sqlalchemy, commit, rollback, raise. cbn. rewrite Hok. reflexivity.
Qed.

(** X12: a save the store refuses is rolled back. Both [save_plugin_output]
    and [save_partial_output] re-raise the error of the store after the
    session is back at the committed table: the merged row is gone, the
    committed table and the files are as before. *)
Theorem refused_save_is_rolled_back plugin output message t s :
  storage_ok s = false ->
  exists s',
    save_plugin_output json_dumps plugin output t s = (Raise SQLAlchemyError, s')
    /\ save_partial_output json_dumps plugin output message t s = (Raise SQLAlchemyError, s')
    /\ plugin_outputs s' = committed_outputs s
    /\ committed_outputs s' = committed_outputs s
    /\ fs s' = fs s
    /\ trail s' = (trail s ++ [EvRollback])%list.
Proof.
  intros Hok. eexists. split; [now apply save_plugin_output_refused |].
  split; [now apply save_partial_output_refused |]. cbn. auto.
Qed.

(** X13: saving a plugin that already has a record keeps the review. The
    record's [user_rank] and [user_notes] stay as they were and its
    [owtf_rank] becomes the plugin's. [save_plugin_output] leaves an error
    recorded earlier in place; [save_partial_output] replaces it by its
    message. *)
Theorem save_again_keeps_review_and_error plugin output message t s r :
  r ∈ plugin_outputs s ->
  natural_key r = plugin_natural_key plugin t ->
  table_ok (plugin_outputs s) ->
  storage_ok s = true ->
  (exists s' r',
      save_plugin_output json_dumps plugin output t s = (Ok tt, s')
      /\ rows_of_key (plugin_natural_key plugin t) (plugin_outputs s') = [r']
      /\ user_rank r' = user_rank r /\ user_notes r' = user_notes r
      /\ error r' = error r
      /\ owtf_rank r' = p_owtf_rank plugin)
  /\ (exists s' r',
      save_partial_output json_dumps plugin output message t s = (Ok tt, s')
      /\ rows_of_key (plugin_natural_key plugin t) (plugin_outputs s') = [r']
      /\ user_rank r' = user_rank r /\ user_notes r' = user_notes r
      /\ error r' = Some message
      /\ owtf_rank r' = p_owtf_rank plugin).
Proof.
  intros Hin Hk Htbl Hok. pose proof (find_row_of_key _ _ Htbl Hin) as Hfind.
  rewrite Hk in Hfind. split.
  - set (f := full' plugin output t (plugin_dir_exists plugin s)).
    destruct (merged_rows_spec f (plugin_natural_key plugin t) _ (fun _ => eq_refl) Htbl)
      as (_ & Hrow & _).
    rewrite Hfind in Hrow. eexists _, _.
    split; [now apply save_plugin_output_run |]. split; [exact Hrow |]. cbn. auto.
  - set (f := partial' plugin output message t (plugin_dir_exists plugin s)).
    destruct (merged_rows_spec f (plugin_natural_key plugin t) _ (fun _ => eq_refl) Htbl)
      as (_ & Hrow & _).
    rewrite Hfind in Hrow. eexists _, _.
    split; [now apply save_partial_output_run |]. split; [exact Hrow |]. cbn. auto.
Qed.

(** X14: [save_plugin_output] adds one row when the plugin had not run for
    the target and none when it had. The rows of every other identity are
    left alone, [plugin_already_run] answers true afterwards, and a record
    that is new has no user rank, no notes and no error. *)
Theorem save_adds_at_most_one_row plugin output t s :
  table_ok (plugin_outputs s) ->
  storage_ok s = true ->
  exists s',
    save_plugin_output json_dumps plugin output t s = (Ok tt, s')
    /\ length (plugin_outputs s')
       = length (plugin_outputs s) + (if plugin_already_run plugin t s then 0 else 1)
    /\ (forall k, k <> plugin_natural_key plugin t ->
          rows_of_key k (plugin_outputs s') = rows_of_key k (plugin_outputs s))
    /\ plugin_already_run plugin t s' = true
    /\ (plugin_already_run plugin t s = false ->
        exists r', rows_of_key (plugin_natural_key plugin t) (plugin_outputs s') = [r']
                   /\ user_rank r' = (-1)%Z /\ user_notes r' = None /\ error r' = None).
Proof.
  intros Htbl Hok.
  set (f := full' plugin output t (plugin_dir_exists plugin s)).
  destruct (merged_rows_spec f (plugin_natural_key plugin t) _ (fun _ => eq_refl) Htbl)
    as (_ & Hrow & Hother).
  eexists. split; [now apply save_plugin_output_run |].
  cbn [plugin_outputs stored add_event set_committed set_outputs].
  split; [| split; [exact Hother | split]].
  - rewrite length_merged_rows, plugin_already_run_existsb. reflexivity.
  - apply plugin_already_run_iff.
    exists (f (default default_row
                 (find_row (plugin_natural_key plugin t) (plugin_outputs s)))).
    split; [| reflexivity].
    cbn [plugin_outputs stored add_event set_committed set_outputs].
    assert (Hin : f (default default_row (find_row (plugin_natural_key plugin t) (plugin_outputs s)))
                  ∈ rows_of_key (plugin_natural_key plugin t)
                      (merged_rows f (plugin_outputs s)))
      by (rewrite Hrow; apply list_elem_of_here).
    now apply list_elem_of_filter in Hin.
  - intros Hrun. rewrite plugin_already_run_existsb in Hrun.
    pose proof (find_row_overwrite f (plugin_natural_key plugin t) _ (fun _ => eq_refl) Htbl) as H.
    destruct (find_row _ _) as [r0 |]; [destruct H as (H & _); congruence |].
    eexists. split; [exact Hrow |]. cbn. auto.
Qed.

(** X15: [plugin_output_exists] follows the table. After a save, whole or
    partial, it answers true for the plugin's key and the target; after
    [delete_all_poutput] with the empty filter it answers false for every
    key of that target. ([get_count] is the number of rows of its query.) *)
Theorem output_exists_follows_the_table plugin output message t s :
  storage_ok s = true ->
  (exists s', save_plugin_output json_dumps plugin output t s = (Ok tt, s')
              /\ plugin_output_exists (p_key plugin) t s' = true)
  /\ (exists s', save_partial_output json_dumps plugin output message t s = (Ok tt, s')
                 /\ plugin_output_exists (p_key plugin) t s' = true)
  /\ (exists s', delete_all_poutput ∅ t s = (Ok tt, s')
                 /\ forall key, plugin_output_exists key t s' = false).
Proof.
  intros Hok. split; [| split].
  - set (f := full' plugin output t (plugin_dir_exists plugin s)).
    destruct (merged_rows_key f (plugin_natural_key plugin t) (plugin_outputs s)
                (fun _ => eq_refl)) as (Hne & Hrows).
    eexists. split; [now apply save_plugin_output_run |].
    apply plugin_output_exists_iff.
    cbn [plugin_outputs stored add_event set_committed set_outputs].
    destruct (rows_of_key _ _) as [| r' rest] eqn:E; [congruence |].
    destruct (Hrows r' (list_elem_of_here _ _)) as (x & ->).
    assert (Hin : f x ∈ rows_of_key (plugin_natural_key plugin t)
                           (merged_rows f (plugin_outputs s)))
      by (rewrite E; left).
    exists (f x). apply list_elem_of_filter in Hin as [_ Hin]. auto.
  - set (f := partial' plugin output message t (plugin_dir_exists plugin s)).
    destruct (merged_rows_key f (plugin_natural_key plugin t) (plugin_outputs s)
                (fun _ => eq_refl)) as (Hne & Hrows).
    eexists. split; [now apply save_partial_output_run |].
    apply plugin_output_exists_iff.
    cbn [plugin_outputs stored add_event set_committed set_outputs].
    destruct (rows_of_key _ _) as [| r' rest] eqn:E; [congruence |].
    destruct (Hrows r' (list_elem_of_here _ _)) as (x & ->).
    assert (Hin : f x ∈ rows_of_key (plugin_natural_key plugin t)
                           (merged_rows f (plugin_outputs s)))
      by (rewrite E; left).
    exists (f x). apply list_elem_of_filter in Hin as [_ Hin]. auto.
  - destruct (delete_all_poutput_run ∅ t s) as (paths & dirs & Hrun & _);
      rewrite ?lookup_empty; try reflexivity.
    cbv zeta in Hrun. rewrite Hok in Hrun. eexists. split; [exact Hrun |].
    intros key. apply not_true_iff_false. rewrite plugin_output_exists_iff.
    cbn [plugin_outputs add_event set_committed set_outputs before_commit after_removals].
    intros (r & Hin & Ht & _). apply list_elem_of_filter in Hin as [Hn _]. apply Hn.
    unfold wanted, satisfies. rewrite !lookup_empty. cbn. split; [assumption | reflexivity].
Qed.
End MoreSaveProps.

(** X16: after [delete_all_poutput] with the empty filter no plugin has run
    for the target: [plugin_already_run] answers false for every plugin,
    and for every other target it answers what it answered before. *)
Theorem nothing_has_run_after_delete t s :
  storage_ok s = true ->
  exists s',
    delete_all_poutput ∅ t s = (Ok tt, s')
    /\ (forall plugin, plugin_already_run plugin t s' = false)
    /\ (forall plugin t', t' <> t ->
          plugin_already_run plugin t' s' = plugin_already_run plugin t' s).
Proof.
  intros Hok.
  destruct (delete_all_poutput_run ∅ t s) as (paths & dirs & Hrun & _);
    rewrite ?lookup_empty; try reflexivity.
  cbv zeta in Hrun. rewrite Hok in Hrun. eexists. split; [exact Hrun |].
  assert (Hrest : forall r,
    r ∈ filter (fun r => ~ wanted ∅ t r) (plugin_outputs s)
    <-> r ∈ plugin_outputs s /\ target_id r <> t).
  { intros r. rewrite list_elem_of_filter. unfold wanted, satisfies.
    rewrite !lookup_empty. cbn. intuition. }
  split.
  - intros plugin. apply not_true_iff_false. rewrite plugin_already_run_iff.
    cbn [plugin_outputs add_event set_committed set_outputs before_commit after_removals].
    intros (r & Hin%Hrest & Hk). destruct Hin as [_ Hne]. apply Hne.
    unfold natural_key, plugin_natural_key in Hk. congruence.
  - intros plugin t' Hne.
    apply eq_true_iff_eq. rewrite !plugin_already_run_iff.
    cbn [plugin_outputs add_event set_committed set_outputs before_commit after_removals].
    split; intros (r & Hin & Hk); exists r; (split; [| assumption]).
    + now apply Hrest in Hin.
    + apply Hrest. split; [assumption |].
      unfold natural_key, plugin_natural_key in Hk. congruence.
Qed.

(** X17: [plugin_already_run] and [update_poutput] agree on what is there.
    For a plugin whose group, type and code are not empty,
    [plugin_already_run] answers true exactly when the lookup of
    [update_poutput] finds a record to patch. *)
Theorem already_run_iff_update_finds_row plugin t s :
  p_group plugin <> "" -> p_type plugin <> "" -> p_code plugin <> "" ->
  plugin_already_run plugin t s = true
  <-> exists obj,
        found_by_update (p_group plugin) (p_type plugin) (p_code plugin) t (plugin_outputs s)
        = Ok (Some obj).
Proof.
  intros Hg Hty Hc. rewrite plugin_already_run_iff, found_by_update_head. split.
  - intros (r & Hin & Hk).
    destruct (head _) as [obj |] eqn:Hh; [eauto |].
    exfalso. apply head_None in Hh. apply sort_rows_nil in Hh.
    apply (filter_nil_not_elem_of _ _ r Hh); [now apply wanted_plugin_dict | assumption].
  - intros (obj & [= Hh]). apply head_Some_elem_of in Hh. rewrite sort_rows_perm in Hh.
    apply list_elem_of_filter in Hh as [Hw Hin]. exists obj. split; [assumption |].
    now apply wanted_plugin_dict in Hw.
Qed.

(** ** The histogram as a count *)

(** X18: [get_severity_freq] looks at the rows of the session's targets and
    at nothing else. Two states with the same targets and the same rows of
    these targets, in the same order, give the same histogram or the same
    error, whatever rows of other targets they hold. *)
Theorem histogram_ignores_other_targets session_id s s' :
  targets s' = targets s ->
  filter (fun r => in_targets (session_targets session_id s) r = true) (plugin_outputs s')
  = filter (fun r => in_targets (session_targets session_id s) r = true) (plugin_outputs s) ->
  get_severity_freq session_id s' = get_severity_freq session_id s.
Proof.
  intros Ht Hrows. unfold get_severity_freq.
  assert (Hs : session_targets session_id s' = session_targets session_id s)
    by (unfold session_targets; now rewrite Ht).
  rewrite Hs, <- (count_rows_in_targets _ (plugin_outputs s')), Hrows,
    count_rows_in_targets. reflexivity.
Qed.

(** X19: for a session none of whose targets has a row, an unknown session
    or one without targets included, [get_severity_freq] returns the six
    buckets, Critical first, all at zero; ranks out of range in the rows of
    other targets do not make it fail. *)
Theorem histogram_of_session_without_rows session_id s :
  (forall r, r ∈ plugin_outputs s -> in_targets (session_targets session_id s) r = false) ->
  get_severity_freq session_id s = Ok {| data := rev severity_frequency |}.
Proof.
  intros Hno. unfold get_severity_freq.
  rewrite <- count_rows_in_targets, filter_none; [reflexivity |].
  intros r Hr. rewrite (Hno r Hr). discriminate.
Qed.

Lemma total_value_alter n : forall bs,
  n < length bs -> total_value (alter bump n bs) = (total_value bs + 1)%Z.
Proof.
  induction n as [| n IH]; intros [| b bs] Hn; cbn in Hn; try lia.
  - cbn. lia.
  - cbn [alter list_alter total_value foldr]. fold (total_value bs).
    change (foldr (fun b acc => (value b + acc)%Z) 0%Z (alter bump n bs))
      with (total_value (alter bump n bs)).
    rewrite IH by lia. lia.
Qed.

Lemma total_value_app a b : total_value (a ++ b) = (total_value a + total_value b)%Z.
Proof.
  induction a as [| x a IH]; [reflexivity |].
  cbn [app]. unfold total_value in *. cbn [foldr]. rewrite IH. lia.
Qed.

Lemma total_value_rev bs : total_value (rev bs) = total_value bs.
Proof.
  induction bs as [| b bs IH]; [reflexivity |].
  cbn [rev]. rewrite total_value_app, IH. unfold total_value. cbn. lia.
Qed.

Lemma count_rows_total targets rows : forall freq freq',
  count_rows targets freq rows = Ok freq' ->
  total_value freq'
  = (total_value freq
     + Z.of_nat (length (filter (fun r => is_Some (counted_at targets r)) rows)))%Z.
Proof.
  induction rows as [| r rows IH]; intros freq freq'.
  - intros [= <-]. cbn. lia.
  - cbn [count_rows]. rewrite count_row_counted_at, filter_cons.
    destruct (counted_at targets r) as [i |].
    + rewrite decide_True by eauto.
      unfold increment. destruct (py_index (length freq) i) as [n |] eqn:Hn; [| discriminate].
      intros H%IH. rewrite H, total_value_alter by (eapply py_index_lt; eassumption).
      cbn [length]. lia.
    + rewrite decide_False by (intros [? ?]; discriminate).
      apply IH.
Qed.

(** X20: the histogram [get_severity_freq] returns has six buckets whose
    values add up to the number of rows of the session's targets that have
    a rank: each such row is counted once, a row with neither rank is not
    counted. *)
Theorem histogram_total session_id s env :
  get_severity_freq session_id s = Ok env ->
  total_value (data env)
  = Z.of_nat (length (filter (fun r => is_Some (counted_at (session_targets session_id s) r))
                             (plugin_outputs s)))
  /\ length (data env) = 6.
Proof.
  unfold get_severity_freq.
  destruct (count_rows _ _ _) as [freq |] eqn:Hc; [| discriminate].
  intros [= <-]. cbn [data]. split.
  - rewrite total_value_rev, (count_rows_total _ _ _ _ Hc). reflexivity.
  - rewrite length_rev. now rewrite (count_rows_length _ _ _ _ Hc).
Qed.

(** ** The HTML of an output *)

Lemma append_assoc' (a b c : string) : (a ++ b) ++ c = a ++ (b ++ c).
Proof.
  induction a as [| x a IH]; [reflexivity |].
  change (String x ((a ++ b) ++ c) = String x (a ++ (b ++ c))). now f_equal.
Qed.

Lemma append_nil_r (a : string) : a ++ "" = a.
Proof.
  induction a as [| x a IH]; [reflexivity |].
  change (String x (a ++ "") = String x a). now f_equal.
Qed.

Section ReporterProps.
Context {Args : Type}.
Variable reporter : string -> Args -> option string.

Lemma html_loop_content content (items : list (Item Args)) :
  html_loop reporter content items
  = (fun html => content ++ html) <$> html_loop reporter "" items.
Proof.
  revert content. induction items as [| item items IH]; intros content.
  - cbn. now rewrite append_nil_r.
  - cbn [html_loop]. destruct (reporter _ _) as [piece |]; [| reflexivity].
    rewrite (IH (content ++ piece)), (IH ("" ++ piece)).
    destruct (html_loop reporter "" items) as [html |]; [| reflexivity].
    cbn [fmap option_fmap option_map]. f_equal.
    change ("" ++ piece) with piece. apply append_assoc'.
Qed.

Lemma html_loop_app content (a b : list (Item Args)) :
  html_loop reporter content (a ++ b)
  = match html_loop reporter content a with
    | Some x => html_loop reporter x b
    | None => None
    end.
Proof.
  revert content. induction a as [| item a IH]; intros content; [reflexivity |].
  cbn [app html_loop]. destruct (reporter _ _); [apply IH | reflexivity].
Qed.

(** X21: [get_html_output] renders item by item, in order: the HTML of two
    lists of items one after the other is the HTML of the first followed
    by the HTML of the second, and it fails when either fails. Of no item
    it is the empty string. *)
Theorem html_output_of_concatenation (a b : list (Item Args)) :
  get_html_output reporter (a ++ b)
  = match get_html_output reporter a, get_html_output reporter b with
    | Some x, Some y => Some (x ++ y)
    | _, _ => None
    end
  /\ get_html_output reporter [] = Some "".
Proof.
  split; [| reflexivity].
  unfold get_html_output. rewrite html_loop_app.
  destruct (html_loop reporter "" a) as [x |]; [| reflexivity].
  rewrite html_loop_content. destruct (html_loop reporter "" b); reflexivity.
Qed.
End ReporterProps.

(** ** The values offered for filtering *)

Lemma distinct_values_elem {A} `{EqDecision A} (column : PluginOutput -> A) t rows v :
  v ∈ distinct_values column t rows
  <-> exists r, r ∈ rows /\ target_id r = t /\ column r = v.
Proof.
  unfold distinct_values, selected. cbn [q_ordered query_target].
  rewrite elem_of_remove_dups, list_elem_of_fmap. split.
  - intros (r & -> & Hr). apply list_elem_of_filter in Hr as [Hm Hr].
    rewrite matches_query_target in Hm. apply Z.eqb_eq in Hm. eauto.
  - intros (r & Hr & Ht & <-). exists r. split; [reflexivity |].
    apply list_elem_of_filter. rewrite matches_query_target. split; [now apply Z.eqb_eq | assumption].
Qed.

Lemma str_filter_satisfies name (v : string) :
  v <> "" ->
  name = "plugin_type" \/ name = "plugin_group" \/ name = "status" ->
  let F : filter_dict := {[ name := PStr v ]} in
  int_field_ok (F !! "user_rank") = true /\ int_field_ok (F !! "owtf_rank") = true
  /\ page_bound (F !! "offset") = Some None /\ page_bound (F !! "limit") = Some None
  /\ forall r, satisfies F r
               = String.eqb (if String.eqb name "plugin_type" then plugin_type r
                             else if String.eqb name "plugin_group" then plugin_group r
                             else status r) v.
Proof.
  intros Hv Hname F. subst F.
  assert (Ht : truthy (Some (PStr v)) = true)
    by (cbn; destruct (String.eqb_spec v ""); [contradiction | reflexivity]).
  destruct Hname as [-> | [-> | ->]]; unfold satisfies, str_predicate, int_predicate;
    rewrite lookup_singleton_eq, !lookup_singleton_ne by discriminate;
    rewrite Ht; cbn; repeat split; intros; rewrite ?andb_true_r; reflexivity.
Qed.

Lemma rank_filter_satisfies name (x : string) n :
  py_int x = Some n ->
  name = "user_rank" \/ name = "owtf_rank" ->
  let F : filter_dict := {[ name := PStr x ]} in
  int_field_ok (F !! "user_rank") = true /\ int_field_ok (F !! "owtf_rank") = true
  /\ page_bound (F !! "offset") = Some None /\ page_bound (F !! "limit") = Some None
  /\ forall r, satisfies F r
               = Z.eqb (if String.eqb name "user_rank" then user_rank r else owtf_rank r) n.
Proof.
  intros Hx Hname F. subst F.
  assert (Ht : truthy (Some (PStr x)) = true).
  { cbn. destruct (String.eqb_spec x "");
      [subst; now rewrite py_int_empty in Hx | reflexivity]. }
  destruct Hname as [-> | ->]; unfold satisfies, str_predicate, int_predicate, int_field_ok;
    rewrite lookup_singleton_eq, !lookup_singleton_ne by discriminate;
    rewrite Ht; cbn; rewrite Hx; cbn; repeat split; intros; rewrite ?andb_true_r;
    try reflexivity; now apply bool_decide_eq_true.
Qed.

Section PickerProps.
Context {Args : Type}.
Variable json_loads : string -> option (list (Item Args)).
Variable reporter : string -> Args -> option string.
Variable strftime : Z -> string.
Variable get_time_as_str : Z -> string.

Local Abbreviation get_all3 := (get_all_poutputs json_loads reporter strftime get_time_as_str).

Lemma query_returns_some (F : filter_dict) t inc s r0 :
  int_field_ok (F !! "user_rank") = true ->
  int_field_ok (F !! "owtf_rank") = true ->
  page_bound (F !! "offset") = Some None ->
  page_bound (F !! "limit") = Some None ->
  (forall r, r ∈ plugin_outputs s -> wanted F t r -> renders json_loads reporter inc r) ->
  r0 ∈ plugin_outputs s -> wanted F t r0 ->
  returns_some (wanted F t) (get_all3 (Some F) t inc s).
Proof.
  intros Hu Ho Hoff Hlim Hr Hin Hw.
  destruct (get_all_poutputs_page json_loads reporter strftime get_time_as_str
              (Some F) t inc s None None) as (ds & Hrun & Hrows);
    try assumption; try reflexivity.
  cbn [apply_limit apply_offset default] in Hrows.
  exists ds, (set_active s t). split; [exact Hrun |]. split.
  - intros ->. symmetry in Hrows. apply sort_rows_nil in Hrows.
    apply (filter_nil_not_elem_of _ _ r0 Hrows); assumption.
  - intros d Hd.
    assert (Hd' : d_row d ∈ d_row <$> ds) by now apply list_elem_of_fmap_2.
    rewrite Hrows, sort_rows_perm in Hd'. now apply list_elem_of_filter in Hd'.
Qed.

(** X22: what [get_unique_dicts] offers can be asked for. A non-empty
    [plugin_type], [plugin_group] or [status] it lists, given to
    [get_all_poutputs] as the filter on that field, returns at least one
    row, and only rows of the target with that value; so does a
    [user_rank] or [owtf_rank] it lists, given as a string that reads as
    that integer. Without [inc_output] nothing is rendered; with it, this
    holds when the outputs of the rows of the target render. *)
Theorem unique_values_select_rows t inc s :
  (forall r, r ∈ plugin_outputs s -> target_id r = t ->
     renders json_loads reporter inc r) ->
  let u := get_unique_dicts t s in
  (forall v, v ∈ u_plugin_type u -> v <> "" ->
     returns_some (fun r => target_id r = t /\ plugin_type r = v)
       (get_all3 (Some {[ "plugin_type" := PStr v ]}) t inc s))
  /\ (forall v, v ∈ u_plugin_group u -> v <> "" ->
     returns_some (fun r => target_id r = t /\ plugin_group r = v)
       (get_all3 (Some {[ "plugin_group" := PStr v ]}) t inc s))
  /\ (forall v, v ∈ u_status u -> v <> "" ->
     returns_some (fun r => target_id r = t /\ status r = v)
       (get_all3 (Some {[ "status" := PStr v ]}) t inc s))
  /\ (forall n x, n ∈ u_user_rank u -> py_int x = Some n ->
     returns_some (fun r => target_id r = t /\ user_rank r = n)
       (get_all3 (Some {[ "user_rank" := PStr x ]}) t inc s))
  /\ (forall n x, n ∈ u_owtf_rank u -> py_int x = Some n ->
     returns_some (fun r => target_id r = t /\ owtf_rank r = n)
       (get_all3 (Some {[ "owtf_rank" := PStr x ]}) t inc s)).
Proof.
  assert (Hweaken : forall (P Q : PluginOutput -> Prop) out,
            (forall r, P r -> Q r) -> returns_some P out -> returns_some Q out).
  { intros P Q out HPQ (ds & s' & -> & Hne & Hall). exists ds, s'. eauto. }
  intros Hrend.
  assert (Hr : forall F : filter_dict,
            forall r, r ∈ plugin_outputs s -> wanted F t r ->
                      renders json_loads reporter inc r)
    by (intros F r Hin Hw; apply Hrend; [assumption | exact (proj1 Hw)]).
  cbv zeta. cbn [get_unique_dicts u_plugin_type u_plugin_group u_status u_user_rank u_owtf_rank].
  repeat split.
  - intros v (r0 & Hin & Ht & Hv)%distinct_values_elem Hne.
    destruct (str_filter_satisfies "plugin_type" v Hne) as (Hu & Ho & Hoff & Hlim & Hs); [auto |].
    cbn in Hs.
    eapply Hweaken; [| apply (query_returns_some _ t inc s r0 Hu Ho Hoff Hlim (Hr _) Hin)].
    + intros r [Hr1 Hr2]. rewrite Hs in Hr2. apply String.eqb_eq in Hr2. auto.
    + split; [assumption |]. rewrite Hs. now apply String.eqb_eq.
  - intros v (r0 & Hin & Ht & Hv)%distinct_values_elem Hne.
    destruct (str_filter_satisfies "plugin_group" v Hne) as (Hu & Ho & Hoff & Hlim & Hs); [auto |].
    cbn in Hs.
    eapply Hweaken; [| apply (query_returns_some _ t inc s r0 Hu Ho Hoff Hlim (Hr _) Hin)].
    + intros r [Hr1 Hr2]. rewrite Hs in Hr2. apply String.eqb_eq in Hr2. auto.
    + split; [assumption |]. rewrite Hs. now apply String.eqb_eq.
  - intros v (r0 & Hin & Ht & Hv)%distinct_values_elem Hne.
    destruct (str_filter_satisfies "status" v Hne) as (Hu & Ho & Hoff & Hlim & Hs); [auto |].
    cbn in Hs.
    eapply Hweaken; [| apply (query_returns_some _ t inc s r0 Hu Ho Hoff Hlim (Hr _) Hin)].
    + intros r [Hr1 Hr2]. rewrite Hs in Hr2. apply String.eqb_eq in Hr2. auto.
    + split; [assumption |]. rewrite Hs. now apply String.eqb_eq.
  - intros n x (r0 & Hin & Ht & Hv)%distinct_values_elem Hx.
    destruct (rank_filter_satisfies "user_rank" x n Hx) as (Hu & Ho & Hoff & Hlim & Hs); [auto |].
    cbn in Hs.
    eapply Hweaken; [| apply (query_returns_some _ t inc s r0 Hu Ho Hoff Hlim (Hr _) Hin)].
    + intros r [Hr1 Hr2]. rewrite Hs in Hr2. apply Z.eqb_eq in Hr2. auto.
    + split; [assumption |]. rewrite Hs. now apply Z.eqb_eq.
  - intros n x (r0 & Hin & Ht & Hv)%distinct_values_elem Hx.
    destruct (rank_filter_satisfies "owtf_rank" x n Hx) as (Hu & Ho & Hoff & Hlim & Hs); [auto |].
    cbn in Hs.
    eapply Hweaken; [| apply (query_returns_some _ t inc s r0 Hu Ho Hoff Hlim (Hr _) Hin)].
    + intros r [Hr1 Hr2]. rewrite Hs in Hr2. apply Z.eqb_eq in Hr2. auto.
    + split; [assumption |]. rewrite Hs. now apply Z.eqb_eq.
Qed.
End PickerProps.

(** ** Dictionaries of a list of objects *)

Section DictProps.
Context {Args : Type}.
Variable json_loads : string -> option (list (Item Args)).
Variable reporter : string -> Args -> option string.
Variable strftime : Z -> string.
Variable get_time_as_str : Z -> string.

Local Abbreviation all_dicts4 := (dicts_of json_loads reporter strftime get_time_as_str).
Local Abbreviation dicts4 := (get_plugin_output_dicts json_loads reporter strftime get_time_as_str).

Lemma dicts_loop_zero rows inc s :
  dicts_loop json_loads reporter strftime get_time_as_str rows 0 inc s
  = (all_dicts4 inc rows, s).
Proof.
  induction rows as [| r rows IH]; [reflexivity |].
  cbn. unfold bind, get_plugin_output_dict, bind, lift. cbn.
  destruct (dict_of _ _ _ _ inc r); [| reflexivity].
  rewrite IH. destruct (all_dicts4 inc rows); reflexivity.
Qed.

(** X23: when [get_plugin_output_dicts] returns, it returns one dictionary
    per object, in the order of the objects, and the dictionaries carry an
    [output] exactly when [inc_output] is set. It returns when the output of
    every object renders, which is so without [inc_output]; it raises only
    with [inc_output], when some output does not render. A target id of 0
    leaves the active target alone, any other becomes the active target. *)
Theorem output_dicts_follow_the_rows (obj_list : list PluginOutput) t inc s :
  exists r,
    dicts4 obj_list t inc s = (r, if (t =? 0)%Z then s else set_active s t)
    /\ match r with
       | Ok ds =>
           d_row <$> ds = obj_list
           /\ Forall (fun d => d_output d = None <-> inc = false) ds
       | Raise e =>
           inc = true
           /\ ~ (forall obj, obj ∈ obj_list -> renders json_loads reporter inc obj)
       end
    /\ ((forall obj, obj ∈ obj_list -> renders json_loads reporter inc obj) ->
        exists ds, r = Ok ds).
Proof.
  exists (all_dicts4 inc obj_list).
  assert (Hret : (forall obj, obj ∈ obj_list -> renders json_loads reporter inc obj) ->
                 exists ds, all_dicts4 inc obj_list = Ok ds)
    by apply dicts_of_renders.
  split; [| split; [| exact Hret]].
  - unfold get_plugin_output_dicts, bind.
    destruct (Z.eqb_spec t 0) as [-> | Hne].
    + cbn. apply dicts_loop_zero.
    + cbn. unfold set_target. apply dicts_loop_run. reflexivity.
  - destruct (all_dicts4 inc obj_list) as [ds | e] eqn:Hds.
    + split; [eapply rows_of_dicts | eapply outputs_of_dicts]; eassumption.
    + assert (Hno : ~ (forall obj, obj ∈ obj_list -> renders json_loads reporter inc obj))
        by (intros Hall; destruct (Hret Hall); discriminate).
      split; [| exact Hno].
      destruct inc; [reflexivity |]. exfalso. apply Hno. intros obj _ [=].
Qed.
End DictProps.

(** ** The URL helper *)

Lemma starts_with_iff p s : starts_with p s = true <-> exists r, s = p ++ r.
Proof.
  revert s. induction p as [| a p IH]; intros s.
  - split; [intros _; exists s; reflexivity | reflexivity].
  - destruct s as [| b s]; cbn [starts_with].
    + split; [discriminate | intros (r & Hr); discriminate].
    + rewrite andb_true_iff, Ascii.eqb_eq, IH. split.
      * intros (-> & r & ->). exists r. reflexivity.
      * intros (r & Hr). change (String b s = String a (p ++ r)) in Hr.
        injection Hr as -> ->. eauto.
Qed.

Lemma before_none_prefix url : exists rest, url = before_none url ++ rest.
Proof.
  induction url as [| c url (rest & IH)]; [exists ""; reflexivity |].
  cbn [before_none]. destruct (starts_with "None" (String c url)).
  - eexists. reflexivity.
  - exists rest. change (String c url = String c (before_none url ++ rest)). now f_equal.
Qed.

Lemma starts_with_prefix p a b : starts_with p a = true -> starts_with p (a ++ b) = true.
Proof.
  rewrite !starts_with_iff. intros (r & ->). exists (r ++ b).
  revert r. induction p as [| x p IH]; intros r; [reflexivity |].
  change (String x ((p ++ r) ++ b) = String x (p ++ (r ++ b))). f_equal. apply IH.
Qed.

Lemma before_none_clean url : ~ occurs "None" (before_none url).
Proof.
  induction url as [| c url IH]; intros (a & b & H).
  - destruct a; discriminate.
  - cbn [before_none] in H. destruct (starts_with "None" (String c url)) eqn:E.
    + destruct a; discriminate.
    + destruct a as [| x a].
      * assert (Hs : starts_with "None" (String c (before_none url)) = true)
          by (apply starts_with_iff; exists b; exact H).
        destruct (before_none_prefix url) as (rest & Hrest).
        rewrite Hrest in E.
        change (String c (before_none url ++ rest))
          with (String c (before_none url) ++ rest) in E.
        rewrite (starts_with_prefix _ _ _ Hs) in E. discriminate.
      * change (String c (before_none url) = String x (a ++ "None" ++ b)) in H.
        injection H as _ H. apply IH. exists a, b. exact H.
Qed.

Lemma drop_question_marks_clean url : ~ occurs "?" (drop_question_marks url).
Proof.
  induction url as [| c url IH]; intros (a & b & H).
  - destruct a; discriminate.
  - cbn [drop_question_marks] in H. destruct (Ascii.eqb_spec c "?"%char) as [-> | Hc].
    + apply IH. exists a, b. exact H.
    + destruct a as [| x a].
      * change (String c (drop_question_marks url) = String "?" b) in H. congruence.
      * change (String c (drop_question_marks url) = String x (a ++ "?" ++ b)) in H.
        injection H as _ H. apply IH. exists a, b. exact H.
Qed.

Lemma occurs_prefix sub a rest : occurs sub a -> occurs sub (a ++ rest).
Proof.
  intros (x & y & ->). exists x, (y ++ rest).
  now rewrite !append_assoc'.
Qed.

Lemma drop_question_marks_id url : ~ occurs "?" url -> drop_question_marks url = url.
Proof.
  induction url as [| c url IH]; intros Hno; [reflexivity |].
  cbn [drop_question_marks]. destruct (Ascii.eqb_spec c "?"%char) as [-> | Hc].
  - exfalso. apply Hno. exists "", url. reflexivity.
  - f_equal. apply IH. intros (a & b & ->). apply Hno.
    exists (String c a), b. reflexivity.
Qed.

Lemma before_none_id url : ~ occurs "None" url -> before_none url = url.
Proof.
  induction url as [| c url IH]; intros Hno; [reflexivity |].
  cbn [before_none]. destruct (starts_with "None" (String c url)) eqn:E.
  - exfalso. apply Hno. apply starts_with_iff in E as (r & ->). exists "", r. reflexivity.
  - f_equal. apply IH. intros (a & b & ->). apply Hno.
    exists (String c a), b. reflexivity.
Qed.

(** X24: the URL [reverse_url] returns holds no question mark and no
    [None]; it is the start of the routed URL without its question marks;
    and reversing it once more changes nothing. *)
Theorem reverse_url_is_clean url :
  ~ occurs "?" (reverse_url url)
  /\ ~ occurs "None" (reverse_url url)
  /\ (exists rest, drop_question_marks url = reverse_url url ++ rest)
  /\ reverse_url (reverse_url url) = reverse_url url.
Proof.
  unfold reverse_url.
  destruct (before_none_prefix (drop_question_marks url)) as (rest & Hrest).
  assert (Hq : ~ occurs "?" (before_none (drop_question_marks url))).
  { intros Hocc. apply (drop_question_marks_clean url).
    rewrite Hrest. now apply occurs_prefix. }
  split; [assumption |]. split; [apply before_none_clean |]. split; [eauto |].
  rewrite (drop_question_marks_id _ Hq). apply before_none_id, before_none_clean.
Qed.

(** X25: a routed URL without a question mark and without [None] comes back
    from [reverse_url] as it is. *)
Theorem reverse_url_keeps_clean_urls url :
  ~ occurs "?" url -> ~ occurs "None" url -> reverse_url url = url.
Proof.
  intros Hq Hn. unfold reverse_url.
  now rewrite (drop_question_marks_id url Hq), (before_none_id url Hn).
Qed.

(** A URL [drop_question_marks] leaves alone holds no question mark. *)
Lemma drop_question_marks_fixed url : drop_question_marks url = url -> ~ occurs "?" url.
Proof. intros <-. apply drop_question_marks_clean. Qed.

(** A URL [before_none] leaves alone holds no [None]. *)
Lemma before_none_fixed url : before_none url = url -> ~ occurs "None" url.
Proof. intros <-. apply before_none_clean. Qed.

(** ** Saving and reading back *)

Section RoundTrip.
Context {Output Args : Type}.
Variable json_dumps : Output -> string.
Variable json_loads : string -> option (list (Item Args)).
Variable reporter : string -> Args -> option string.
Variable strftime : Z -> string.
Variable get_time_as_str : Z -> string.

Local Abbreviation get_all5 := (get_all_poutputs json_loads reporter strftime get_time_as_str).

(** X26: what is saved is read back. After [save_plugin_output] for a plugin
    whose group, type and code are not empty, the table has one record of
    the plugin, with the key and status saved and the JSON text of the
    output, and [get_all_poutputs] with the three identifiers as the filter
    returns the dictionary of that record and no other. Without
    [inc_output] the dictionary has no output. With it, when the stored text
    decodes to the items of an output and the reporter renders them, the
    dictionary carries that HTML and the times printed from the plugin's
    start and end; when the stored text does not render, the query raises. *)
Theorem saved_output_is_read_back plugin out t s :
  p_group plugin <> "" -> p_type plugin <> "" -> p_code plugin <> "" ->
  table_ok (plugin_outputs s) ->
  storage_ok s = true ->
  json_dumps out <> "" ->
  let asked := Some (plugin_dict (p_group plugin) (p_type plugin) (p_code plugin)) in
  exists s' r,
    save_plugin_output json_dumps plugin out t s = (Ok tt, s')
    /\ rows_of_key (plugin_natural_key plugin t) (plugin_outputs s') = [r]
    /\ plugin_key r = p_key plugin
    /\ status r = p_status plugin
    /\ output r = Some (json_dumps out)
    /\ (exists d, get_all5 asked t false s' = (Ok [d], set_active s' t)
                  /\ d_row d = r /\ d_output d = None)
    /\ (forall plugin_output html,
          json_loads (json_dumps out) = Some plugin_output ->
          get_html_output reporter plugin_output = Some html ->
          exists d, get_all5 asked t true s' = (Ok [d], set_active s' t)
                    /\ d_row d = r
                    /\ d_output d = Some (Some html)
                    /\ d_start_time d = strftime (p_start plugin)
                    /\ d_end_time d = strftime (p_end plugin)
                    /\ d_run_time d = get_time_as_str (p_end plugin - p_start plugin))
    /\ (html_of_json json_loads reporter (json_dumps out) = None ->
        get_all5 asked t true s' = (Raise RenderingError, set_active s' t)).
Proof.
  intros Hg Hty Hc Htbl Hok Hne asked. subst asked.
  set (f := full_attrs json_dumps plugin out t (plugin_dir_exists plugin s)).
  destruct (merged_rows_spec f (plugin_natural_key plugin t) _ (fun _ => eq_refl) Htbl)
    as (_ & Hrow & _).
  set (r' := f (default default_row
                  (find_row (plugin_natural_key plugin t) (plugin_outputs s)))) in *.
  assert (Hget : forall inc,
    get_all5 (Some (plugin_dict (p_group plugin) (p_type plugin) (p_code plugin))) t inc
      (stored s (merged_rows f (plugin_outputs s)))
    = (dicts_of json_loads reporter strftime get_time_as_str inc [r'],
       set_active (stored s (merged_rows f (plugin_outputs s))) t)).
  { intros inc.
    destruct (plugin_dict_lookups (p_group plugin) (p_type plugin) (p_code plugin))
      as (_ & _ & _ & _ & _ & Hu & Ho & Hoff & Hlim).
    rewrite (get_all_poutputs_paged _ _ _ _ _ t inc _ None None);
      cbn [default]; unfold Datatypes.id; rewrite ?Hu, ?Ho, ?Hoff, ?Hlim; try reflexivity.
    cbn [plugin_outputs stored add_event set_committed set_outputs apply_limit apply_offset].
    assert (Hsel : filter (wanted (plugin_dict (p_group plugin) (p_type plugin) (p_code plugin)) t)
                          (merged_rows f (plugin_outputs s))
                   = rows_of_key (plugin_natural_key plugin t)
                       (merged_rows f (plugin_outputs s))).
    { unfold rows_of_key. apply list_filter_iff. intros r. now apply wanted_plugin_dict. }
    rewrite Hsel, Hrow. reflexivity. }
  assert (Htruthy : truthy_str (output r') = true).
  { cbn. destruct (String.eqb_spec (json_dumps out) ""); [contradiction | reflexivity]. }
  exists (stored s (merged_rows f (plugin_outputs s))), r'.
  split; [now apply save_plugin_output_run |].
  split; [exact Hrow |]. split; [reflexivity |]. split; [reflexivity |].
  split; [reflexivity |]. split; [| split].
  - eexists. rewrite Hget. cbn. split; [reflexivity |]. split; reflexivity.
  - intros plugin_output html Hl Hh. eexists. rewrite Hget.
    cbn [dicts_of]. unfold dict_of. rewrite Htruthy.
    cbn [output r' f full_attrs mbind option_bind]. unfold html_of_json. rewrite Hl, Hh.
    split; [reflexivity |]. cbn. auto.
  - intros Hno. rewrite Hget. cbn [dicts_of]. unfold dict_of. rewrite Htruthy.
    cbn [output r' f full_attrs mbind option_bind]. rewrite Hno. reflexivity.
Qed.
End RoundTrip.

End Properties.

(** * The properties at work on sample data *)

(** From here on [int] is the reader of the sample data. *)
#[local] Existing Instance decimal_reader.

(** Without [inc_output] every row renders. *)
Lemma renders_without_output {Args : Type} (json_loads : string -> option (list (Item Args)))
    (reporter : string -> Args -> option string) (r : PluginOutput) :
  renders json_loads reporter false r.
Proof. intros [=]. Defined.

(** C2 on two rows and a filter on [plugin_type] and [owtf_rank]. *)
Lemma query_returns_wanted_witness :
  exists ds,
    get_all_poutputs sample_loads sample_reporter no_time no_time (Some filter_active) 1 false
      two_rows
    = (Ok ds, set_active two_rows 1)
    /\ d_row <$> ds ≡ₚ filter (wanted filter_active 1) (plugin_outputs two_rows)
    /\ forall r, r ∈ d_row <$> ds <-> r ∈ plugin_outputs two_rows /\ wanted filter_active 1 r.
Proof.
  apply (proj1 (query_returns_wanted sample_loads sample_reporter no_time no_time
                  (Some filter_active) 1 false two_rows
                  (fun r _ _ => renders_without_output sample_loads sample_reporter r)));
    vm_compute; reflexivity.
Defined.

(** C2 as it is stated fails: with [status] mapped to the empty string the
    query returns rows whose status is not the empty string. *)
Lemma query_ignores_empty_string :
  exists ds s',
    get_all_poutputs sample_loads sample_reporter no_time no_time (Some filter_empty_status) 1 false two_rows
    = (Ok ds, s')
    /\ d_row <$> ds = [row_a; row_b]
    /\ stated_satisfies filter_empty_status row_a = false.
Proof. eexists _, _. split; [vm_compute; reflexivity |]. split; reflexivity. Qed.

(** C6: a limit given as the single string 1 sets no bound: both rows of
    the target come back, where the claim has the value used as the bound
    and one row returned. The same value as the one-element list gives one
    row, and a single string is what the filter fields take: [user_rank]
    given as the string 2 selects the one row of that rank. *)
Theorem single_limit_value_is_ignored :
  (exists ds s',
      get_all_poutputs sample_loads sample_reporter no_time no_time
        (Some filter_limit_string) 1 false two_rows
      = (Ok ds, s')
      /\ d_row <$> ds = [row_a; row_b])
  /\ stated_page_bound (filter_limit_string !! "limit") = Some (Some 1%Z)
  /\ apply_limit (Some 1%Z) [row_a; row_b] = [row_a]
  /\ (exists ds s',
        get_all_poutputs sample_loads sample_reporter no_time no_time
          (Some {[ "limit" := PList ["1"] ]}) 1 false two_rows
        = (Ok ds, s')
        /\ d_row <$> ds = [row_a])
  /\ (exists ds s',
        get_all_poutputs sample_loads sample_reporter no_time no_time
          (Some {[ "user_rank" := PStr "2" ]}) 1 false two_rows
        = (Ok ds, s')
        /\ d_row <$> ds = [row_b]).
Proof.
  split; [eexists _, _; split; [vm_compute; reflexivity | reflexivity] |].
  split; [vm_compute; reflexivity |]. split; [reflexivity |].
  split; eexists _, _; (split; [vm_compute; reflexivity | reflexivity]).
Qed.

(** X27 with an offset and a limit given as lists. *)
Lemma pagination_of_list_bounds_witness :
  exists ds,
    get_all_poutputs sample_loads sample_reporter no_time no_time (Some filter_limit_list) 1
      false two_rows
    = (Ok ds, set_active two_rows 1)
    /\ d_row <$> ds
       = apply_limit (Some 1%Z) (apply_offset (Some 1%Z)
           (sort_rows (filter (wanted filter_limit_list 1) (plugin_outputs two_rows))))
    /\ Sorted key_le (sort_rows (filter (wanted filter_limit_list 1) (plugin_outputs two_rows)))
    /\ (forall rows, apply_limit None (apply_offset None rows) = rows).
Proof.
  apply (pagination_of_list_bounds sample_loads sample_reporter no_time no_time
           filter_limit_list 1 false two_rows (Some 1%Z) (Some 1%Z));
    try (vm_compute; reflexivity).
  - vm_compute. eexists. split; reflexivity.
  - vm_compute. eexists. split; reflexivity.
  - intros r _ _. apply renders_without_output.
Defined.

(** C7 with a [user_rank] that is a word. *)
Lemma bad_integer_rejected_witness :
  (forall for_delete, poutput_gen_query filter_rank_word 1 for_delete = Raise integer_error)
  /\ (forall inc s, exists s',
         get_all_poutputs sample_loads sample_reporter no_time no_time (Some filter_rank_word) 1 inc s
         = (Raise integer_error, s') /\ same_store s s')
  /\ (forall s, delete_all_poutput filter_rank_word 1 s = (Raise integer_error, s)).
Proof.
  apply (bad_integer_rejected sample_loads sample_reporter no_time no_time filter_rank_word (PStr "high") 1).
  - left. vm_compute. reflexivity.
  - vm_compute. reflexivity.
  - discriminate.
Defined.

(** C7 as it is stated fails: the empty string is not integer-parseable, yet
    the query with [user_rank] mapped to it runs. *)
Lemma empty_rank_is_not_rejected :
  not_parseable (PStr "")
  /\ filter_rank_empty !! "user_rank" = Some (PStr "")
  /\ exists ds s',
       get_all_poutputs sample_loads sample_reporter no_time no_time (Some filter_rank_empty) 1 false two_rows
       = (Ok ds, s').
Proof.
  split; [reflexivity |]. split; [vm_compute; reflexivity |].
  eexists _, _. vm_compute. reflexivity.
Qed.

(** The sample table has no two rows of one identity. *)
Lemma table_ok_two_rows : table_ok (plugin_outputs two_rows).
Proof. unfold table_ok. apply (bool_decide_unpack _). vm_compute. exact I. Defined.

(** C1 for two saves of one plugin with different outputs. *)
Lemma save_twice_one_record_witness :
  exists s1 s2 r,
    save_plugin_output sample_dumps example_plugin [mkItem "text" "first"] 1 two_rows
    = (Ok tt, s1)
    /\ save_plugin_output sample_dumps example_plugin sample_output 1 s1 = (Ok tt, s2)
    /\ rows_of_key (1%Z, "web", "active", "OWTF-003") (plugin_outputs s2) = [r]
    /\ plugin_key r = "c"
    /\ output r = Some (sample_dumps sample_output)
    /\ status r = "done"
    /\ start_time r = 10%Z
    /\ end_time r = 20%Z
    /\ owtf_rank r = 4%Z
    /\ output_path r = None
    /\ committed_outputs s2 = plugin_outputs s2
    /\ table_ok (plugin_outputs s2).
Proof.
  apply (save_twice_one_record sample_dumps two_rows example_plugin example_plugin
           [mkItem "text" "first"] sample_output 1);
    try reflexivity.
  exact table_ok_two_rows.
Defined.

(** C9 for a plugin whose artifact directory is not on disk. *)
Lemma output_path_only_if_directory_witness :
  (exists s',
      save_plugin_output plain example_plugin "whole" 1 two_rows = (Ok tt, s')
      /\ rows_of_key (1%Z, "web", "active", "OWTF-003") (plugin_outputs s') <> []
      /\ forall r, r ∈ rows_of_key (1%Z, "web", "active", "OWTF-003") (plugin_outputs s') ->
           (output_path r <> None -> plugin_dir_exists example_plugin two_rows = true)
           /\ (plugin_dir_exists example_plugin two_rows = false -> output_path r = None)
           /\ (plugin_dir_exists example_plugin two_rows = true ->
               output_path r = p_output_path example_plugin))
  /\ (exists s',
      save_partial_output plain example_plugin "whole" "timed out" 1 two_rows = (Ok tt, s')
      /\ rows_of_key (1%Z, "web", "active", "OWTF-003") (plugin_outputs s') <> []
      /\ forall r, r ∈ rows_of_key (1%Z, "web", "active", "OWTF-003") (plugin_outputs s') ->
           (output_path r <> None -> plugin_dir_exists example_plugin two_rows = true)
           /\ (plugin_dir_exists example_plugin two_rows = false -> output_path r = None)
           /\ (plugin_dir_exists example_plugin two_rows = true ->
               output_path r = p_output_path example_plugin)).
Proof.
  exact (output_path_only_if_directory plain two_rows example_plugin "whole" "timed out" 1
           eq_refl).
Defined.

(** C3 on the sample table, one of whose rows has an artifact directory. *)
Lemma delete_everything_of_target_witness :
  exists s' dirs,
    delete_all_poutput ∅ 1 two_rows = (Ok tt, s')
    /\ plugin_outputs s' = filter (fun r => target_id r <> 1%Z) (plugin_outputs two_rows)
    /\ filter (fun r => target_id r = 1%Z) (plugin_outputs s') = []
    /\ committed_outputs s' = plugin_outputs s'
    /\ (forall r p, r ∈ plugin_outputs two_rows -> target_id r = 1%Z ->
          output_path r = Some p -> p <> "" -> artifact_dir two_rows p ∉ fs s')
    /\ (forall p, p ∈ fs s' -> p ∈ fs two_rows)
    /\ trail s' = (trail two_rows ++ (EvRmTree <$> dirs) ++ [EvDelete; EvCommit])%list
    /\ (forall d, d ∈ dirs ->
          d ∈ fs two_rows
          /\ exists r p, r ∈ plugin_outputs two_rows /\ target_id r = 1%Z
                         /\ output_path r = Some p /\ d = artifact_dir two_rows p).
Proof. apply (delete_everything_of_target two_rows 1). reflexivity. Defined.

(** The ranks of the two sample rows are within range. *)
Lemma ranks_in_range_two_rows : ranks_in_range [row_a; row_b].
Proof.
  intros r Hr. unfold rank_in_range.
  apply elem_of_cons in Hr as [-> | Hr]; [cbn; lia |].
  apply elem_of_cons in Hr as [-> | Hr]; [cbn; lia | inversion Hr].
Defined.

(** C4: one row counted under its computed rank 3, one under its user rank
    2, and between them a row of a target of another session, its rank out
    of range, that is not counted. *)
Lemma severity_histogram_counts_witness :
  get_severity_freq 1 (session_state [row_a; row_elsewhere; row_b])
  = Ok {| data := [ mkBucket 5 "Critical" 0; mkBucket 4 "High" 0; mkBucket 3 "Medium" 1;
                    mkBucket 2 "Low" 1; mkBucket 1 "Info" 0; mkBucket 0 "Passing" 0 ] |}.
Proof.
  rewrite (severity_histogram_counts (session_state [row_a; row_elsewhere; row_b]) 1).
  - vm_compute. reflexivity.
  - intros r Hr Hs. unfold rank_in_range.
    apply elem_of_cons in Hr as [-> | Hr]; [cbn; lia |].
    apply elem_of_cons in Hr as [-> | Hr].
    + apply (bool_decide_pack _) in Hs. vm_compute in Hs. destruct Hs.
    + apply elem_of_cons in Hr as [-> | Hr]; [cbn; lia | inversion Hr].
Defined.

(** C10 on rows within range, on a row of rank -7, and on a row of rank -2. *)
Lemma severity_index_safety_witness :
  (exists env, get_severity_freq 1 (session_state [row_a; row_b]) = Ok env
               /\ length (data env) = 6)
  /\ get_severity_freq 1 (session_state [row_a; row_low]) = Raise IndexError
  /\ get_severity_freq 1 (session_state [row_a; row_wrap])
     = Ok {| data := [ mkBucket 5 "Critical" 0; mkBucket 4 "High" 1; mkBucket 3 "Medium" 1;
                       mkBucket 2 "Low" 0; mkBucket 1 "Info" 0; mkBucket 0 "Passing" 0 ] |}.
Proof.
  split; [| split].
  - apply (proj1 (severity_index_safety (session_state [row_a; row_b]) 1)).
    exact ranks_in_range_two_rows.
  - apply (proj1 (proj2 (severity_index_safety (session_state [row_a; row_low]) 1))
             row_low (-7)%Z).
    + right. left.
    + reflexivity.
    + right. lia.
  - apply (proj2 (proj2 (severity_index_safety (session_state [row_a; row_wrap]) 1))).
    intros r i Hr Hc.
    apply elem_of_cons in Hr as [-> | Hr]; [injection Hc as <-; lia |].
    apply elem_of_cons in Hr as [-> | Hr]; [injection Hc as <-; lia | inversion Hr].
Defined.

(** C10 as it is stated fails: a rank of -7 is -2 or less, yet the operation
    raises instead of counting from the end. *)
Lemma rank_below_minus_six_fails :
  user_rank row_low = (-7)%Z
  /\ (-7 <= -2)%Z
  /\ counted_at (session_targets 1 (session_state [row_a; row_low])) row_low = Some (-7)%Z
  /\ get_severity_freq 1 (session_state [row_a; row_low]) = Raise IndexError.
Proof. repeat split; try reflexivity. lia. Qed.

(** C5: the row had a computed rank of 3; the patch sets the user rank to 4. *)
Lemma user_rank_supersedes_witness :
  owtf_rank row_a = 3%Z
  /\ exists s' r,
       update_poutput "web" "active" "OWTF-001" patch_rank 1 two_rows = (Ok tt, s')
       /\ rows_of_key (1%Z, "web", "active", "OWTF-001") (plugin_outputs s') = [r]
       /\ user_rank r = 4%Z
       /\ owtf_rank r = (-1)%Z
       /\ fixed_part r = fixed_part row_a
       /\ committed_outputs s' = plugin_outputs s'.
Proof.
  split; [reflexivity |].
  apply (user_rank_supersedes two_rows "web" "active" "OWTF-001" patch_rank 1 row_a
           (PList ["4"]) 4%Z);
    try discriminate.
  - right. left.
  - reflexivity.
  - exact table_ok_two_rows.
  - reflexivity.
  - vm_compute. reflexivity.
  - vm_compute. reflexivity.
Defined.

(** C5 as it is stated fails: the record with the empty group matches the
    group, type, code and target given, the update with a rank of 4
    succeeds, and the record still has no user rank and its computed rank
    of 3; the record patched is the first of those with the type and code,
    the empty group constraining nothing. *)
Lemma empty_group_patches_another_record :
  row_nogroup ∈ plugin_outputs nogroup_state
  /\ natural_key row_nogroup = (1%Z, "", "active", "OWTF-001")
  /\ table_ok (plugin_outputs nogroup_state)
  /\ decimal_int (patch_value (PList ["4"])) = Some 4%Z
  /\ exists s',
       update_poutput "" "active" "OWTF-001" patch_rank 1 nogroup_state = (Ok tt, s')
       /\ rows_of_key (1%Z, "", "active", "OWTF-001") (plugin_outputs s') = [row_nogroup]
       /\ user_rank row_nogroup = (-1)%Z
       /\ owtf_rank row_nogroup = 3%Z
       /\ user_rank <$> rows_of_key (1%Z, "web", "active", "OWTF-001") (plugin_outputs s')
          = [4%Z].
Proof.
  split; [left |]. split; [reflexivity |].
  split; [unfold table_ok; apply (bool_decide_unpack _); vm_compute; exact I |].
  split; [vm_compute; reflexivity |].
  eexists. split; [vm_compute; reflexivity |]. repeat split; vm_compute; reflexivity.
Qed.

(** C8: three rows, two queued items, one busy worker. *)
Lemma progress_counts_witness :
  plugin_count_output busy_state = {| complete_count := 3; left_count := 3 |}.
Proof.
  apply (proj2 (proj2 (progress_counts busy_state))); reflexivity.
Defined.

(** X1 on the second page of the sample table. *)
Lemma query_stays_in_target_witness :
  exists ds s',
    get_all_poutputs sample_loads sample_reporter no_time no_time (Some filter_limit_list) 1 false two_rows
    = (Ok ds, s')
    /\ (forall d, d ∈ ds ->
          d_row d ∈ plugin_outputs two_rows /\ target_id (d_row d) = 1%Z
          /\ satisfies filter_limit_list (d_row d) = true)
    /\ Sorted key_le (d_row <$> ds)
    /\ d_row <$> ds
       `sublist_of` sort_rows (filter (wanted filter_limit_list 1) (plugin_outputs two_rows)).
Proof.
  eexists _, _. split; [vm_compute; reflexivity |].
  apply (query_stays_in_target sample_loads sample_reporter no_time no_time (Some filter_limit_list) 1 false two_rows
           _ (set_active two_rows 1)).
  vm_compute. reflexivity.
Defined.

(** X2: two rows selected, an offset of one and a limit of one. *)
Lemma query_page_length_witness :
  exists ds s',
    get_all_poutputs sample_loads sample_reporter no_time no_time (Some filter_limit_list) 1 false two_rows
    = (Ok ds, s')
    /\ length ds
       = page_length (Some 1%Z) (Some 1%Z)
           (length (filter (wanted filter_limit_list 1) (plugin_outputs two_rows))).
Proof.
  eexists _, _. split; [vm_compute; reflexivity |].
  apply (query_page_length sample_loads sample_reporter no_time no_time (Some filter_limit_list) 1 false two_rows
           _ (set_active two_rows 1) (Some 1%Z) (Some 1%Z));
    vm_compute; reflexivity.
Defined.

(** X5 with a limit whose first element is a word. *)
Lemma bad_page_bound_rejected_witness :
  (forall for_delete, poutput_gen_query filter_bad_limit 1 for_delete = Raise integer_error)
  /\ (forall inc s,
        get_all_poutputs sample_loads sample_reporter no_time no_time (Some filter_bad_limit) 1 inc s
        = (Raise integer_error, set_active s 1))
  /\ (forall s, delete_all_poutput filter_bad_limit 1 s = (Raise integer_error, s)).
Proof.
  apply (bad_page_bound_rejected sample_loads sample_reporter no_time no_time filter_bad_limit "ten" ["2"] 1).
  - right. vm_compute. reflexivity.
  - vm_compute. reflexivity.
Defined.

(** X4 with a [target_id] in the filter. *)
Lemma unrecognized_field_is_ignored_witness :
  poutput_gen_query (<["target_id" := PStr "7"]> filter_active) 1 false
  = poutput_gen_query filter_active 1 false
  /\ poutput_gen_query (delete "target_id" filter_active) 1 false
     = poutput_gen_query filter_active 1 false.
Proof.
  apply (unrecognized_field_is_ignored filter_active "target_id" (PStr "7") 1 false).
  apply (bool_decide_unpack _). vm_compute. exact I.
Defined.

(** X6: the filter selects one of the two sample rows. *)
Lemma delete_removes_what_query_returns_witness :
  exists s' dirs,
    delete_all_poutput filter_active 1 two_rows = (Ok tt, s')
    /\ plugin_outputs s' = filter (fun r => ~ wanted filter_active 1 r) (plugin_outputs two_rows)
    /\ committed_outputs s' = plugin_outputs s'
    /\ (forall inc, get_all_poutputs sample_loads sample_reporter no_time no_time (Some filter_active) 1 inc s'
                    = (Ok [], set_active s' 1))
    /\ (forall r p, r ∈ plugin_outputs two_rows -> wanted filter_active 1 r ->
          output_path r = Some p -> p <> "" -> artifact_dir two_rows p ∉ fs s')
    /\ trail s' = (trail two_rows ++ (EvRmTree <$> dirs) ++ [EvDelete; EvCommit])%list.
Proof.
  apply (delete_removes_what_query_returns sample_loads sample_reporter no_time no_time filter_active 1 two_rows);
    vm_compute; reflexivity.
Defined.

(** X7 on a store that refuses the commit. *)
Lemma delete_is_not_rolled_back_witness :
  exists s' dirs,
    delete_all_poutput filter_unknown 1 refusing_state = (Raise SQLAlchemyError, s')
    /\ committed_outputs s' = committed_outputs refusing_state
    /\ plugin_outputs s'
       = filter (fun r => ~ wanted filter_unknown 1 r) (plugin_outputs refusing_state)
    /\ (forall r p, r ∈ plugin_outputs refusing_state -> wanted filter_unknown 1 r ->
          output_path r = Some p -> p <> "" -> artifact_dir refusing_state p ∉ fs s')
    /\ trail s' = (trail refusing_state ++ (EvRmTree <$> dirs) ++ [EvDelete])%list.
Proof.
  apply (delete_is_not_rolled_back filter_unknown 1 refusing_state); vm_compute; reflexivity.
Defined.

(** X8: no sample row has the code asked for, and the rank of the patch is a
    word. *)
Lemma update_without_row_changes_nothing_witness :
  update_poutput "web" "active" "OWTF-404" patch_bad_rank 1 two_rows = (Ok tt, two_rows).
Proof.
  apply (update_without_row_changes_nothing "web" "active" "OWTF-404" patch_bad_rank 1 two_rows);
    try discriminate.
  intros r Hr.
  apply elem_of_cons in Hr as [-> | Hr]; [discriminate |].
  apply elem_of_cons in Hr as [-> | Hr]; [discriminate | inversion Hr].
Defined.

(** X9: the same patch for a plugin that has a row. *)
Lemma update_rejects_bad_rank_witness :
  update_poutput "web" "active" "OWTF-001" patch_bad_rank 1 two_rows
  = (Raise integer_error, two_rows).
Proof.
  apply (update_rejects_bad_rank "web" "active" "OWTF-001" patch_bad_rank 1 two_rows row_a
           (PList ["high"]));
    try discriminate.
  - right. left.
  - reflexivity.
  - vm_compute. reflexivity.
  - reflexivity.
  - vm_compute. reflexivity.
Defined.

(** X10 for a patch that ranks one of the two sample rows. *)
Lemma update_changes_ranks_and_notes_only_witness :
  exists s',
    update_poutput "web" "active" "OWTF-001" patch_rank 1 two_rows = (Ok tt, s')
    /\ fixed_part <$> plugin_outputs s' = fixed_part <$> plugin_outputs two_rows
    /\ table_ok (plugin_outputs s')
    /\ fs s' = fs two_rows /\ works s' = works two_rows.
Proof.
  eexists. split; [vm_compute; reflexivity |].
  apply (update_changes_ranks_and_notes_only "web" "active" "OWTF-001" patch_rank 1 two_rows).
  - exact table_ok_two_rows.
  - vm_compute. reflexivity.
Defined.

(** X11: notes for the row the user had ranked 2. *)
Lemma update_notes_keeps_ranks_witness :
  exists s',
    update_poutput "web" "passive" "OWTF-002" patch_notes 1 two_rows = (Ok tt, s')
    /\ rows_of_key (natural_key row_b) (plugin_outputs s') = [with_notes row_b "checked"].
Proof.
  apply (update_notes_keeps_ranks "web" "passive" "OWTF-002" patch_notes 1 two_rows row_b
           (PList ["checked"; "twice"])).
  - vm_compute. reflexivity.
  - exact table_ok_two_rows.
  - reflexivity.
  - vm_compute. reflexivity.
  - vm_compute. reflexivity.
  - reflexivity.
Defined.

(** X12 on a store that refuses the commit and holds an uncommitted row. *)
Lemma refused_save_is_rolled_back_witness :
  exists s',
    save_plugin_output plain example_plugin "whole" 1 refusing_state
    = (Raise SQLAlchemyError, s')
    /\ save_partial_output plain example_plugin "whole" "timed out" 1 refusing_state
       = (Raise SQLAlchemyError, s')
    /\ plugin_outputs s' = committed_outputs refusing_state
    /\ committed_outputs s' = committed_outputs refusing_state
    /\ fs s' = fs refusing_state
    /\ trail s' = (trail refusing_state ++ [EvRollback])%list.
Proof.
  exact (refused_save_is_rolled_back plain example_plugin "whole" "timed out" 1 refusing_state
           eq_refl).
Defined.

(** X13: the plugin of the row the user had ranked 2 runs again. *)
Lemma save_again_keeps_review_and_error_witness :
  (exists s' r',
      save_plugin_output plain plugin_b "again" 1 two_rows = (Ok tt, s')
      /\ rows_of_key (plugin_natural_key plugin_b 1) (plugin_outputs s') = [r']
      /\ user_rank r' = user_rank row_b /\ user_notes r' = user_notes row_b
      /\ error r' = error row_b
      /\ owtf_rank r' = p_owtf_rank plugin_b)
  /\ (exists s' r',
      save_partial_output plain plugin_b "again" "timed out" 1 two_rows = (Ok tt, s')
      /\ rows_of_key (plugin_natural_key plugin_b 1) (plugin_outputs s') = [r']
      /\ user_rank r' = user_rank row_b /\ user_notes r' = user_notes row_b
      /\ error r' = Some "timed out"
      /\ owtf_rank r' = p_owtf_rank plugin_b).
Proof.
  apply (save_again_keeps_review_and_error plain plugin_b "again" "timed out" 1 two_rows row_b).
  - left.
  - reflexivity.
  - exact table_ok_two_rows.
  - reflexivity.
Defined.

(** X14 for a plugin that had not run. *)
Lemma save_adds_at_most_one_row_witness :
  exists s',
    save_plugin_output plain example_plugin "whole" 1 two_rows = (Ok tt, s')
    /\ length (plugin_outputs s')
       = length (plugin_outputs two_rows)
         + (if plugin_already_run example_plugin 1 two_rows then 0 else 1)
    /\ (forall k, k <> plugin_natural_key example_plugin 1 ->
          rows_of_key k (plugin_outputs s') = rows_of_key k (plugin_outputs two_rows))
    /\ plugin_already_run example_plugin 1 s' = true
    /\ (plugin_already_run example_plugin 1 two_rows = false ->
        exists r', rows_of_key (plugin_natural_key example_plugin 1) (plugin_outputs s') = [r']
                   /\ user_rank r' = (-1)%Z /\ user_notes r' = None /\ error r' = None).
Proof.
  exact (save_adds_at_most_one_row plain example_plugin "whole" 1 two_rows
           table_ok_two_rows eq_refl).
Defined.

(** X15 on the sample table. *)
Lemma output_exists_follows_the_table_witness :
  (exists s', save_plugin_output plain example_plugin "whole" 1 two_rows = (Ok tt, s')
              /\ plugin_output_exists (p_key example_plugin) 1 s' = true)
  /\ (exists s',
        save_partial_output plain example_plugin "whole" "timed out" 1 two_rows = (Ok tt, s')
        /\ plugin_output_exists (p_key example_plugin) 1 s' = true)
  /\ (exists s', delete_all_poutput ∅ 1 two_rows = (Ok tt, s')
                 /\ forall key, plugin_output_exists key 1 s' = false).
Proof.
  exact (output_exists_follows_the_table plain example_plugin "whole" "timed out" 1 two_rows
           eq_refl).
Defined.

(** X16 on the sample table. *)
Lemma nothing_has_run_after_delete_witness :
  exists s',
    delete_all_poutput ∅ 1 two_rows = (Ok tt, s')
    /\ (forall plugin, plugin_already_run plugin 1 s' = false)
    /\ (forall plugin t', t' <> 1%Z ->
          plugin_already_run plugin t' s' = plugin_already_run plugin t' two_rows).
Proof. exact (nothing_has_run_after_delete 1 two_rows eq_refl). Defined.

(** X17 for the plugin of the row the user had ranked 2. *)
Lemma already_run_iff_update_finds_row_witness :
  plugin_already_run plugin_b 1 two_rows = true
  <-> exists obj,
        found_by_update (p_group plugin_b) (p_type plugin_b) (p_code plugin_b) 1
          (plugin_outputs two_rows)
        = Ok (Some obj).
Proof. apply (already_run_iff_update_finds_row plugin_b 1 two_rows); discriminate. Defined.

(** X18: a row of a target outside the session, its rank out of range, put
    between the two sample rows. *)
Lemma histogram_ignores_other_targets_witness :
  get_severity_freq 1 (session_state [row_a; row_elsewhere; row_b])
  = get_severity_freq 1 (session_state [row_a; row_b]).
Proof.
  apply (histogram_ignores_other_targets 1 (session_state [row_a; row_b])
           (session_state [row_a; row_elsewhere; row_b]));
    vm_compute; reflexivity.
Defined.

(** X19 for a session that does not exist, over rows that make the histogram
    of session 1 fail. *)
Lemma histogram_of_session_without_rows_witness :
  get_severity_freq 7 (session_state [row_a; row_low])
  = Ok {| data := rev severity_frequency |}.
Proof.
  apply (histogram_of_session_without_rows 7 (session_state [row_a; row_low])).
  intros r Hr.
  apply elem_of_cons in Hr as [-> | Hr]; [reflexivity |].
  apply elem_of_cons in Hr as [-> | Hr]; [reflexivity | inversion Hr].
Defined.

(** X20: the two sample rows and a row of another session. *)
Lemma histogram_total_witness :
  exists env,
    get_severity_freq 1 (session_state [row_a; row_elsewhere; row_b]) = Ok env
    /\ total_value (data env)
       = Z.of_nat (length (filter
           (fun r => is_Some (counted_at
                                (session_targets 1 (session_state [row_a; row_elsewhere; row_b]))
                                r))
           (plugin_outputs (session_state [row_a; row_elsewhere; row_b]))))
    /\ length (data env) = 6.
Proof.
  eexists. split; [vm_compute; reflexivity |].
  apply (histogram_total 1 (session_state [row_a; row_elsewhere; row_b])).
  vm_compute. reflexivity.
Defined.

(** X22: the status the sample rows have. *)
Lemma unique_values_select_rows_witness :
  returns_some (fun r => target_id r = 1%Z /\ status r = "done")
    (get_all_poutputs sample_loads sample_reporter no_time no_time (Some {[ "status" := PStr "done" ]}) 1 false
       two_rows).
Proof.
  apply (proj1 (proj2 (proj2 (unique_values_select_rows sample_loads sample_reporter
                                no_time no_time 1 false two_rows
                                (fun r _ _ =>
                                   renders_without_output sample_loads sample_reporter r))))).
  - apply (bool_decide_unpack _). vm_compute. exact I.
  - discriminate.
Defined.

(** X25 on the URL of a target page. *)
Lemma reverse_url_keeps_clean_urls_witness :
  reverse_url "/ui/targets/7" = "/ui/targets/7".
Proof.
  apply (reverse_url_keeps_clean_urls "/ui/targets/7").
  - apply drop_question_marks_fixed. reflexivity.
  - apply before_none_fixed. reflexivity.
Defined.

(** X26 for the sample plugin and the sample output: the text and the rule
    of the output come back as HTML. *)
Lemma saved_output_is_read_back_witness :
  exists s' d,
    save_plugin_output sample_dumps example_plugin sample_output 1 two_rows = (Ok tt, s')
    /\ get_all_poutputs sample_loads sample_reporter no_time no_time
         (Some (plugin_dict "web" "active" "OWTF-003")) 1 true s'
       = (Ok [d], set_active s' 1)
    /\ plugin_key (d_row d) = "c"
    /\ output (d_row d) = Some (sample_dumps sample_output)
    /\ d_output d = Some (Some "<p>scan finished</p><hr>").
Proof.
  destruct (saved_output_is_read_back sample_dumps sample_loads sample_reporter no_time
              no_time example_plugin sample_output 1 two_rows)
    as (s' & r & Hsave & _ & Hkey & _ & Hout & _ & Hhtml & _);
    try discriminate; [exact table_ok_two_rows | reflexivity |].
  destruct (Hhtml sample_output "<p>scan finished</p><hr>" eq_refl eq_refl)
    as (d & Hget & Hrow & Hd & _).
  exists s', d. rewrite Hrow. auto.
Defined.

(** The stored output of [row_rendered] renders. *)
Lemma row_rendered_renders inc : renders sample_loads sample_reporter inc row_rendered.
Proof.
  intros _ raw [= <-] _. exists sample_output, "<p>scan finished</p><hr>".
  split; vm_compute; reflexivity.
Defined.

(** X23: an output that renders and a row without output give their two
    dictionaries; an output that is the JSON text of a string raises. *)
Lemma output_dicts_follow_the_rows_witness :
  (exists ds,
      get_plugin_output_dicts sample_loads sample_reporter no_time no_time
        [row_rendered; row_a] 1 true two_rows
      = (Ok ds, set_active two_rows 1)
      /\ d_row <$> ds = [row_rendered; row_a]
      /\ Forall (fun d => d_output d = None <-> true = false) ds)
  /\ get_plugin_output_dicts sample_loads sample_reporter no_time no_time
       [row_rendered; row_unrendered] 1 true two_rows
     = (Raise RenderingError, set_active two_rows 1).
Proof.
  split; [| vm_compute; reflexivity].
  destruct (output_dicts_follow_the_rows sample_loads sample_reporter no_time no_time
              [row_rendered; row_a] 1 true two_rows) as (r & Hrun & Hshape & Hret).
  destruct Hret as [ds ->].
  - intros obj Hobj.
    apply elem_of_cons in Hobj as [-> | Hobj]; [apply row_rendered_renders |].
    apply elem_of_cons in Hobj as [-> | Hobj]; [intros _ raw [=] | inversion Hobj].
  - exists ds. split; [exact Hrun | exact Hshape].
Defined.

(** X3 on the sample table. *)
Lemma query_is_read_only_witness :
  exists r s',
    get_all_poutputs sample_loads sample_reporter no_time no_time (Some filter_active) 1 false
      two_rows
    = (r, s')
    /\ s' = set_active two_rows 1
    /\ same_store two_rows s'
    /\ get_all_poutputs sample_loads sample_reporter no_time no_time (Some filter_active) 1
         false s'
       = (r, s').
Proof.
  eexists _, _. split; [vm_compute; reflexivity |].
  apply (query_is_read_only sample_loads sample_reporter no_time no_time (Some filter_active)
           1 false two_rows);
    [vm_compute; reflexivity | discriminate].
Defined.
